(** * mloda execution core: a shallow embedding and its properties

    The development follows the Python sources of the execution core:

    - [mloda_core/core/step/join_step.py]                      (module [JoinStep])
    - [mloda_core/abstract_plugins/components/feature_set.py]  (module [FeatureSet])
    - [mloda_core/abstract_plugins/components/merge/base_merge_engine.py]
      and the pandas merge engine                              (module [Merge])
    - [mloda_core/abstract_plugins/compute_frame_work.py]      (module [ComputeFrameWork])

    Python objects are records, [Optional] is [option], sets of uuids are
    [gset], raised exceptions are the left summand of a result, and the
    methods that mutate [self] run in a small state-and-exception monad. *)

From Stdlib Require Import ZArith String List Bool Lia.
From stdpp Require Import base option gmap sets list strings pretty.

Local Open Scope list_scope.
Local Open Scope nat_scope.

(** ** Python values, exceptions *)

(** A [uuid.UUID].  [str(uuid)] is its printed form, which is injective. *)
Definition UUID := N.

Definition str_of_uuid (u : UUID) : string := pretty u.

(** The values that flow through the untyped ([Any]) positions of the code.
    An instance of a user or library class carries the names of the classes
    on its method resolution order (its own class first) and an identity. *)
Inductive PyVal :=
| PyNone
| PyBool (b : bool)
| PyInt (z : Z)
| PyStr (s : string)
| PyObj (mro : list string) (oid : nat).

#[global] Instance PyVal_eq_dec : EqDecision PyVal.
Proof. solve_decision. Defined.

(** [bool(v)]: the truth value Python's [if v:] / [not v] tests. *)
Definition truthy (v : PyVal) : bool :=
  match v with
  | PyNone => false
  | PyBool b => b
  | PyInt z => negb (z =? 0)%Z
  | PyStr s => negb (String.eqb s "")
  | PyObj _ _ => true
  end.

(** [v is None], [v is True]: identity with the two singletons. *)
Definition is_None (v : PyVal) : bool :=
  match v with PyNone => true | _ => false end.

Definition is_True (v : PyVal) : bool :=
  match v with PyBool true => true | _ => false end.

(** [isinstance(v, str)]. *)
Definition is_str (v : PyVal) : bool :=
  match v with PyStr _ => true | _ => false end.

(** The classes a value is an instance of. *)
Definition mro_of (v : PyVal) : list string :=
  match v with
  | PyNone => ["NoneType"; "object"]
  | PyBool _ => ["bool"; "int"; "object"]
  | PyInt _ => ["int"; "object"]
  | PyStr _ => ["str"; "object"]
  | PyObj mro _ => mro
  end.

(** [type(v)], by name. *)
Definition type_of (v : PyVal) : string := hd "object" (mro_of v).

(** Truth value of an [Optional[str]] such as a location. *)
Definition str_truthy (s : option string) : bool :=
  match s with
  | None => false
  | Some s => negb (String.eqb s "")
  end.

Inductive Exc :=
| ValueError (detail : PyVal)
| NotImplementedError (msg : string)
| TypeError (msg : string)
| IndexError (msg : string)
| KeyError (msg : string)
| ImportError (msg : string)
| AttributeError (msg : string).

(** What a call yields: an exception raised or a value returned. *)
Definition Result (A : Type) : Type := Exc + A.

Definition Raise {A} (e : Exc) : Result A := inl e.
Definition Return {A} (a : A) : Result A := inr a.

Definition is_raise {A} (r : Result A) : bool :=
  match r with inl _ => true | inr _ => false end.

(** ** Index and Link

    [mloda_core/abstract_plugins/components/index/index.py] and
    [mloda_core/abstract_plugins/components/link.py] *)

(** Modelled from the spec: the [Index] class is not among the sources at hand.
    "An ordered tuple of one or more column names identifying a join key";
    it "reports whether the index is composite" (multi-column). *)
Record Index := { index : list string }.

Definition is_multi_index (i : Index) : bool := 1 <? length (index i).

(** [self.index[0]], which raises [IndexError] on the empty tuple. *)
Definition index_0 (i : Index) : Result string :=
  match index i with
  | [] => Raise (IndexError "tuple index out of range")
  | c :: _ => Return c
  end.

(** Modelled from the spec: the [JoinType] enum is not among the sources at
    hand.  "join type in {inner, left, right, full-outer}"; [JoinOther] stands
    for any further member, which the dispatcher's last branch rejects. *)
Inductive JoinType :=
| INNER | LEFT | RIGHT | OUTER
| JoinOther (name : string).

(** Modelled from the spec: the [Link] class is not among the sources at hand.
    The join step reads [jointype], [left_index], [right_index] and [uuid]. *)
Record Link := {
  jointype : JoinType;
  left_index : Index;
  right_index : Index;
  link_uuid : UUID
}.

(** ** Merge engines *)

Module Merge.

(** The four verbs a backend supplies; [D] is the backend's physical data. *)
Record MergeEngine (D : Type) := {
  class_name : string;
  merge_inner : D -> D -> Index -> Index -> Result D;
  merge_left : D -> D -> Index -> Index -> Result D;
  merge_right : D -> D -> Index -> Index -> Result D;
  merge_full_outer : D -> D -> Index -> Index -> Result D
}.
Arguments class_name {D}.
Arguments merge_inner {D}.
Arguments merge_left {D}.
Arguments merge_right {D}.
Arguments merge_full_outer {D}.

Definition not_yet_implemented {D} (what cls : string) : Result D :=
  Raise (ValueError (PyStr ("JoinType " +:+ what +:+ " are not yet implemented " +:+ cls))).

(** [BaseMergeEngine]: every verb raises until a subclass overrides it. *)
Definition BaseMergeEngine (D : Type) (cls : string) : MergeEngine D := {|
  class_name := cls;
  merge_inner := fun _ _ _ _ => not_yet_implemented "inner" cls;
  merge_left := fun _ _ _ _ => not_yet_implemented "left" cls;
  merge_right := fun _ _ _ _ => not_yet_implemented "right" cls;
  merge_full_outer := fun _ _ _ _ => not_yet_implemented "full outer" cls
|}.

(** [BaseMergeEngine.merge], the final dispatcher. *)
Definition merge {D} (self : MergeEngine D)
    (left_data right_data : D) (jt : JoinType) (li ri : Index) : Result D :=
  match jt with
  | INNER => merge_inner self left_data right_data li ri
  | LEFT => merge_left self left_data right_data li ri
  | RIGHT => merge_right self left_data right_data li ri
  | OUTER => merge_full_outer self left_data right_data li ri
  | JoinOther name => not_yet_implemented ("JoinType." +:+ name) (class_name self)
  end.

(** *** The pandas engine *)

(** The signature of [pandas.merge] as the engine calls it:
    [pd.merge(left, right, left_on=.., right_on=.., how=..)]. *)
Definition PdMerge (D : Type) : Type :=
  D -> D -> string (* left_on *) -> string (* right_on *) -> string (* how *) -> Result D.

Section PandasMergeEngine.
Context {D : Type}.
(** The module global [pd]: [None] when the import failed. *)
Variable pd : option (PdMerge D).

Definition pd_merge : Result (PdMerge D) :=
  match pd with
  | None => Raise (ImportError
      "Pandas is not installed. To be able to use this framework, please install pandas.")
  | Some f => Return f
  end.

Definition merge_logic (join_type : string) (left_data right_data : D)
    (li ri : Index) (jt : JoinType) : Result D :=
  if is_multi_index li || is_multi_index ri then
    Raise (ValueError (PyStr "MultiIndex is not yet implemented PandasMergeEngine"))
  else
    match index_0 li with
    | inl e => Raise e
    | inr left_idx =>
      match index_0 ri with
      | inl e => Raise e
      | inr right_idx =>
        match pd_merge with
        | inl e => Raise e
        | inr f => f left_data right_data left_idx right_idx join_type
        end
      end
    end.

Definition PandasMergeEngine : MergeEngine D := {|
  class_name := "PandasMergeEngine";
  merge_inner := fun l r li ri => merge_logic "inner" l r li ri INNER;
  merge_left := fun l r li ri => merge_logic "left" l r li ri LEFT;
  merge_right := fun l r li ri => merge_logic "right" l r li ri RIGHT;
  merge_full_outer := fun l r li ri => merge_logic "outer" l r li ri OUTER
|}.
End PandasMergeEngine.

End Merge.

(** ** Tables and SQL joins *)

Module Sql.

(** Modelled from the spec: the physical data a merge works on belongs to
    classes that are not among the sources at hand (pandas' [DataFrame] for
    the one engine that is), and what a merge is to return is "a relational
    join equivalent to the corresponding SQL join semantics" on one key
    column per side.  A table is a list of column labels and a bag of rows.
    The joins are SQL's: the condition [l.a = r.b] holds only for two equal
    keys that are not NULL; an inner join has one row for every pair of rows
    for which it holds; an outer join adds, once each, the rows of a
    preserved side for which it holds with no row of the other side; the
    order of the rows of a result is not fixed. *)
Record Table := { columns : list string; rows : list (list PyVal) }.








Section Pairs.
Variables (i j : nat) (L R : list (list PyVal)).




End Pairs.





(** The tables of the example. *)
Definition left_data : Table :=
  {| columns := ["idx"; "col1"];
     rows := [[PyInt 1; PyStr "a"]; [PyInt 3; PyStr "b"]] |}.

Definition right_data : Table :=
  {| columns := ["idx"; "col2"];
     rows := [[PyInt 1; PyStr "x"]; [PyInt 2; PyStr "z"]] |}.




End Sql.

(** ** FeatureSet

    [mloda_core/abstract_plugins/components/feature_set.py] *)

Module FeatureSet.

(** Modelled from the spec: [Options], [FeatureName] and [Feature] are not
    among the sources at hand.  A feature has "identity = (name, options)",
    "a unique id" and "a flag marking it as an originally-requested
    feature"; [options.data] is a dictionary. *)
Record Options := { options_data : gmap string PyVal }.

Record FeatureName := { name_str : string }.

Record Feature := {
  name : FeatureName;
  options : Options;
  uuid : UUID;
  initial_requested_data : bool
}.

#[global] Instance Options_eq_dec : EqDecision Options.
Proof. solve_decision. Defined.
#[global] Instance FeatureName_eq_dec : EqDecision FeatureName.
Proof. solve_decision. Defined.

(** [Feature.__eq__]: same name and same options. *)
Definition feature_eqb (f g : Feature) : bool :=
  bool_decide (name f = name g) && bool_decide (options f = options g).

(** [set.add]: an element equal to a member leaves the set as it is. *)
Definition set_add (f : Feature) (s : list Feature) : list Feature :=
  if existsb (feature_eqb f) s then s else s ++ [f].

(** [set.discard]. *)
Definition set_discard (f : Feature) (s : list Feature) : list Feature :=
  List.filter (fun g => negb (feature_eqb f g)) s.

(** The feature set; [E] is what the [filter_engine] attribute holds. *)
Record t (E : Type) := {
  features : list Feature;
  fs_options : option Options;
  any_uuid : option UUID;
  filters : option (list PyVal);
  name_of_one_feature : option FeatureName;
  artifact_to_save : option string;
  artifact_to_load : option string;
  save_artifact : option PyVal;
  filter_engine : E
}.
Arguments features {E}.
Arguments fs_options {E}.
Arguments any_uuid {E}.
Arguments filters {E}.
Arguments name_of_one_feature {E}.
Arguments artifact_to_save {E}.
Arguments artifact_to_load {E}.
Arguments save_artifact {E}.
Arguments filter_engine {E}.

Section Methods.
Context {E : Type}.

(** [FeatureSet.__init__]; [base] is the class [BaseFilterEngine]. *)
Definition init (base : E) : t E := {|
  features := [];
  fs_options := None;
  any_uuid := None;
  filters := None;
  name_of_one_feature := None;
  artifact_to_save := None;
  artifact_to_load := None;
  save_artifact := None;
  filter_engine := base
|}.

Definition add (self : t E) (feature : Feature) : t E := {|
  features := set_add feature (features self);
  name_of_one_feature := Some (name feature);
  fs_options :=
    match fs_options self with
    | None => Some (options feature)
    | Some o => Some o
    end;
  any_uuid :=
    match any_uuid self with
    | None => Some (uuid feature)
    | Some u => Some u
    end;
  filters := filters self;
  artifact_to_save := artifact_to_save self;
  artifact_to_load := artifact_to_load self;
  save_artifact := save_artifact self;
  filter_engine := filter_engine self
|}.

Definition remove (self : t E) (feature : Feature) : t E := {|
  features := set_discard feature (features self);
  name_of_one_feature := name_of_one_feature self;
  fs_options := fs_options self;
  any_uuid := any_uuid self;
  filters := filters self;
  artifact_to_save := artifact_to_save self;
  artifact_to_load := artifact_to_load self;
  save_artifact := save_artifact self;
  filter_engine := filter_engine self
|}.

Definition set_filter_engine_attr {E'} (self : t E) (e : E') : t E' := {|
  features := features self;
  name_of_one_feature := name_of_one_feature self;
  fs_options := fs_options self;
  any_uuid := any_uuid self;
  filters := filters self;
  artifact_to_save := artifact_to_save self;
  artifact_to_load := artifact_to_load self;
  save_artifact := save_artifact self;
  filter_engine := e
|}.

Definition get_all_feature_ids (self : t E) : gset UUID :=
  list_to_set (map uuid (features self)).

Definition get_all_names (self : t E) : gset string :=
  list_to_set (map (fun f => name_str (name f)) (features self)).

Definition get_options (self : t E) : Result Options :=
  match fs_options self with
  | None => Raise (ValueError (PyStr
      "No options set. Call this after adding a feature to ensure Options are initialized."))
  | Some o => Return o
  end.

Definition get_name_of_one_feature (self : t E) : Result FeatureName :=
  match name_of_one_feature self with
  | None => Raise (ValueError (PyStr
      "No feature added yet. Add a feature before calling this method."))
  | Some n => Return n
  end.

(** A sequence of [add] calls, in order. *)
Definition add_all (self : t E) (fs : list Feature) : t E :=
  fold_left add fs self.

Definition set_artifact_to_load_attr (a : option string) (self : t E) : t E := {|
  features := features self;
  name_of_one_feature := name_of_one_feature self;
  fs_options := fs_options self;
  any_uuid := any_uuid self;
  filters := filters self;
  artifact_to_save := artifact_to_save self;
  artifact_to_load := a;
  save_artifact := save_artifact self;
  filter_engine := filter_engine self
|}.

Definition set_artifact_to_save_attr (a : option string) (self : t E) : t E := {|
  features := features self;
  name_of_one_feature := name_of_one_feature self;
  fs_options := fs_options self;
  any_uuid := any_uuid self;
  filters := filters self;
  artifact_to_save := a;
  artifact_to_load := artifact_to_load self;
  save_artifact := save_artifact self;
  filter_engine := filter_engine self
|}.

Definition set_filters_attr (fs : option (list PyVal)) (self : t E) : t E := {|
  features := features self;
  name_of_one_feature := name_of_one_feature self;
  fs_options := fs_options self;
  any_uuid := any_uuid self;
  filters := fs;
  artifact_to_save := artifact_to_save self;
  artifact_to_load := artifact_to_load self;
  save_artifact := save_artifact self;
  filter_engine := filter_engine self
|}.

(** [key in options.data.keys()]. *)
Definition options_has_key (o : Options) (key : string) : bool :=
  bool_decide (is_Some (options_data o !! key)).

(** [options.data.get(key, None)]. *)
Definition options_get (o : Options) (key : string) : PyVal :=
  default PyNone (options_data o !! key).

(** [add_artifact_name].  The loop runs over a Python set; [elements] fixes
    one order of it. *)
Definition add_artifact_name (self : t E) : Result (t E) :=
  match fs_options self with
  | None => Raise (ValueError (PyStr
      "No options set. Call this after adding a feature to ensure Options are initialized."))
  | Some o =>
    match List.find (options_has_key o) (elements (get_all_names self)) with
    | Some feature_name => Return (set_artifact_to_load_attr (Some feature_name) self)
    | None =>
      match get_name_of_one_feature self with
      | inl e => Raise e
      | inr n => Return (set_artifact_to_save_attr (Some (name_str n)) self)
      end
    end
  end.

Definition get_options_key (self : t E) (key : string) : Result PyVal :=
  match get_options self with
  | inl e => Raise e
  | inr o => Return (options_get o key)
  end.

Definition get_initial_requested_features (self : t E) : list FeatureName :=
  remove_dups (map name (List.filter initial_requested_data (features self))).

(** [add_filters]; the argument is a set of filters ([inr]) or something
    that is not a set ([inl]). *)
Definition add_filters (self : t E) (single_filters : PyVal + list PyVal)
  : Result (t E) :=
  match filters self with
  | Some _ => Raise (ValueError (PyStr
      "Filters already set. This should be called once during setup of the feature set."))
  | None =>
    match single_filters with
    | inl _ => Raise (ValueError (PyStr "Filters should be a set."))
    | inr fs => Return (set_filters_attr (Some fs) self)
    end
  end.

Definition get_artifact (self : t E) (config : Options) : PyVal := PyNone.
End Methods.

End FeatureSet.

(** ** BaseArtifact

    [mloda_core/abstract_plugins/components/base_artifact.py] *)

Module BaseArtifact.

(** What the artifact methods can raise: the exceptions of the core, and the
    [AttributeError] of reading an attribute of [None]. *)
Inductive Raised :=
| Core (e : Exc)
| AttributeError (msg : string).

Section Artifact.
Context {E : Type}.

(** [Options.get]: a method of a class that is not among the sources at
    hand.  The artifact methods are modelled for any such method; where a
    property needs more, it says what it takes [get] to be. *)
Variable get : FeatureSet.Options -> string -> Raised + PyVal.

(** What a subclass may override; [None] is the inherited method. *)
Record Class := {
  custom_loader_override : option (FeatureSet.t E -> Raised + PyVal);
  custom_saver_override : option (FeatureSet.t E -> PyVal -> Raised + PyVal)
}.

Definition _validate (features : FeatureSet.t E) : Raised + unit :=
  match FeatureSet.fs_options features with
  | None => inl (Core (ValueError (PyStr
      "No options set. This should only be called after adding a feature.")))
  | Some _ =>
    match FeatureSet.name_of_one_feature features with
    | None => inl (Core (ValueError (PyStr "Feature name missing in feature set.")))
    | Some _ => inr tt
    end
  end.

(** The inherited [custom_loader]:
    [features.options.get(features.name_of_one_feature.name)]. *)
Definition custom_loader_base (features : FeatureSet.t E) : Raised + PyVal :=
  match FeatureSet.fs_options features with
  | None => inl (AttributeError "'NoneType' object has no attribute 'get'")
  | Some o =>
    match FeatureSet.name_of_one_feature features with
    | None => inl (AttributeError "'NoneType' object has no attribute 'name'")
    | Some n => get o (FeatureSet.name_str n)
    end
  end.

(** The inherited [custom_saver]. *)
Definition custom_saver_base (features : FeatureSet.t E) (artifact : PyVal)
  : Raised + PyVal := inr artifact.

Variable cls : Class.

Definition custom_loader (features : FeatureSet.t E) : Raised + PyVal :=
  match custom_loader_override cls with
  | Some f => f features
  | None => custom_loader_base features
  end.

Definition custom_saver (features : FeatureSet.t E) (artifact : PyVal)
  : Raised + PyVal :=
  match custom_saver_override cls with
  | Some f => f features artifact
  | None => custom_saver_base features artifact
  end.

Definition load (features : FeatureSet.t E) : Raised + PyVal :=
  match FeatureSet.artifact_to_load features with
  | None => inr PyNone
  | Some _ =>
    match _validate features with
    | inl e => inl e
    | inr _ =>
      match custom_loader features with
      | inl e => inl e
      | inr loaded_artifact =>
        if is_None loaded_artifact then
          inl (Core (ValueError (PyStr "No artifact to load although it was requested.")))
        else inr loaded_artifact
      end
    end
  end.

Definition save (features : FeatureSet.t E) (artifact : PyVal) : Raised + PyVal :=
  match FeatureSet.artifact_to_save features with
  | None => inr PyNone
  | Some _ =>
    match _validate features with
    | inl e => inl e
    | inr _ =>
      match custom_saver features artifact with
      | inl e => inl e
      | inr artifact =>
        if is_None artifact then
          inl (Core (ValueError (PyStr "No artifact to save although it was requested.")))
        else inr artifact
      end
    end
  end.
End Artifact.

(** A class that overrides nothing. *)
Definition Base {E} : @Class E := {|
  custom_loader_override := None;
  custom_saver_override := None
|}.

(** [Options.get] as a lookup in [options.data] that answers [None] for a
    missing key. *)
Definition get_is_lookup (get : FeatureSet.Options -> string -> Raised + PyVal)
  : Prop :=
  forall o key, get o key = inr (FeatureSet.options_get o key).

Definition lookup_get (o : FeatureSet.Options) (key : string) : Raised + PyVal :=
  inr (FeatureSet.options_get o key).

End BaseArtifact.

(** ** A state-and-exception monad

    A method mutates the objects it holds and either returns or raises; what
    it wrote before raising stays written. *)

Definition M (S A : Type) : Type := S -> Result A * S.

Definition ret {S A} (a : A) : M S A := fun s => (Return a, s).

Definition bind {S A B} (m : M S A) (k : A -> M S B) : M S B :=
  fun s =>
    match m s with
    | (inl e, s') => (inl e, s')
    | (inr a, s') => k a s'
    end.

Definition raise {S A} (e : Exc) : M S A := fun s => (Raise e, s).

Definition lift {S A} (r : Result A) : M S A := fun s => (r, s).

Definition get {S} : M S S := fun s => (Return s, s).

Definition modify {S} (f : S -> S) : M S unit := fun s => (Return tt, f s).

(** [try: m except NotImplementedError: h]. *)
Definition except_NotImplementedError {S A} (m : M S A) (h : M S A) : M S A :=
  fun s =>
    match m s with
    | (inl (NotImplementedError _), s') => h s'
    | r => r
    end.

Declare Scope py_scope.
Delimit Scope py_scope with py.
Notation "x <~ m ;; k" := (bind m (fun x => k))
  (at level 100, m at next level, right associativity) : py_scope.
Notation "m ;;; k" := (bind m (fun _ => k))
  (at level 100, right associativity) : py_scope.

(** ** The shared exchange service and the process-wide state *)

(** Modelled from the spec: the [WrapperFunctionEnum] enum is not among the
    sources at hand; the code names these three members, one per
    feature-group call that a function extender may wrap. *)
Inductive WrapperFunctionEnum :=
| VALIDATE_INPUT_FEATURE
| VALIDATE_OUTPUT_FEATURE
| FEATURE_GROUP_CALCULATE_FEATURE.

#[global] Instance WrapperFunctionEnum_eq_dec : EqDecision WrapperFunctionEnum.
Proof. solve_decision. Defined.

(** What the feature group was asked to do, in call order: the method, and
    whether it went through a function extender. *)
Record Event := Called { method : WrapperFunctionEnum; wrapped : bool }.

(** Everything outside the instance at hand: the tables held by the flight
    server (per location, per object id), the source of [uuid4()] values,
    and the calls made to the feature group so far. *)
Record World := {
  flight : gmap string (gmap string PyVal);
  next_uuid : N;
  log : list Event
}.

Definition set_flight (f : gmap string (gmap string PyVal)) (w : World) : World :=
  {| flight := f; next_uuid := next_uuid w; log := log w |}.

Definition add_log (e : Event) (w : World) : World :=
  {| flight := flight w; next_uuid := next_uuid w; log := log w ++ [e] |}.

(** [uuid.uuid4()]: a value nobody has seen before. *)
Definition uuid4 : M World UUID :=
  fun w => (Return (next_uuid w),
            {| flight := flight w; next_uuid := N.succ (next_uuid w); log := log w |}).

Module FlightServer.

(** Modelled from the spec: the [FlightServer] class is not among the
    sources at hand.  "[upload(location, data, object_id) -> object_id];
    [download(location, object_id) -> data]; [drop(location, object_ids)]":
    a table store addressed by a location and a string key. *)
Definition tables_at (location : string) (w : World) : gmap string PyVal :=
  default ∅ (flight w !! location).

Definition upload_table (location : string) (data : PyVal) (object_id : string)
  : M World string :=
  fun w => (Return object_id,
            set_flight (<[location := <[object_id := data]> (tables_at location w)]> (flight w)) w).

Definition download_table (location : string) (object_id : string) : M World PyVal :=
  fun w =>
    match tables_at location w !! object_id with
    | Some d => (Return d, w)
    | None => (Raise (KeyError object_id), w)
    end.

Definition drop_tables (location : string) (table_keys : gset string) : M World unit :=
  fun w => (Return tt,
            set_flight (<[location := filter (fun kv => kv.1 ∉ table_keys) (tables_at location w)]>
                          (flight w)) w).

End FlightServer.

(** ** ComputeFrameWork

    [mloda_core/abstract_plugins/compute_frame_work.py] *)

Module ComputeFrameWork.

Local Open Scope py_scope.

(** Modelled from the spec: the [ParallelizationModes] enum is not among the
    sources at hand: "synchronous / threaded / multi-process". *)
Inductive ParallelizationModes := SYNC | THREADING | MULTIPROCESSING.

(** Modelled from the spec: [BaseFilterEngine] is not among the sources at
    hand.  The pipeline asks a filter engine whether it is one
    ([issubclass]), whether it "supports filtering at this stage"
    ([final_filters]) and to [apply_filters]. *)
Record FilterEngine := {
  is_filter_engine : bool;
  final_filters : Result PyVal;
  apply_filters : PyVal -> FeatureSet.t unit -> Result PyVal
}.

(** The [filter_engine] attribute of a feature set: [None], or a callable
    given by what calling it yields. *)
Definition Features := FeatureSet.t (option (Result FilterEngine)).

Definition forget (features : Features) : FeatureSet.t unit :=
  FeatureSet.set_filter_engine_attr features tt.

(** A method of the feature group: [f(data, features)]. *)
Definition FgMethod := PyVal -> Features -> Result PyVal.

Record FeatureGroup := {
  calculate_feature : FgMethod;
  validate_input_features : FgMethod;
  validate_output_features : FgMethod
}.

(** Modelled from the spec: [WrapperFunctionExtender] is not among the
    sources at hand; the code reads [wraps()] and calls the extender with
    the wrapped function and its arguments.  It also reads [__name__] of an
    extender, for one error message: an instance has that attribute only if
    its class gives it one, so [extender_name] is [None] for an extender on
    which reading [__name__] raises [AttributeError]. *)
Record WrapperFunctionExtender := {
  extender_name : option string;
  wraps : list WrapperFunctionEnum;
  call : FgMethod -> FgMethod
}.

(** Modelled from the spec: [ComputeFrameworkTransformMap] is not among the
    sources at hand: "if a conversion function is registered for the source
    type, use it".  [transform_map] is its dictionary, by emptiness. *)
Record ComputeFrameworkTransformMap := {
  transform_map_nonempty : bool;
  transform_map_transform : PyVal -> string -> option string -> Result PyVal
}.

(** The instance attributes set by [__init__]. *)
Record t := {
  mode : ParallelizationModes;
  data : PyVal;
  children_if_root : gset UUID;
  already_calculated_children_tracker : gset UUID;
  column_names : gset string;
  function_extender : list WrapperFunctionExtender;
  uuid : UUID;
  object_ids : list string
}.

Definition set_data_attr (d : PyVal) (c : t) : t := {|
  mode := mode c; data := d; children_if_root := children_if_root c;
  already_calculated_children_tracker := already_calculated_children_tracker c;
  column_names := column_names c; function_extender := function_extender c;
  uuid := uuid c; object_ids := object_ids c |}.

Definition set_tracker_attr (tr : gset UUID) (c : t) : t := {|
  mode := mode c; data := data c; children_if_root := children_if_root c;
  already_calculated_children_tracker := tr;
  column_names := column_names c; function_extender := function_extender c;
  uuid := uuid c; object_ids := object_ids c |}.

Definition set_column_names_attr (names : gset string) (c : t) : t := {|
  mode := mode c; data := data c; children_if_root := children_if_root c;
  already_calculated_children_tracker := already_calculated_children_tracker c;
  column_names := names; function_extender := function_extender c;
  uuid := uuid c; object_ids := object_ids c |}.

Definition set_object_ids_attr (ids : list string) (c : t) : t := {|
  mode := mode c; data := data c; children_if_root := children_if_root c;
  already_calculated_children_tracker := already_calculated_children_tracker c;
  column_names := column_names c; function_extender := function_extender c;
  uuid := uuid c; object_ids := ids |}.

(** What a subclass may override; [Base] below holds the defaults. *)
Record Class := {
  class_name : string;
  expected_data_framework : option string;
  filter_engine : Result FilterEngine;
  get_framework_transform_functions :
    bool (* from_other *) -> string (* other *) -> option (PyVal -> Result PyVal);
  transform_override :
    option (t -> PyVal -> gset string -> ComputeFrameworkTransformMap -> Result PyVal);
  merge_engine : Result (Merge.MergeEngine PyVal);
  (** [set_column_names] stores what this computes in [self.column_names] *)
  set_column_names : t -> gset string;
  (** the one object built for [transform]'s default argument *)
  default_transform_map : ComputeFrameworkTransformMap
}.

Definition Base (cls : string) (tm : ComputeFrameworkTransformMap) : Class := {|
  class_name := cls;
  expected_data_framework := None;
  filter_engine := Raise (NotImplementedError "");
  get_framework_transform_functions := fun _ _ => None;
  transform_override := None;
  merge_engine := Raise (NotImplementedError
    ("Merge functionality is for this compute framework not implemented " +:+ cls +:+ "."));
  set_column_names := fun c => column_names c;
  default_transform_map := tm
|}.

(** *** Construction *)

(** What evaluating [def __init__(..., uuid: UUID = uuid4(), ...)] leaves
    behind: the default value of the [uuid] parameter. *)
Record InitDefaults := { default_uuid : UUID }.

(** The [def] statement runs once, when the module is imported. *)
Definition def_init : M World InitDefaults :=
  u <~ uuid4 ;; ret {| default_uuid := u |}.

(** [__init__]; an argument left out is [None] here. *)
Definition init (defaults : InitDefaults)
    (mode : ParallelizationModes) (children_if_root : gset UUID)
    (uuid : option UUID)
    (function_extender : option (list WrapperFunctionExtender)) : t := {|
  mode := mode;
  data := PyNone;
  children_if_root := children_if_root;
  already_calculated_children_tracker := ∅;
  column_names := ∅;
  function_extender := default [] function_extender;
  uuid := default (default_uuid defaults) uuid;
  object_ids := []
|}.

(** *** Pure helpers *)

Definition pa_Table : string := "pyarrow.Table".

(** [isinstance(v, T)], where [T] is what a class method returned. *)
Definition isinstance (v : PyVal) (T : option string) : Result bool :=
  match T with
  | None => Raise (TypeError "isinstance() arg 2 must be a type, a tuple of types, or a union")
  | Some c => Return (bool_decide (c ∈ mro_of v))
  end.

Section Methods.
Variable cls : Class.

Definition transform_refactored (data : PyVal)
    (transform_map : ComputeFrameworkTransformMap) : Result PyVal :=
  match isinstance data (expected_data_framework cls) with
  | inl e => Raise e
  | inr true => Return data
  | inr false =>
    if transform_map_nonempty transform_map then
      transform_map_transform transform_map data (type_of data)
        (expected_data_framework cls)
    else
      match get_framework_transform_functions cls true (type_of data) with
      | Some func => func data
      | None => Return PyNone
      end
  end.

(** [ComputeFrameWork.transform], the inherited implementation. *)
Definition transform_base (data : PyVal) (feature_names : gset string)
    (transform_map : ComputeFrameworkTransformMap) : Result PyVal :=
  match transform_refactored data transform_map with
  | inl e => Raise e
  | inr transformed_data =>
    if negb (is_None transformed_data) then Return transformed_data
    else Return data
  end.

(** [self.transform], after method resolution. *)
Definition transform (self : t) (data : PyVal) (feature_names : gset string)
    (transform_map : ComputeFrameworkTransformMap) : Result PyVal :=
  match transform_override cls with
  | Some f => f self data feature_names transform_map
  | None => transform_base data feature_names transform_map
  end.

Definition select_data_by_column_names (data : PyVal)
    (selected_feature_names : list FeatureSet.FeatureName) : PyVal := data.

Definition run_final_filter (data : PyVal) (features : Features) : Result PyVal :=
  match FeatureSet.filter_engine features with
  | None => Return data
  | Some called =>
    match called with
    | inl (NotImplementedError _) => Return data
    | inl e => Raise e
    | inr engine =>
      match final_filters engine with
      | inl (NotImplementedError _) => Return data
      | inl e => Raise e
      | inr (PyBool false) => Return data
      | inr _ => apply_filters engine data (forget features)
      end
    end
  end.

Definition set_filter_engine (features : Features) : Result Features :=
  let features := FeatureSet.set_filter_engine_attr features (Some (filter_engine cls)) in
  match filter_engine cls with
  | inl (NotImplementedError _) => Return features
  | inl e => Raise e
  | inr engine =>
    if negb (is_filter_engine engine) then
      Raise (ValueError (PyStr ("Filter engine not supported by " +:+ class_name cls)))
    else Return features
  end.

(** The [raise ValueError(f"Multiple function_extender found for ...")] of
    [get_function_extender].  Building the message reads
    [found_extender.__name__] and then [extender.__name__]; where one of
    them is missing, that read raises [AttributeError] and the [ValueError]
    is never built.  (The message also prints the enum member, whose
    printed form belongs to the absent enum class and is left out.) *)
Definition multiple_function_extender {A} (found_name name : option string)
  : Result A :=
  match found_name, name with
  | Some a, Some b =>
    Raise (ValueError (PyStr ("Multiple function_extender found, " +:+ a +:+ ", " +:+ b)))
  | _, _ => Raise (AttributeError "object has no attribute '__name__'")
  end.

Fixpoint find_extender (e : WrapperFunctionEnum)
    (extenders : list WrapperFunctionExtender)
    (found_extender : option WrapperFunctionExtender)
  : Result (option WrapperFunctionExtender) :=
  match extenders with
  | [] => Return found_extender
  | extender :: rest =>
    if bool_decide (e ∈ wraps extender) then
      match found_extender with
      | Some f => multiple_function_extender (extender_name f) (extender_name extender)
      | None => find_extender e rest (Some extender)
      end
    else find_extender e rest found_extender
  end.

Definition get_function_extender (self : t) (e : WrapperFunctionEnum)
  : Result (option WrapperFunctionExtender) :=
  find_extender e (function_extender self) None.

Definition validate_expected_framework (self : t) (location : option string)
  : Result unit :=
  match expected_data_framework cls with
  | None => Return tt
  | Some T =>
    if is_None (data self) then Return tt
    else if bool_decide (is_Some location) && negb (is_None (data self)) then Return tt
    else if negb (bool_decide (T ∈ mro_of (data self))) then
      Raise (ValueError (PyStr ("Data type " +:+ type_of (data self)
                                +:+ " is not supported by " +:+ class_name cls)))
    else Return tt
  end.

Definition convert_flyserver_data_back (data : PyVal) : Result PyVal :=
  if negb (bool_decide (pa_Table ∈ mro_of data)) then Return data
  else
    match isinstance data (expected_data_framework cls) with
    | inl e => Raise e
    | inr true => Return data
    | inr false =>
      match get_framework_transform_functions cls true pa_Table with
      | Some func => func data
      | None => Raise (ValueError (PyStr
          ("Conversion from " +:+ type_of data +:+ " is not supported. "
           +:+ "This can be created, when a flyserver was used.")))
      end
    end.
End Methods.

(** *** Methods that mutate the instance or the flight server *)

Record State := { self : t; world : World }.

Definition get_self : M State t := fun s => (Return (self s), s).

Definition modify_self (f : t -> t) : M State unit :=
  fun s => (Return tt, {| self := f (self s); world := world s |}).

(** Run a computation on the world around the instance. *)
Definition in_world {A} (m : M World A) : M State A :=
  fun s => let (r, w) := m (world s) in (r, {| self := self s; world := w |}).

Definition record_call (e : Event) : M State unit :=
  in_world (modify (add_log e)).

(** The return value of the bookkeeping method: [Union[bool, frozenset]]. *)
Inductive BoolOrChildren :=
| IsBool (b : bool)
| IsChildren (children : gset UUID).

Section Stateful.
Variable cls : Class.

(** The shared shape of the three feature-group calls: directly, or
    through the extender that wraps the method. *)
Definition call_feature_group (which : WrapperFunctionEnum)
    (extender : option WrapperFunctionExtender) (f : FgMethod)
    (features : Features) : M State PyVal :=
  self <~ get_self ;;
  match extender with
  | None =>
    record_call (Called which false) ;;;
    lift (f (data self) features)
  | Some ext =>
    record_call (Called which true) ;;;
    lift (call ext f (data self) features)
  end.

Definition run_validate_input_features (feature_group : FeatureGroup)
    (features : Features) : M State unit :=
  self <~ get_self ;;
  if is_None (data self) then ret tt
  else
    extender <~ lift (get_function_extender self VALIDATE_INPUT_FEATURE) ;;
    result <~ call_feature_group VALIDATE_INPUT_FEATURE extender
                (validate_input_features feature_group) features ;;
    if is_None result || is_True result then ret tt
    else raise (ValueError result).

Definition run_validate_output_features (feature_group : FeatureGroup)
    (features : Features) : M State unit :=
  self <~ get_self ;;
  if is_None (data self) then ret tt
  else
    extender <~ lift (get_function_extender self VALIDATE_OUTPUT_FEATURE) ;;
    result <~ call_feature_group VALIDATE_OUTPUT_FEATURE extender
                (validate_output_features feature_group) features ;;
    if is_None result || is_True result then ret tt
    else raise (ValueError result).

Definition run_calculate_feature (feature_group : FeatureGroup)
    (features : Features) : M State PyVal :=
  self <~ get_self ;;
  extender <~ lift (get_function_extender self FEATURE_GROUP_CALCULATE_FEATURE) ;;
  call_feature_group FEATURE_GROUP_CALCULATE_FEATURE extender
    (calculate_feature feature_group) features.

Definition upload_table (location : string) (object_id : option UUID)
  : M State string :=
  object_id <~ match object_id with
               | None => in_world uuid4
               | Some u => ret u
               end ;;
  let _object_id := str_of_uuid object_id in
  match get_framework_transform_functions cls false pa_Table with
  | Some func =>
    self <~ get_self ;;
    d <~ lift (func (data self)) ;;
    modify_self (set_data_attr d)
  | None => ret tt
  end ;;;
  self <~ get_self ;;
  in_world (FlightServer.upload_table location (data self) _object_id) ;;;
  modify_self (fun c => set_object_ids_attr (object_ids c ++ [_object_id]) c) ;;;
  ret _object_id.

(** "Uploads table by using its own cfw uuid." *)
Definition upload_finished_data (location : string) : M State string :=
  self <~ get_self ;;
  upload_table location (Some (uuid self)).

Definition drop_data (table_keys : gset string) (location : string) : M State unit :=
  in_world (FlightServer.drop_tables location table_keys).

Definition drop_last_data (location : option string) : M State unit :=
  self <~ get_self ;;
  match data self, location with
  | PyStr key, Some loc =>
    if str_truthy (Some loc) then drop_data {[ key ]} loc else ret tt
  | _, _ => ret tt
  end ;;;
  modify_self (set_data_attr PyNone).

Definition add_already_calculated_children_and_drop_if_possible
    (children : gset UUID) (location : option string) : M State BoolOrChildren :=
  modify_self (fun c =>
    set_tracker_attr (already_calculated_children_tracker c ∪ children) c) ;;;
  self <~ get_self ;;
  if bool_decide (children_if_root self ⊆ already_calculated_children_tracker self) then
    drop_last_data location ;;;
    ret (IsBool true)
  else if 0 <? length (object_ids self) then
    ret (IsChildren (children_if_root self))
  else ret (IsBool false).

Definition run_calculation (feature_group : FeatureGroup) (features : Features)
    (location : option string) (data_arg : PyVal) : M State PyVal :=
  (if negb (is_None data_arg) then modify_self (set_data_attr data_arg) else ret tt) ;;;
  run_validate_input_features feature_group features ;;;
  features <~ lift (set_filter_engine cls features) ;;
  calculated <~ run_calculate_feature feature_group features ;;
  filtered <~ lift (run_final_filter calculated features) ;;
  let names := FeatureSet.get_all_names features in
  self <~ get_self ;;
  transformed <~ lift (transform cls self filtered names (default_transform_map cls)) ;;
  modify_self (set_data_attr transformed) ;;;
  modify_self (fun c => set_column_names_attr (set_column_names cls c) c) ;;;
  run_validate_output_features feature_group features ;;;
  match location with
  | Some loc =>
    if negb (str_truthy location) then ret PyNone
    else
      self <~ get_self ;;
      if size (already_calculated_children_tracker self)
         + length (FeatureSet.features features)
         <? size (children_if_root self)
      then ret (data self)
      else
        handle <~ upload_finished_data loc ;;
        modify_self (set_data_attr (PyStr handle)) ;;;
        ret (PyStr handle)
  | None => ret PyNone
  end.

Definition set_data (d : PyVal) : M State unit := modify_self (set_data_attr d).
Definition get_data (self : t) : PyVal := data self.
Definition get_object_ids (self : t) : list string := object_ids self.
Definition get_uuid (self : t) : UUID := uuid self.
End Stateful.

(** *** Equality and hash *)

Definition get_class_name (cls : Class) : string := class_name cls.

Definition get_column_names (self : t) : gset string := column_names self.

(** [__eq__]; [other] is some object that is no framework instance ([inl])
    or an instance together with its class ([inr]). *)
Definition __eq__ (cls : Class) (self : t) (other : PyVal + Class * t) : bool :=
  match other with
  | inl _ => false
  | inr (other_cls, other) =>
    String.eqb (get_class_name cls) (get_class_name other_cls)
    && bool_decide (children_if_root self = children_if_root other)
  end.

Section Hash.
(** The builtin [hash] on a tuple of a string and a frozenset. *)
Variable hash : string * gset UUID -> Z.

Definition __hash__ (cls : Class) (self : t) : Z :=
  hash (get_class_name cls, children_if_root self).
End Hash.

End ComputeFrameWork.

(** ** CfwManager *)

Module CfwManager.

(** Modelled from the spec: the [CfwManager] class is not among the sources
    at hand.  The join step asks it for the location of the exchange
    service and whether a framework instance "had previously been
    externalized (its id is already known to the exchange registry)". *)
Record t := {
  location : option string;
  uuid_flyway_datasets : gset UUID
}.

Definition get_location (self : t) : option string := location self.

(** The truth value of what the lookup returns. *)
Definition get_uuid_flyway_datasets (self : t) (u : UUID) : bool :=
  bool_decide (u ∈ uuid_flyway_datasets self).

End CfwManager.

(** ** JoinStep

    [mloda_core/core/step/join_step.py] *)

Module JoinStep.

Local Open Scope py_scope.

(** A class object [Type[ComputeFrameWork]]; [==] on classes is identity,
    so a class is represented by its qualified name. *)
Definition FrameworkType := string.

Record t := {
  link : Link;
  left_framework : FrameworkType;
  right_framework : FrameworkType;
  required_uuids : gset UUID;
  left_framework_uuids : gset UUID;
  right_framework_uuids : gset UUID;
  uuid : UUID;
  step_is_done : bool;
  (** set by [execute] *)
  location : option string
}.

Definition set_location_attr (loc : option string) (s : t) : t := {|
  link := link s; left_framework := left_framework s;
  right_framework := right_framework s; required_uuids := required_uuids s;
  left_framework_uuids := left_framework_uuids s;
  right_framework_uuids := right_framework_uuids s;
  uuid := uuid s; step_is_done := step_is_done s; location := loc |}.

(** [__init__]: the uuid is drawn in the body, at each construction. *)
Definition init (link : Link) (left_framework right_framework : FrameworkType)
    (required_uuids left_framework_uuids right_framework_uuids : gset UUID)
  : M World t :=
  u <~ uuid4 ;;
  ret {| link := link; left_framework := left_framework;
         right_framework := right_framework; required_uuids := required_uuids;
         left_framework_uuids := left_framework_uuids;
         right_framework_uuids := right_framework_uuids;
         uuid := u; step_is_done := false; location := None |}.

Definition get_uuids (self : t) : gset UUID := {[ uuid self; link_uuid (link self) ]}.

Definition matched (self : t) (other_framework : FrameworkType) (u : UUID)
  : option UUID :=
  if negb (bool_decide (u ∈ required_uuids self)) then None
  else if bool_decide (other_framework = left_framework self) then Some (uuid self)
  else if bool_decide (other_framework = right_framework self) then Some (uuid self)
  else None.

(** [JoinStep.__eq__] on two join steps. *)
Definition eqb (self other : t) : bool := bool_decide (uuid self = uuid other).

(** The objects [execute] works on: the step itself, the destination
    framework instance and the world around them. *)
Record State := {
  step : t;
  cfw : ComputeFrameWork.t;
  world : World
}.

Definition get_step : M State t := fun s => (Return (step s), s).
Definition get_cfw : M State ComputeFrameWork.t := fun s => (Return (cfw s), s).

Definition modify_step (f : t -> t) : M State unit :=
  fun s => (Return tt, {| step := f (step s); cfw := cfw s; world := world s |}).

Definition modify_cfw (f : ComputeFrameWork.t -> ComputeFrameWork.t) : M State unit :=
  fun s => (Return tt, {| step := step s; cfw := f (cfw s); world := world s |}).

(** Run a method of the destination instance. *)
Definition on_cfw {A} (m : M ComputeFrameWork.State A) : M State A :=
  fun s =>
    let (r, s') := m {| ComputeFrameWork.self := cfw s; ComputeFrameWork.world := world s |} in
    (r, {| step := step s; cfw := ComputeFrameWork.self s';
           world := ComputeFrameWork.world s' |}).

Section Execute.
(** The class of the destination instance [cfw]. *)
Variable cls : ComputeFrameWork.Class.

(** [from_cfw] is a uuid or a framework instance. *)
Definition get_data (from_cfw : UUID + ComputeFrameWork.t) : M State PyVal :=
  self <~ get_step ;;
  match location self, from_cfw with
  | Some loc, inl u =>
    if str_truthy (Some loc) then
      d <~ on_cfw (ComputeFrameWork.in_world
             (FlightServer.download_table loc (str_of_uuid u))) ;;
      lift (ComputeFrameWork.convert_flyserver_data_back cls d)
    else raise (ValueError (PyStr "From_cfw is a UUID, but we are not using flightserver."))
  | None, inl u =>
    raise (ValueError (PyStr "From_cfw is a UUID, but we are not using flightserver."))
  | _, inr from_cfw => ret (ComputeFrameWork.get_data from_cfw)
  end.

Definition execute (cfw_register : CfwManager.t)
    (from_cfw : option (UUID + ComputeFrameWork.t)) (data : PyVal) : M State PyVal :=
  modify_step (set_location_attr (CfwManager.get_location cfw_register)) ;;;
  match from_cfw with
  | None => raise (ValueError (PyStr "From_cfw should not be none for join step."))
  | Some from_cfw =>
    from_cfw_data <~ get_data from_cfw ;;
    merge_engine <~ lift (ComputeFrameWork.merge_engine cls) ;;
    self <~ get_step ;;
    dest <~ get_cfw ;;
    merged <~ lift (Merge.merge merge_engine (ComputeFrameWork.data dest) from_cfw_data
                      (jointype (link self)) (left_index (link self))
                      (right_index (link self))) ;;
    modify_cfw (ComputeFrameWork.set_data_attr merged) ;;;
    match location self with
    | Some loc =>
      if str_truthy (Some loc) then
        if CfwManager.get_uuid_flyway_datasets cfw_register (ComputeFrameWork.uuid dest)
        then on_cfw (ComputeFrameWork.upload_finished_data cls loc) ;;; ret PyNone
        else ret PyNone
      else ret PyNone
    | None => ret PyNone
    end
  end.
End Execute.

End JoinStep.

(** ** The aggregated feature group

    [mloda_plugins/feature_group/experimental/aggregated_feature_group/base.py] *)

Module AggregatedFeatureGroup.

(** [s] without the prefix [p], if it starts with [p]. *)
Fixpoint strip_prefix (p s : string) : option string :=
  match p, s with
  | EmptyString, _ => Some s
  | String a p', String b s' => if Ascii.eqb a b then strip_prefix p' s' else None
  | String _ _, EmptyString => None
  end.

(** The text before and after the leftmost occurrence of [sep] in [s]. *)
Fixpoint cut (sep s : string) {struct s} : option (string * string) :=
  match strip_prefix sep s with
  | Some rest => Some (EmptyString, rest)
  | None =>
    match s with
    | EmptyString => None
    | String c s' =>
      match cut sep s' with
      | Some (before, after) => Some (String c before, after)
      | None => None
      end
    end
  end.

Fixpoint split_fuel (fuel : nat) (sep s : string) : list string :=
  match fuel with
  | 0 => [s]
  | S fuel' =>
    match cut sep s with
    | None => [s]
    | Some (before, after) => before :: split_fuel fuel' sep after
    end
  end.

(** [s.split(sep)] for a non-empty [sep]: cut at the occurrences of [sep],
    leftmost first, without overlap.  Each cut shortens the text, so the
    length of [s] bounds the number of cuts. *)
Definition split (sep s : string) : list string :=
  split_fuel (S (String.length s)) sep s.

(** The keys of the class attribute [AGGREGATION_TYPES]. *)
Definition AGGREGATION_TYPES : list string :=
  ["sum"; "min"; "max"; "avg"; "mean"; "count"; "std"; "var"; "median"].

Definition invalid_name {A} (feature_name : string) : Result A :=
  Raise (ValueError (PyStr ("Invalid aggregated feature name format: " +:+ feature_name))).

Definition is_empty (s : string) : bool := String.eqb s "".

Definition get_aggregation_type (feature_name : string) : Result string :=
  match split "_aggr_" feature_name with
  | [part0; part1] =>
    if is_empty part0 then invalid_name feature_name
    else if is_empty part1 then invalid_name feature_name
    else Return part0
  | _ => invalid_name feature_name
  end.

Definition mloda_source_feature (feature_name : string) : Result string :=
  match split "_aggr_" feature_name with
  | [part0; part1] =>
    if is_empty part1 then invalid_name feature_name
    else if is_empty part0 then invalid_name feature_name
    else Return part1
  | _ => invalid_name feature_name
  end.

Definition _supports_aggregation_type (aggregation_type : string) : bool :=
  bool_decide (aggregation_type ∈ AGGREGATION_TYPES).

(** [match_feature_group_criteria]; the name comes as a [FeatureName] or as
    a string, and only a [ValueError] is caught. *)
Definition match_feature_group_criteria
    (feature_name : FeatureSet.FeatureName + string) : Result bool :=
  let feature_name :=
    match feature_name with
    | inl n => FeatureSet.name_str n
    | inr s => s
    end in
  match get_aggregation_type feature_name with
  | inr agg_type => Return (_supports_aggregation_type agg_type)
  | inl (ValueError _) => Return false
  | inl e => Raise e
  end.

(** [_perform_aggregation] of the base class. *)
Definition _perform_aggregation (cls_name : string) (data : PyVal)
    (aggregation_type mloda_source_feature : string) : Result PyVal :=
  Raise (NotImplementedError ("_perform_aggregation not implemented in " +:+ cls_name)).

End AggregatedFeatureGroup.

(** * Notions used to state the properties *)

(** The input validations the feature group has been asked for so far. *)
Definition input_validations (w : World) : list Event :=
  List.filter (fun e => bool_decide (method e = VALIDATE_INPUT_FEATURE)) (log w).

(** A computation keeps a relation between the state it starts from and the
    state it leaves, whether it returns or raises. *)
Definition preserves (R : ComputeFrameWork.State -> ComputeFrameWork.State -> Prop)
    {A} (m : M ComputeFrameWork.State A) : Prop :=
  forall s, R s (m s).2.

Definition same_input_validations (s s' : ComputeFrameWork.State) : Prop :=
  input_validations (ComputeFrameWork.world s')
  = input_validations (ComputeFrameWork.world s).

(** What the calculation pipeline leaves alone up to the upload: the
    bookkeeping attributes of the instance, the flight server and the uuid
    source. *)
Definition same_bookkeeping (s s' : ComputeFrameWork.State) : Prop :=
  let c := ComputeFrameWork.self s in
  let c' := ComputeFrameWork.self s' in
  ComputeFrameWork.children_if_root c' = ComputeFrameWork.children_if_root c
  /\ ComputeFrameWork.already_calculated_children_tracker c'
     = ComputeFrameWork.already_calculated_children_tracker c
  /\ ComputeFrameWork.uuid c' = ComputeFrameWork.uuid c
  /\ ComputeFrameWork.object_ids c' = ComputeFrameWork.object_ids c
  /\ flight (ComputeFrameWork.world s') = flight (ComputeFrameWork.world s)
  /\ next_uuid (ComputeFrameWork.world s') = next_uuid (ComputeFrameWork.world s).

(** The [how] argument the pandas engine passes for a join type. *)
Definition how_name (jt : JoinType) : option string :=
  match jt with
  | INNER => Some "inner"
  | LEFT => Some "left"
  | RIGHT => Some "right"
  | OUTER => Some "outer"
  | JoinOther _ => None
  end.



(** The extenders of a list that wrap a given feature-group call. *)
Definition extenders_wrapping (e : WrapperFunctionEnum)
    (extenders : list ComputeFrameWork.WrapperFunctionExtender)
  : list ComputeFrameWork.WrapperFunctionExtender :=
  List.filter (fun x => bool_decide (e ∈ ComputeFrameWork.wraps x)) extenders.

(** The identity of an instance as the scheduler sees it. *)
Definition same_identity (s s' : ComputeFrameWork.State) : Prop :=
  ComputeFrameWork.children_if_root (ComputeFrameWork.self s')
  = ComputeFrameWork.children_if_root (ComputeFrameWork.self s)
  /\ ComputeFrameWork.uuid (ComputeFrameWork.self s')
     = ComputeFrameWork.uuid (ComputeFrameWork.self s).

(** One mutation of a feature set, and a run of them. *)
Inductive FeatureSetOp :=
| OpAdd (f : FeatureSet.Feature)
| OpRemove (f : FeatureSet.Feature).

Definition apply_op {E} (s : FeatureSet.t E) (op : FeatureSetOp) : FeatureSet.t E :=
  match op with
  | OpAdd f => FeatureSet.add s f
  | OpRemove f => FeatureSet.remove s f
  end.

Definition is_add (op : FeatureSetOp) : bool :=
  match op with OpAdd _ => true | OpRemove _ => false end.

(** What [Feature.__eq__] compares. *)
Definition feature_key (f : FeatureSet.Feature)
  : FeatureSet.FeatureName * FeatureSet.Options :=
  (FeatureSet.name f, FeatureSet.options f).

(** [sep] occurs nowhere in [s]. *)
Definition occurs_nowhere (sep s : string) : Prop :=
  forall a b, s <> a +:+ sep +:+ b.

(** The occurrence of [sep] after the prefix [a] is the leftmost one in [s]. *)
Definition leftmost_after (sep a s : string) : Prop :=
  forall a' b', s = a' +:+ sep +:+ b' -> String.length a <= String.length a'.

(** * Concrete objects used by the examples below *)

Definition feature_a : FeatureSet.Feature := {|
  FeatureSet.name := {| FeatureSet.name_str := "sum_aggr_sales" |};
  FeatureSet.options := {| FeatureSet.options_data := ∅ |};
  FeatureSet.uuid := 1%N;
  FeatureSet.initial_requested_data := true |}.

Definition feature_b : FeatureSet.Feature := {|
  FeatureSet.name := {| FeatureSet.name_str := "avg_aggr_price" |};
  FeatureSet.options := {| FeatureSet.options_data := {[ "window" := PyInt 3 ]} |};
  FeatureSet.uuid := 2%N;
  FeatureSet.initial_requested_data := false |}.

(** The default transform map: nothing registered. *)
Definition empty_transform_map : ComputeFrameWork.ComputeFrameworkTransformMap := {|
  ComputeFrameWork.transform_map_nonempty := false;
  ComputeFrameWork.transform_map_transform := fun d _ _ => Return d |}.

(** A backend that only declares its expected physical type. *)
Definition table_cls : ComputeFrameWork.Class := {|
  ComputeFrameWork.class_name := "PyarrowTable";
  ComputeFrameWork.expected_data_framework := Some ComputeFrameWork.pa_Table;
  ComputeFrameWork.filter_engine := Raise (NotImplementedError "");
  ComputeFrameWork.get_framework_transform_functions := fun _ _ => None;
  ComputeFrameWork.transform_override := None;
  ComputeFrameWork.merge_engine := Raise (NotImplementedError "");
  ComputeFrameWork.set_column_names := ComputeFrameWork.column_names;
  ComputeFrameWork.default_transform_map := empty_transform_map |}.

(** A table object, and a second one. *)
Definition table_1 : PyVal := PyObj [ComputeFrameWork.pa_Table; "object"] 1.
Definition table_2 : PyVal := PyObj [ComputeFrameWork.pa_Table; "object"] 2.

(** An instance fresh from [__init__], with the given children and uuid. *)
Definition new_cfw (children : gset UUID) (u : UUID) : ComputeFrameWork.t :=
  ComputeFrameWork.init {| ComputeFrameWork.default_uuid := 0%N |}
    ComputeFrameWork.SYNC children (Some u) None.

Definition empty_world : World := {| flight := ∅; next_uuid := 100%N; log := [] |}.

(** Feature groups whose validators answer with a fixed value. *)
Definition fg_answering (r : PyVal) : ComputeFrameWork.FeatureGroup := {|
  ComputeFrameWork.calculate_feature := fun _ _ => Return table_2;
  ComputeFrameWork.validate_input_features := fun _ _ => Return r;
  ComputeFrameWork.validate_output_features := fun _ _ => Return r |}.

(** A feature group whose validators always raise. *)
Definition fg_rejecting : ComputeFrameWork.FeatureGroup := {|
  ComputeFrameWork.calculate_feature := fun _ _ => Return table_2;
  ComputeFrameWork.validate_input_features := fun _ _ => Raise (ValueError (PyStr "input"));
  ComputeFrameWork.validate_output_features := fun _ _ => Raise (ValueError (PyStr "output")) |}.

Definition no_features : ComputeFrameWork.Features :=
  FeatureSet.init (Some (Raise (NotImplementedError ""))).

Definition one_feature : ComputeFrameWork.Features :=
  FeatureSet.add no_features feature_a.

(** An instance that holds a table, alone in an empty world. *)
Definition holding (d : PyVal) (children : gset UUID) (u : UUID) : ComputeFrameWork.State := {|
  ComputeFrameWork.self := ComputeFrameWork.set_data_attr d (new_cfw children u);
  ComputeFrameWork.world := empty_world |}.

(** An instance without data yet, alone in an empty world. *)
Definition idle (children : gset UUID) (u : UUID) : ComputeFrameWork.State := {|
  ComputeFrameWork.self := new_cfw children u;
  ComputeFrameWork.world := empty_world |}.

Definition flight_location : string := "grpc://0.0.0.0:8815".

(** A backend with a merge engine; in the examples its [pd.merge] answers
    with one fixed frame. *)
Definition frame_3 : PyVal := PyObj ["pandas.DataFrame"; "object"] 3.

Definition frame_cls : ComputeFrameWork.Class := {|
  ComputeFrameWork.class_name := "PandasDataframe";
  ComputeFrameWork.expected_data_framework := Some "pandas.DataFrame";
  ComputeFrameWork.filter_engine := Raise (NotImplementedError "");
  ComputeFrameWork.get_framework_transform_functions := fun _ _ => None;
  ComputeFrameWork.transform_override := None;
  ComputeFrameWork.merge_engine :=
    Return (Merge.PandasMergeEngine (Some (fun _ _ _ _ _ => Return frame_3)));
  ComputeFrameWork.set_column_names := ComputeFrameWork.column_names;
  ComputeFrameWork.default_transform_map := empty_transform_map |}.

Definition inner_link : Link := {|
  jointype := INNER;
  left_index := {| index := ["id"] |};
  right_index := {| index := ["id"] |};
  link_uuid := 50%N |}.

Definition join_step : JoinStep.t := {|
  JoinStep.link := inner_link;
  JoinStep.left_framework := "PandasDataframe";
  JoinStep.right_framework := "PyarrowTable";
  JoinStep.required_uuids := {[ 1%N; 2%N ]};
  JoinStep.left_framework_uuids := {[ 1%N ]};
  JoinStep.right_framework_uuids := {[ 2%N ]};
  JoinStep.uuid := 60%N;
  JoinStep.step_is_done := false;
  JoinStep.location := None |}.

(** The destination instance 7 was uploaded before: the flight server holds
    an older table under its uuid, and the registry knows the uuid. *)
Definition externalized_world : World := {|
  flight := {[ flight_location := {[ "7" := table_1 ]} ]};
  next_uuid := 100%N;
  log := [] |}.

Definition register_with_7 : CfwManager.t := {|
  CfwManager.location := Some flight_location;
  CfwManager.uuid_flyway_datasets := {[ 7%N ]} |}.

Definition join_state : JoinStep.State := {|
  JoinStep.step := join_step;
  JoinStep.cfw := ComputeFrameWork.set_data_attr table_1 (new_cfw {[ 9%N ]} 7%N);
  JoinStep.world := externalized_world |}.

Definition from_instance : ComputeFrameWork.t :=
  ComputeFrameWork.set_data_attr table_2 (new_cfw {[ 9%N ]} 8%N).

(** The instance 7 after its upload: its data is the handle, its object ids
    hold the handle, and the flight server holds the table under it. *)
Definition uploaded_instance : ComputeFrameWork.State := {|
  ComputeFrameWork.self :=
    ComputeFrameWork.set_data_attr (PyStr "7")
      (ComputeFrameWork.set_object_ids_attr ["7"] (new_cfw {[ 9%N ]} 7%N));
  ComputeFrameWork.world := externalized_world |}.

(** A feature whose options hold an artifact under its own name, and one
    whose options do not mention its name. *)
Definition feature_with_artifact : FeatureSet.Feature := {|
  FeatureSet.name := {| FeatureSet.name_str := "embedding" |};
  FeatureSet.options := {| FeatureSet.options_data := {[ "embedding" := PyInt 42 ]} |};
  FeatureSet.uuid := 3%N;
  FeatureSet.initial_requested_data := true |}.

(** A backend that turns its frames into tables for the flight server and
    tables back into frames. *)
Definition converting_cls : ComputeFrameWork.Class := {|
  ComputeFrameWork.class_name := "PandasDataframe";
  ComputeFrameWork.expected_data_framework := Some "pandas.DataFrame";
  ComputeFrameWork.filter_engine := Raise (NotImplementedError "");
  ComputeFrameWork.get_framework_transform_functions :=
    fun from_other _ =>
      if from_other then Some (fun _ => Return frame_3) else Some (fun _ => Return table_2);
  ComputeFrameWork.transform_override := None;
  ComputeFrameWork.merge_engine := Raise (NotImplementedError "");
  ComputeFrameWork.set_column_names := ComputeFrameWork.column_names;
  ComputeFrameWork.default_transform_map := empty_transform_map |}.

(** * Properties *)

(** ** Join-step routing *)

(** C3. [matched] returns the step's own uuid exactly when the feature id is
    among the required uuids and the framework type is the left or the right
    framework of the step; in every other case it returns [None], in
    particular when the feature id is not required, whatever the framework. *)
Theorem matched_routes_required_ids_of_either_side
    (s : JoinStep.t) (fw : JoinStep.FrameworkType) (u : UUID) :
  (JoinStep.matched s fw u = Some (JoinStep.uuid s) <->
     u ∈ JoinStep.required_uuids s
     /\ (fw = JoinStep.left_framework s \/ fw = JoinStep.right_framework s))
  /\ (JoinStep.matched s fw u = Some (JoinStep.uuid s) \/ JoinStep.matched s fw u = None)
  /\ (u ∉ JoinStep.required_uuids s -> JoinStep.matched s fw u = None).
Proof.
  unfold JoinStep.matched.
  repeat case_bool_decide; simpl; intuition (discriminate || congruence).
Qed.

(** ** FeatureSet: what the first add fixes *)

Section FeatureSetAdd.
Import FeatureSet.
Context {E : Type}.

Lemma add_keeps_options (s : t E) (f : Feature) (o : Options) :
  fs_options s = Some o -> fs_options (add s f) = Some o.
Proof. intros H. simpl. now rewrite H. Qed.

Lemma add_keeps_any_uuid (s : t E) (f : Feature) (u : UUID) :
  any_uuid s = Some u -> any_uuid (add s f) = Some u.
Proof. intros H. simpl. now rewrite H. Qed.

Lemma add_all_keeps_options (fs : list Feature) : forall (s : t E) (o : Options),
  fs_options s = Some o -> fs_options (add_all s fs) = Some o.
Proof.
  induction fs as [|f fs IH]; intros s o H; [exact H|].
  apply IH. now apply add_keeps_options.
Qed.

Lemma add_all_keeps_any_uuid (fs : list Feature) : forall (s : t E) (u : UUID),
  any_uuid s = Some u -> any_uuid (add_all s fs) = Some u.
Proof.
  induction fs as [|f fs IH]; intros s u H; [exact H|].
  apply IH. now apply add_keeps_any_uuid.
Qed.

Lemma last_cons_default (fs : list Feature) : forall (g f : Feature),
  List.last (g :: fs) f = List.last fs g.
Proof.
  induction fs as [|h fs IH]; intros g f; [reflexivity|].
  change (List.last (g :: h :: fs) f) with (List.last (h :: fs) f).
  now rewrite !IH.
Qed.

(** [name_of_one_feature] follows the feature added last. *)
Lemma add_all_name_of_last (fs : list Feature) : forall (s : t E) (f : Feature),
  name_of_one_feature (add_all (add s f) fs) = Some (name (List.last fs f)).
Proof.
  induction fs as [|g fs IH]; intros s f; [reflexivity|].
  change (add_all (add s f) (g :: fs)) with (add_all (add (add s f) g) fs).
  now rewrite IH, last_cons_default.
Qed.
End FeatureSetAdd.

(** C7, as stated, fails: after [add(feature_a)] and then [add(feature_b)] on
    a new feature set, [name_of_one_feature] is the name of [feature_b], not
    the name of the feature added first. *)
Lemma name_of_one_feature_follows_last_add :
  ~ (forall (first : FeatureSet.Feature) (later : list FeatureSet.Feature),
       let s := FeatureSet.add_all (FeatureSet.add (FeatureSet.init tt) first) later in
       FeatureSet.fs_options s = Some (FeatureSet.options first)
       /\ FeatureSet.name_of_one_feature s = Some (FeatureSet.name first)).
Proof.
  intros H. destruct (H feature_a [feature_b]) as [_ Hname].
  vm_compute in Hname. discriminate Hname.
Qed.

(** C7, amended.  Once the first feature is added to a new feature set, the
    options bag and [any_uuid] stay those of the first feature through every
    later [add]; [name_of_one_feature] is the name of the feature added
    most recently. *)
Theorem first_add_freezes_options_and_any_uuid
    {E : Type} (base : E)
    (first : FeatureSet.Feature) (later : list FeatureSet.Feature) :
  let s := FeatureSet.add_all (FeatureSet.add (FeatureSet.init base) first) later in
  FeatureSet.fs_options s = Some (FeatureSet.options first)
  /\ FeatureSet.any_uuid s = Some (FeatureSet.uuid first)
  /\ FeatureSet.name_of_one_feature s = Some (FeatureSet.name (List.last later first)).
Proof.
  cbv zeta. split; [|split].
  - now apply add_all_keeps_options.
  - now apply add_all_keeps_any_uuid.
  - apply add_all_name_of_last.
Qed.

(** ** transform on data of the expected type *)

(** C6. When [expected_data_framework()] is a type and the data is an
    instance of it, [ComputeFrameWork.transform] returns the data it was
    given, the very same value; so does [self.transform] in every class
    that inherits it. *)
Theorem transform_expected_type_is_identity
    (cls : ComputeFrameWork.Class) (self : ComputeFrameWork.t)
    (data : PyVal) (feature_names : gset string)
    (transform_map : ComputeFrameWork.ComputeFrameworkTransformMap) (T : string) :
  ComputeFrameWork.expected_data_framework cls = Some T ->
  ComputeFrameWork.isinstance data (Some T) = Return true ->
  ComputeFrameWork.transform_refactored cls data transform_map = Return data
  /\ ComputeFrameWork.transform_base cls data feature_names transform_map = Return data
  /\ (ComputeFrameWork.transform_override cls = None ->
      ComputeFrameWork.transform cls self data feature_names transform_map = Return data).
Proof.
  intros HT Hinst.
  assert (Href : ComputeFrameWork.transform_refactored cls data transform_map = Return data).
  { unfold ComputeFrameWork.transform_refactored. now rewrite HT, Hinst. }
  assert (Hbase : ComputeFrameWork.transform_base cls data feature_names transform_map
                  = Return data).
  { unfold ComputeFrameWork.transform_base. rewrite Href.
    unfold Return. destruct (is_None data); reflexivity. }
  repeat split; auto.
  intros Hnone. unfold ComputeFrameWork.transform. now rewrite Hnone.
Qed.

Lemma transform_expected_type_is_identity_witness :
  ComputeFrameWork.transform table_cls (new_cfw ∅ 7%N) table_1 ∅ empty_transform_map
  = Return table_1.
Proof.
  apply (transform_expected_type_is_identity table_cls (new_cfw ∅ 7%N) table_1 ∅
           empty_transform_map ComputeFrameWork.pa_Table);
    reflexivity.
Defined.

(** ** Validation of input and output features *)

Section Validation.
Import ComputeFrameWork.
Variables (feature_group : FeatureGroup) (features : Features) (s : State).

(** The verdict on a validator's answer [r]: the last two lines of both
    methods. *)
Lemma run_validate_input_features_verdict ext r :
  is_None (data (self s)) = false ->
  get_function_extender (self s) VALIDATE_INPUT_FEATURE = Return ext ->
  (call_feature_group VALIDATE_INPUT_FEATURE ext
     (validate_input_features feature_group) features s).1 = Return r ->
  (run_validate_input_features feature_group features s).1
  = if is_None r || is_True r then Return tt else Raise (ValueError r).
Proof.
  intros Hdata Hext Hcall.
  unfold run_validate_input_features, bind, get_self, lift. simpl.
  rewrite Hdata, Hext. unfold Return.
  destruct (call_feature_group _ _ _ _ s) as [[e|r'] s'] eqn:Hc; simpl in Hcall.
  - discriminate Hcall.
  - injection Hcall as ->. destruct (is_None r || is_True r); reflexivity.
Qed.

Lemma run_validate_output_features_verdict ext r :
  is_None (data (self s)) = false ->
  get_function_extender (self s) VALIDATE_OUTPUT_FEATURE = Return ext ->
  (call_feature_group VALIDATE_OUTPUT_FEATURE ext
     (validate_output_features feature_group) features s).1 = Return r ->
  (run_validate_output_features feature_group features s).1
  = if is_None r || is_True r then Return tt else Raise (ValueError r).
Proof.
  intros Hdata Hext Hcall.
  unfold run_validate_output_features, bind, get_self, lift. simpl.
  rewrite Hdata, Hext. unfold Return.
  destruct (call_feature_group _ _ _ _ s) as [[e|r'] s'] eqn:Hc; simpl in Hcall.
  - discriminate Hcall.
  - injection Hcall as ->. destruct (is_None r || is_True r); reflexivity.
Qed.
End Validation.

Lemma verdict_raises_iff (r : PyVal) (out : Result unit) :
  out = (if is_None r || is_True r then Return tt else Raise (ValueError r)) ->
  (out = Raise (ValueError r) <-> r <> PyNone /\ r <> PyBool true)
  /\ (r = PyNone \/ r = PyBool true -> out = Return tt).
Proof.
  intros ->. destruct r as [|[|]| | |]; simpl; unfold Return, Raise;
    intuition (discriminate || congruence).
Qed.

(** C8, as stated, fails under either reading of "falsy/non-None".  A
    validator that answers with a non-empty string (a truthy value other
    than [True]) gets its answer raised in a [ValueError], so raising is not
    limited to falsy answers; and the answer [True] is not [None] yet raises
    nothing. *)
Lemma validation_raise_is_not_falsy_test :
  ~ (forall (fg : ComputeFrameWork.FeatureGroup) (features : ComputeFrameWork.Features)
            (s : ComputeFrameWork.State) (r : PyVal),
       is_None (ComputeFrameWork.data (ComputeFrameWork.self s)) = false ->
       ComputeFrameWork.function_extender (ComputeFrameWork.self s) = [] ->
       ComputeFrameWork.validate_input_features fg
         (ComputeFrameWork.data (ComputeFrameWork.self s)) features = Return r ->
       ((ComputeFrameWork.run_validate_input_features fg features s).1
          = Raise (ValueError r)
        <-> truthy r = false /\ r <> PyNone))
  /\ ~ (forall (fg : ComputeFrameWork.FeatureGroup) (features : ComputeFrameWork.Features)
              (s : ComputeFrameWork.State) (r : PyVal),
       is_None (ComputeFrameWork.data (ComputeFrameWork.self s)) = false ->
       ComputeFrameWork.function_extender (ComputeFrameWork.self s) = [] ->
       ComputeFrameWork.validate_input_features fg
         (ComputeFrameWork.data (ComputeFrameWork.self s)) features = Return r ->
       ((ComputeFrameWork.run_validate_input_features fg features s).1
          = Raise (ValueError r)
        <-> r <> PyNone)).
Proof.
  split; intros H.
  - destruct (H (fg_answering (PyStr "column x is missing")) no_features
                (holding table_1 ∅ 7%N) (PyStr "column x is missing")
                eq_refl eq_refl eq_refl) as [Hraise _].
    destruct (Hraise eq_refl) as [Hfalsy _]. discriminate Hfalsy.
  - destruct (H (fg_answering (PyBool true)) no_features
                (holding table_1 ∅ 7%N) (PyBool true)
                eq_refl eq_refl eq_refl) as [_ Hraise].
    assert (Hne : PyBool true <> PyNone) by discriminate.
    specialize (Hraise Hne). discriminate Hraise.
Qed.

(** C8, amended.  When the instance holds data, input validation and output
    validation raise [ValueError] carrying exactly the validator's answer if
    and only if that answer is neither [None] nor [True] (so [False], and
    every other value, truthy or not, is raised); on [None] or [True] nothing
    is raised and the pipeline goes on. *)
Theorem validation_raises_answer_unless_None_or_True
    (feature_group : ComputeFrameWork.FeatureGroup)
    (features : ComputeFrameWork.Features) (s : ComputeFrameWork.State) (r : PyVal) :
  is_None (ComputeFrameWork.data (ComputeFrameWork.self s)) = false ->
  (forall ext,
     ComputeFrameWork.get_function_extender (ComputeFrameWork.self s)
       VALIDATE_INPUT_FEATURE = Return ext ->
     (ComputeFrameWork.call_feature_group VALIDATE_INPUT_FEATURE ext
        (ComputeFrameWork.validate_input_features feature_group) features s).1 = Return r ->
     ((ComputeFrameWork.run_validate_input_features feature_group features s).1
        = Raise (ValueError r) <-> r <> PyNone /\ r <> PyBool true)
     /\ (r = PyNone \/ r = PyBool true ->
         (ComputeFrameWork.run_validate_input_features feature_group features s).1
         = Return tt))
  /\ (forall ext,
     ComputeFrameWork.get_function_extender (ComputeFrameWork.self s)
       VALIDATE_OUTPUT_FEATURE = Return ext ->
     (ComputeFrameWork.call_feature_group VALIDATE_OUTPUT_FEATURE ext
        (ComputeFrameWork.validate_output_features feature_group) features s).1 = Return r ->
     ((ComputeFrameWork.run_validate_output_features feature_group features s).1
        = Raise (ValueError r) <-> r <> PyNone /\ r <> PyBool true)
     /\ (r = PyNone \/ r = PyBool true ->
         (ComputeFrameWork.run_validate_output_features feature_group features s).1
         = Return tt)).
Proof.
  intros Hdata. split; intros ext Hext Hcall; apply verdict_raises_iff.
  - now apply run_validate_input_features_verdict with (ext := ext).
  - now apply run_validate_output_features_verdict with (ext := ext).
Qed.

Lemma validation_raises_answer_unless_None_or_True_witness :
  (ComputeFrameWork.run_validate_input_features (fg_answering (PyBool false))
     no_features (holding table_1 ∅ 7%N)).1 = Raise (ValueError (PyBool false))
  /\ (ComputeFrameWork.run_validate_output_features (fg_answering (PyInt 1))
     no_features (holding table_1 ∅ 7%N)).1 = Raise (ValueError (PyInt 1)).
Proof.
  split.
  - destruct (validation_raises_answer_unless_None_or_True
                (fg_answering (PyBool false)) no_features (holding table_1 ∅ 7%N)
                (PyBool false) eq_refl) as [Hin _].
    destruct (Hin None eq_refl eq_refl) as [Hraise _].
    apply Hraise. split; discriminate.
  - destruct (validation_raises_answer_unless_None_or_True
                (fg_answering (PyInt 1)) no_features (holding table_1 ∅ 7%N)
                (PyInt 1) eq_refl) as [_ Hout].
    destruct (Hout None eq_refl eq_refl) as [Hraise _].
    apply Hraise. split; discriminate.
Defined.

(** ** Reasoning about the pipeline, step by step *)

Section Preserves.
Import ComputeFrameWork.
Variable R : State -> State -> Prop.
Hypothesis R_refl : forall s, R s s.
Hypothesis R_trans : forall s1 s2 s3, R s1 s2 -> R s2 s3 -> R s1 s3.

Lemma preserves_ret {A} (a : A) : preserves R (ret a).
Proof. intros s. apply R_refl. Qed.

Lemma preserves_raise {A} (e : Exc) : preserves R (@raise State A e).
Proof. intros s. apply R_refl. Qed.

Lemma preserves_lift {A} (r : Result A) : preserves R (lift r).
Proof. intros s. apply R_refl. Qed.

Lemma preserves_get_self : preserves R get_self.
Proof. intros s. apply R_refl. Qed.

Lemma preserves_bind {A B} (m : M State A) (k : A -> M State B) :
  preserves R m -> (forall a, preserves R (k a)) -> preserves R (bind m k).
Proof.
  intros Hm Hk s. unfold bind. specialize (Hm s).
  destruct (m s) as [[e|a] s1]; simpl in *; [exact Hm|].
  eapply R_trans; [exact Hm|apply Hk].
Qed.

Lemma preserves_if {A} (b : bool) (m1 m2 : M State A) :
  preserves R m1 -> preserves R m2 -> preserves R (if b then m1 else m2).
Proof. destruct b; auto. Qed.
End Preserves.

Lemma bind_returns {S A B} (m : M S A) (k : A -> M S B) (s s' : S) (b : B) :
  bind m k s = (Return b, s') ->
  exists a s1, m s = (Return a, s1) /\ k a s1 = (Return b, s').
Proof.
  unfold bind. destruct (m s) as [[e|a] s1]; intros H.
  - discriminate H.
  - now exists a, s1.
Qed.

Create HintDb pipeline.

Lemma same_input_validations_refl s : same_input_validations s s.
Proof. reflexivity. Qed.

Lemma same_input_validations_trans s1 s2 s3 :
  same_input_validations s1 s2 -> same_input_validations s2 s3 ->
  same_input_validations s1 s3.
Proof. unfold same_input_validations. congruence. Qed.

Lemma same_bookkeeping_refl s : same_bookkeeping s s.
Proof. repeat split. Qed.

Lemma same_bookkeeping_trans s1 s2 s3 :
  same_bookkeeping s1 s2 -> same_bookkeeping s2 s3 -> same_bookkeeping s1 s3.
Proof. unfold same_bookkeeping. intuition congruence. Qed.

#[local] Hint Resolve same_input_validations_refl same_input_validations_trans
  same_bookkeeping_refl same_bookkeeping_trans : pipeline.

#[local] Hint Resolve preserves_ret preserves_raise preserves_lift preserves_get_self
  : pipeline.

(** Break a pipeline into its steps. *)
Ltac pipeline_steps :=
  repeat first
    [ solve [eauto with pipeline]
    | apply preserves_bind; [solve [eauto with pipeline] | | intros ? ]
    | apply preserves_if
    | match goal with
      | |- preserves _ (match ?x with _ => _ end) => destruct x
      end ].

Section InputLog.
Import ComputeFrameWork.

Lemma modify_self_keeps_input_log f : preserves same_input_validations (modify_self f).
Proof. intros s. reflexivity. Qed.

Lemma record_call_keeps_input_log which w :
  which <> VALIDATE_INPUT_FEATURE ->
  preserves same_input_validations (record_call (Called which w)).
Proof.
  intros Hne s. unfold same_input_validations, input_validations. simpl.
  rewrite List.filter_app. simpl.
  rewrite bool_decide_false by exact Hne. now rewrite app_nil_r.
Qed.

Lemma in_world_uuid4_keeps_input_log : preserves same_input_validations (in_world uuid4).
Proof. intros s. reflexivity. Qed.

Lemma in_world_upload_keeps_input_log loc d k :
  preserves same_input_validations (in_world (FlightServer.upload_table loc d k)).
Proof. intros s. reflexivity. Qed.

#[local] Hint Resolve modify_self_keeps_input_log in_world_uuid4_keeps_input_log
  in_world_upload_keeps_input_log : pipeline.

Lemma call_feature_group_keeps_input_log which ext f features :
  which <> VALIDATE_INPUT_FEATURE ->
  preserves same_input_validations (call_feature_group which ext f features).
Proof.
  intros Hne. unfold call_feature_group.
  pose proof (record_call_keeps_input_log which false Hne).
  pose proof (record_call_keeps_input_log which true Hne).
  pipeline_steps.
Qed.

Lemma run_calculate_feature_keeps_input_log fg features :
  preserves same_input_validations (run_calculate_feature fg features).
Proof.
  unfold run_calculate_feature.
  assert (forall ext f, preserves same_input_validations
            (call_feature_group FEATURE_GROUP_CALCULATE_FEATURE ext f features))
    by (intros; now apply call_feature_group_keeps_input_log).
  pipeline_steps.
Qed.

Lemma run_validate_output_features_keeps_input_log fg features :
  preserves same_input_validations (run_validate_output_features fg features).
Proof.
  unfold run_validate_output_features.
  assert (forall ext f, preserves same_input_validations
            (call_feature_group VALIDATE_OUTPUT_FEATURE ext f features))
    by (intros; now apply call_feature_group_keeps_input_log).
  pipeline_steps.
Qed.

Lemma upload_finished_data_keeps_input_log cls loc :
  preserves same_input_validations (upload_finished_data cls loc).
Proof. unfold upload_finished_data, upload_table. pipeline_steps. Qed.
End InputLog.

Lemma bind_after {S A B} (m : M S A) (k : A -> M S B) (s s1 : S) (a : A) :
  m s = (Return a, s1) -> bind m k s = k a s1.
Proof. intros H. unfold bind. now rewrite H. Qed.

(** ** Validation when the instance holds no data *)

Section NoData.
Import ComputeFrameWork.

Lemma run_validate_input_features_no_data fg features s :
  is_None (data (self s)) = true ->
  run_validate_input_features fg features s = (Return tt, s).
Proof.
  intros H. unfold run_validate_input_features, bind, get_self. simpl. now rewrite H.
Qed.

Lemma run_validate_output_features_no_data fg features s :
  is_None (data (self s)) = true ->
  run_validate_output_features fg features s = (Return tt, s).
Proof.
  intros H. unfold run_validate_output_features, bind, get_self. simpl. now rewrite H.
Qed.
End NoData.

#[local] Hint Resolve modify_self_keeps_input_log run_calculate_feature_keeps_input_log
  run_validate_output_features_keeps_input_log upload_finished_data_keeps_input_log
  : pipeline.

(** C10. While the instance's data is [None], input validation and output
    validation return at once: whatever the feature group's validators would
    do, nothing is raised and no call is made (the state, call log included,
    is left as it was).  In particular [run_calculation] on an instance
    without data and without a data argument never asks the feature group
    to validate its input. *)
Theorem validation_is_skipped_without_data
    (feature_group : ComputeFrameWork.FeatureGroup)
    (features : ComputeFrameWork.Features) (s : ComputeFrameWork.State) :
  is_None (ComputeFrameWork.data (ComputeFrameWork.self s)) = true ->
  ComputeFrameWork.run_validate_input_features feature_group features s = (Return tt, s)
  /\ ComputeFrameWork.run_validate_output_features feature_group features s = (Return tt, s)
  /\ (forall (cls : ComputeFrameWork.Class) (location : option string),
        input_validations
          (ComputeFrameWork.world
             (ComputeFrameWork.run_calculation cls feature_group features location PyNone s).2)
        = input_validations (ComputeFrameWork.world s)).
Proof.
  intros Hnone. split; [|split].
  - now apply run_validate_input_features_no_data.
  - now apply run_validate_output_features_no_data.
  - intros cls location. unfold ComputeFrameWork.run_calculation.
    cbn [is_None negb].
    rewrite (bind_after _ _ s s tt) by reflexivity.
    rewrite (bind_after _ _ s s tt)
      by now apply run_validate_input_features_no_data.
    match goal with
    | |- input_validations (ComputeFrameWork.world (?m s).2) = _ =>
      enough (H : preserves same_input_validations m) by exact (H s)
    end.
    pipeline_steps.
Qed.

Lemma validation_is_skipped_without_data_witness :
  ComputeFrameWork.run_validate_input_features fg_rejecting one_feature
    {| ComputeFrameWork.self := new_cfw {[ 1%N; 2%N ]} 7%N;
       ComputeFrameWork.world := empty_world |}
  = (Return tt, {| ComputeFrameWork.self := new_cfw {[ 1%N; 2%N ]} 7%N;
                   ComputeFrameWork.world := empty_world |}).
Proof.
  apply (validation_is_skipped_without_data fg_rejecting one_feature
           {| ComputeFrameWork.self := new_cfw {[ 1%N; 2%N ]} 7%N;
              ComputeFrameWork.world := empty_world |}).
  reflexivity.
Defined.

(** ** Bookkeeping of satisfied children, and the drop *)

Section Drop.
Import ComputeFrameWork.

Lemma drop_last_data_spec location s :
  drop_last_data location s
  = (Return tt,
     {| self := set_data_attr PyNone (self s);
        world :=
          match data (self s), location with
          | PyStr key, Some loc =>
            if str_truthy (Some loc)
            then (FlightServer.drop_tables loc {[ key ]} (world s)).2
            else world s
          | _, _ => world s
          end |}).
Proof.
  unfold drop_last_data, bind, get_self, modify_self, drop_data, in_world, ret. simpl.
  destruct (data (self s)); try reflexivity.
  destruct location as [loc|]; try reflexivity.
  destruct (negb (String.eqb loc "")); reflexivity.
Qed.

Lemma dropped_key_is_gone loc key w :
  FlightServer.tables_at loc (FlightServer.drop_tables loc {[ key ]} w).2 !! key = None.
Proof.
  unfold FlightServer.drop_tables, FlightServer.tables_at at 1. simpl.
  rewrite lookup_insert_eq. simpl.
  apply map_lookup_filter_None. right. intros x _ Hnot. simpl in Hnot.
  apply Hnot. now apply elem_of_singleton.
Qed.

Lemma set_tracker_attr_same (c : t) :
  set_tracker_attr (already_calculated_children_tracker c) c = c.
Proof. now destruct c. Qed.

Lemma set_data_attr_same (c : t) : set_data_attr (data c) c = c.
Proof. now destruct c. Qed.

Lemma add_children_spec children location s :
  let c := self s in
  let tracked := already_calculated_children_tracker c ∪ children in
  let s1 := {| self := set_tracker_attr tracked c; world := world s |} in
  add_already_calculated_children_and_drop_if_possible children location s
  = if bool_decide (children_if_root c ⊆ tracked)
    then (Return (IsBool true), (drop_last_data location s1).2)
    else if 0 <? length (object_ids c)
    then (Return (IsChildren (children_if_root c)), s1)
    else (Return (IsBool false), s1).
Proof.
  cbv zeta.
  unfold add_already_calculated_children_and_drop_if_possible, bind, modify_self,
    get_self, ret. simpl.
  case_bool_decide.
  - now rewrite drop_last_data_spec.
  - destruct (0 <? length (object_ids (self s))); reflexivity.
Qed.
End Drop.

Lemma dropped_key_keeps_others loc key key' w :
  key' <> key ->
  FlightServer.tables_at loc (FlightServer.drop_tables loc {[ key ]} w).2 !! key'
  = FlightServer.tables_at loc w !! key'.
Proof.
  intros Hne. unfold FlightServer.drop_tables, FlightServer.tables_at at 1. simpl.
  rewrite lookup_insert_eq. simpl. rewrite map_lookup_filter.
  destruct (FlightServer.tables_at loc w !! key') as [d|]; [|reflexivity]. simpl.
  rewrite option_guard_True; [reflexivity|].
  simpl. intros Hin. apply elem_of_singleton in Hin. contradiction.
Qed.

(** C2, as stated, fails for exchange-resident data when the method is
    called the way its signature allows, without a location.  The instance 7
    has uploaded its table and holds the handle; with its only declared
    child reported and no location given, the call returns [True] and sets
    the data to [None], but the table is still on the flight server. *)
Lemma bookkeeping_without_location_leaves_the_table :
  let res :=
    ComputeFrameWork.add_already_calculated_children_and_drop_if_possible
      {[ 9%N ]} None uploaded_instance in
  ComputeFrameWork.data (ComputeFrameWork.self uploaded_instance) = PyStr "7"
  /\ FlightServer.tables_at flight_location (ComputeFrameWork.world uploaded_instance) !! "7"
     = Some table_1
  /\ res.1 = Return (ComputeFrameWork.IsBool true)
  /\ ComputeFrameWork.data (ComputeFrameWork.self res.2) = PyNone
  /\ FlightServer.tables_at flight_location (ComputeFrameWork.world res.2) !! "7"
     = Some table_1.
Proof.
  cbv zeta. rewrite add_children_spec. cbv zeta.
  rewrite bool_decide_true by (vm_compute; set_solver).
  rewrite drop_last_data_spec. simpl.
  repeat split; unfold FlightServer.tables_at; simpl;
    rewrite lookup_singleton_eq; simpl; apply lookup_singleton_eq.
Qed.

(** C2, amended.  The bookkeeping method first adds the given children to
    the tracker and then answers in one of three ways.  If every declared
    child is now tracked, it returns [True] after setting the instance's data
    to [None]; before that it drops the data's key from the flight server,
    and no other key, exactly when the data is a handle and a non-empty
    location was given: with data that is not a string, or with no location
    or an empty one, the flight server is left as it was.  Otherwise it
    leaves data and flight server alone and returns the declared children
    set if some object id was uploaded, and [False] if none was.  It never
    raises.  After a drop, calling it again with the full declared set
    changes nothing and returns [True]. *)
Theorem children_bookkeeping_three_answers_one_drop
    (children : gset UUID) (location : option string) (s : ComputeFrameWork.State) :
  let c := ComputeFrameWork.self s in
  let tracked := ComputeFrameWork.already_calculated_children_tracker c ∪ children in
  let res :=
    ComputeFrameWork.add_already_calculated_children_and_drop_if_possible
      children location s in
  let s' := res.2 in
  ComputeFrameWork.already_calculated_children_tracker (ComputeFrameWork.self s') = tracked
  /\ (ComputeFrameWork.children_if_root c ⊆ tracked ->
      res.1 = Return (ComputeFrameWork.IsBool true)
      /\ ComputeFrameWork.data (ComputeFrameWork.self s') = PyNone
      /\ (forall key loc,
            ComputeFrameWork.data c = PyStr key -> location = Some loc -> loc <> "" ->
            FlightServer.tables_at loc (ComputeFrameWork.world s') !! key = None
            /\ forall key', key' <> key ->
                  FlightServer.tables_at loc (ComputeFrameWork.world s') !! key'
                  = FlightServer.tables_at loc (ComputeFrameWork.world s) !! key')
      /\ (is_str (ComputeFrameWork.data c) = false \/ str_truthy location = false ->
          ComputeFrameWork.world s' = ComputeFrameWork.world s)
      /\ ComputeFrameWork.add_already_calculated_children_and_drop_if_possible
           (ComputeFrameWork.children_if_root c) location s'
         = (Return (ComputeFrameWork.IsBool true), s'))
  /\ (~ ComputeFrameWork.children_if_root c ⊆ tracked ->
      ComputeFrameWork.data (ComputeFrameWork.self s') = ComputeFrameWork.data c
      /\ ComputeFrameWork.world s' = ComputeFrameWork.world s
      /\ (ComputeFrameWork.object_ids c <> [] ->
          res.1 = Return (ComputeFrameWork.IsChildren (ComputeFrameWork.children_if_root c)))
      /\ (ComputeFrameWork.object_ids c = [] ->
          res.1 = Return (ComputeFrameWork.IsBool false))).
Proof.
  cbv zeta. rewrite add_children_spec. cbv zeta.
  set (c := ComputeFrameWork.self s).
  set (tracked := ComputeFrameWork.already_calculated_children_tracker c ∪ children).
  case_bool_decide as Hdone.
  - rewrite drop_last_data_spec. simpl. split; [reflexivity|]. split; [|tauto].
    intros _. do 2 (split; [reflexivity|]). split; [|split].
    + intros key loc Hkey -> Hloc. fold c. rewrite Hkey.
      destruct (String.eqb_spec loc ""); [contradiction|]. simpl. split.
      * apply (dropped_key_is_gone loc key (ComputeFrameWork.world s)).
      * intros key' Hne.
        now apply (dropped_key_keeps_others loc key key' (ComputeFrameWork.world s)).
    + intros [Hstr|Hloc]; fold c.
      * destruct (ComputeFrameWork.data c); try reflexivity. discriminate Hstr.
      * destruct (ComputeFrameWork.data c); try reflexivity.
        destruct location as [loc|]; [|reflexivity].
        simpl in Hloc. simpl. now rewrite Hloc.
    + rewrite add_children_spec. cbv zeta. simpl. fold c tracked.
      assert (Hsame : tracked ∪ ComputeFrameWork.children_if_root c = tracked)
        by (rewrite (union_comm_L tracked); apply subseteq_union_1_L; exact Hdone).
      rewrite Hsame, bool_decide_true by exact Hdone.
      reflexivity.
  - destruct (ComputeFrameWork.object_ids c) as [|o ids] eqn:Hids; simpl;
      (split; [reflexivity|]); (split; [tauto|]); intros _;
      repeat split; try reflexivity; intros H;
      first [reflexivity | congruence].
Qed.

(** ** The end of run_calculation: hand over in memory, or upload *)

Section Bookkeeping.
Import ComputeFrameWork.

Lemma set_data_keeps_bookkeeping d :
  preserves same_bookkeeping (modify_self (set_data_attr d)).
Proof. intros s. repeat split. Qed.

Lemma set_column_names_keeps_bookkeeping (f : t -> gset string) :
  preserves same_bookkeeping (modify_self (fun c => set_column_names_attr (f c) c)).
Proof. intros s. repeat split. Qed.

Lemma record_call_keeps_bookkeeping e : preserves same_bookkeeping (record_call e).
Proof. intros s. repeat split. Qed.

#[local] Hint Resolve set_data_keeps_bookkeeping set_column_names_keeps_bookkeeping
  record_call_keeps_bookkeeping : pipeline.

Lemma call_feature_group_keeps_bookkeeping which ext f features :
  preserves same_bookkeeping (call_feature_group which ext f features).
Proof. unfold call_feature_group. pipeline_steps. Qed.

#[local] Hint Resolve call_feature_group_keeps_bookkeeping : pipeline.

Lemma run_validate_input_features_keeps_bookkeeping fg features :
  preserves same_bookkeeping (run_validate_input_features fg features).
Proof. unfold run_validate_input_features. pipeline_steps. Qed.

Lemma run_validate_output_features_keeps_bookkeeping fg features :
  preserves same_bookkeeping (run_validate_output_features fg features).
Proof. unfold run_validate_output_features. pipeline_steps. Qed.

Lemma run_calculate_feature_keeps_bookkeeping fg features :
  preserves same_bookkeeping (run_calculate_feature fg features).
Proof. unfold run_calculate_feature. pipeline_steps. Qed.

(** One step of a pipeline that returned: the step returned too, and the
    relation reaches the state it left. *)
Lemma bind_returns_from {A B} (R : State -> State -> Prop)
    (R_trans : forall s1 s2 s3, R s1 s2 -> R s2 s3 -> R s1 s3)
    (m : M State A) (k : A -> M State B) (s0 s s' : State) (b : B) :
  preserves R m -> R s0 s ->
  bind m k s = (Return b, s') ->
  exists a s1, R s0 s1 /\ m s = (Return a, s1) /\ k a s1 = (Return b, s').
Proof.
  intros Hm H0 H. apply bind_returns in H as (a & s1 & Hms & Hk).
  exists a, s1. split; [|split; [exact Hms|exact Hk]].
  eapply R_trans; [exact H0|]. specialize (Hm s). now rewrite Hms in Hm.
Qed.

Lemma set_filter_engine_keeps_features cls features features' :
  set_filter_engine cls features = Return features' ->
  FeatureSet.features features' = FeatureSet.features features.
Proof.
  unfold set_filter_engine.
  destruct (filter_engine cls) as [[]|engine]; try discriminate;
    try destruct (negb (is_filter_engine engine)); try discriminate;
    intros [= <-]; reflexivity.
Qed.

(** What [upload_finished_data] does, in one piece. *)
Lemma upload_finished_data_spec cls loc s :
  let h := str_of_uuid (uuid (self s)) in
  let converted :=
    match get_framework_transform_functions cls false pa_Table with
    | Some func => func (data (self s))
    | None => Return (data (self s))
    end in
  upload_finished_data cls loc s
  = match converted with
    | inl e => (Raise e, s)
    | inr d =>
      (Return h,
       {| self := set_object_ids_attr (object_ids (self s) ++ [h])
                    (set_data_attr d (self s));
          world := (FlightServer.upload_table loc d h (world s)).2 |})
    end.
Proof.
  cbv zeta. unfold upload_finished_data, upload_table, bind, get_self, ret, lift,
    modify_self, in_world. simpl.
  destruct (get_framework_transform_functions cls false pa_Table) as [func|]; simpl.
  - destruct (func (data (self s))) as [e|d]; simpl; [now destruct s|reflexivity].
  - rewrite set_data_attr_same. reflexivity.
Qed.
End Bookkeeping.

#[local] Hint Resolve set_data_keeps_bookkeeping set_column_names_keeps_bookkeeping
  run_validate_input_features_keeps_bookkeeping
  run_validate_output_features_keeps_bookkeeping
  run_calculate_feature_keeps_bookkeeping : pipeline.

(** Follow a pipeline that returned through its next step. *)
Ltac advance :=
  match goal with
  | Hrel : same_bookkeeping ?s0 ?s, H : bind ?m ?k ?s = (Return ?v, ?s') |- _ =>
    let Hp := fresh "Hp" in
    assert (Hp : preserves same_bookkeeping m) by pipeline_steps;
    let a := fresh "a" in
    let s1 := fresh "s" in
    let Hrel1 := fresh "Hrel" in
    let Hstep := fresh "Hstep" in
    let H1 := fresh "Hrun" in
    destruct (bind_returns_from same_bookkeeping same_bookkeeping_trans
                m k s0 s s' v Hp Hrel H) as (a & s1 & Hrel1 & Hstep & H1);
    clear Hp Hrel H; cbv beta in H1
  end.

(** The last statement of [run_calculation], once the pipeline before it
    has run through. *)
Lemma run_calculation_reaches_the_end
    (cls : ComputeFrameWork.Class) (fg : ComputeFrameWork.FeatureGroup)
    (features : ComputeFrameWork.Features) (loc : string) (data_arg v : PyVal)
    (s s' : ComputeFrameWork.State) :
  loc <> "" ->
  ComputeFrameWork.run_calculation cls fg features (Some loc) data_arg s = (Return v, s') ->
  exists s1,
    same_bookkeeping s s1
    /\ (if size (ComputeFrameWork.already_calculated_children_tracker (ComputeFrameWork.self s1))
           + length (FeatureSet.features features)
           <? size (ComputeFrameWork.children_if_root (ComputeFrameWork.self s1))
        then (Return (ComputeFrameWork.data (ComputeFrameWork.self s1)), s1)
        else
          bind (ComputeFrameWork.upload_finished_data cls loc)
            (fun handle =>
               bind (ComputeFrameWork.modify_self (ComputeFrameWork.set_data_attr (PyStr handle)))
                 (fun _ => ret (PyStr handle))) s1)
       = (Return v, s').
Proof.
  intros Hloc Hrun. unfold ComputeFrameWork.run_calculation in Hrun.
  pose proof (same_bookkeeping_refl s) as Hrel.
  do 3 advance.
  match goal with
  | Hs : lift (ComputeFrameWork.set_filter_engine cls features) _ = (Return ?f, _) |- _ =>
    assert (Hfeat : FeatureSet.features f = FeatureSet.features features)
      by (apply (set_filter_engine_keeps_features cls);
          unfold lift in Hs; congruence)
  end.
  do 7 advance.
  exists s9. split; [exact Hrel|].
  unfold str_truthy in Hrun.
  destruct (String.eqb_spec loc ""); [contradiction|].
  cbn [negb] in Hrun.
  unfold bind at 1 in Hrun. unfold ComputeFrameWork.get_self at 1 in Hrun.
  unfold Return in *. cbv beta iota in Hrun. rewrite Hfeat in Hrun.
  destruct (_ <? _); exact Hrun.
Qed.

(** C5, as stated, fails: a location that is not [None] but is the empty
    string takes the "threading/sync" exit.  With two declared children, no
    tracked child and one feature computed, [run_calculation] returns [None]
    although the instance holds the computed table; with no declared child
    it returns [None] too, not a handle. *)
Lemma run_calculation_empty_location_returns_none :
  ~ (forall (cls : ComputeFrameWork.Class) (fg : ComputeFrameWork.FeatureGroup)
            (features : ComputeFrameWork.Features) (loc : string) (data_arg v : PyVal)
            (s s' : ComputeFrameWork.State),
       ComputeFrameWork.run_calculation cls fg features (Some loc) data_arg s
         = (Return v, s') ->
       let c := ComputeFrameWork.self s in
       (size (ComputeFrameWork.already_calculated_children_tracker c)
          + length (FeatureSet.features features)
          < size (ComputeFrameWork.children_if_root c) ->
        v = ComputeFrameWork.data (ComputeFrameWork.self s'))
       /\ (size (ComputeFrameWork.children_if_root c)
             <= size (ComputeFrameWork.already_calculated_children_tracker c)
                + length (FeatureSet.features features) ->
           exists handle, v = PyStr handle)).
Proof.
  intros H.
  set (r := ComputeFrameWork.run_calculation table_cls (fg_answering PyNone) one_feature
              (Some "") PyNone (idle {[ 1%N; 2%N ]} 7%N)).
  assert (Hr : r = (Return PyNone, r.2)) by (vm_compute; reflexivity).
  destruct (H table_cls (fg_answering PyNone) one_feature "" PyNone PyNone
              (idle {[ 1%N; 2%N ]} 7%N) r.2 Hr) as [Hmem _].
  assert (Hlt : size (ComputeFrameWork.already_calculated_children_tracker
                        (ComputeFrameWork.self (idle {[ 1%N; 2%N ]} 7%N)))
                + length (FeatureSet.features one_feature)
                < size (ComputeFrameWork.children_if_root
                          (ComputeFrameWork.self (idle {[ 1%N; 2%N ]} 7%N))))
    by (vm_compute; lia).
  specialize (Hmem Hlt). vm_compute in Hmem. discriminate Hmem.
Qed.

Lemma run_calculation_without_location_keeps_bookkeeping
    cls fg features location data_arg :
  str_truthy location = false ->
  preserves same_bookkeeping
    (ComputeFrameWork.run_calculation cls fg features location data_arg).
Proof.
  intros Hoff. unfold ComputeFrameWork.run_calculation.
  destruct location as [loc|]; [rewrite Hoff|]; simpl negb; cbv iota;
    pipeline_steps.
Qed.

(** A call with a location does, up to its last statement, what the same
    call does without one: the state in which the exit is taken is the state
    the call without a location ends in. *)
Lemma run_calculation_local_then_exit
    (cls : ComputeFrameWork.Class) (fg : ComputeFrameWork.FeatureGroup)
    (features : ComputeFrameWork.Features) (loc : string) (data_arg v : PyVal)
    (s s' : ComputeFrameWork.State) :
  loc <> "" ->
  ComputeFrameWork.run_calculation cls fg features (Some loc) data_arg s = (Return v, s') ->
  exists s1,
    ComputeFrameWork.run_calculation cls fg features None data_arg s = (Return PyNone, s1)
    /\ same_bookkeeping s s1
    /\ (if size (ComputeFrameWork.already_calculated_children_tracker (ComputeFrameWork.self s1))
           + length (FeatureSet.features features)
           <? size (ComputeFrameWork.children_if_root (ComputeFrameWork.self s1))
        then (Return (ComputeFrameWork.data (ComputeFrameWork.self s1)), s1)
        else
          bind (ComputeFrameWork.upload_finished_data cls loc)
            (fun handle =>
               bind (ComputeFrameWork.modify_self (ComputeFrameWork.set_data_attr (PyStr handle)))
                 (fun _ => ret (PyStr handle))) s1)
       = (Return v, s').
Proof.
  intros Hloc Hrun.
  assert (Hlocal : exists s1,
            ComputeFrameWork.run_calculation cls fg features None data_arg s
            = (Return PyNone, s1)
            /\ (if size (ComputeFrameWork.already_calculated_children_tracker
                           (ComputeFrameWork.self s1))
                   + length (FeatureSet.features features)
                   <? size (ComputeFrameWork.children_if_root (ComputeFrameWork.self s1))
                then (Return (ComputeFrameWork.data (ComputeFrameWork.self s1)), s1)
                else
                  bind (ComputeFrameWork.upload_finished_data cls loc)
                    (fun handle =>
                       bind (ComputeFrameWork.modify_self
                               (ComputeFrameWork.set_data_attr (PyStr handle)))
                         (fun _ => ret (PyStr handle))) s1)
               = (Return v, s')).
  { unfold ComputeFrameWork.run_calculation in Hrun |- *.
    apply bind_returns in Hrun as (u0 & s0 & H0 & Hrun).
    apply bind_returns in Hrun as (u1 & s1 & H1 & Hrun).
    apply bind_returns in Hrun as (features' & s2 & H2 & Hrun).
    apply bind_returns in Hrun as (calculated & s3 & H3 & Hrun).
    apply bind_returns in Hrun as (filtered & s4 & H4 & Hrun).
    apply bind_returns in Hrun as (c & s5 & H5 & Hrun).
    apply bind_returns in Hrun as (transformed & s6 & H6 & Hrun).
    apply bind_returns in Hrun as (u7 & s7 & H7 & Hrun).
    apply bind_returns in Hrun as (u8 & s8 & H8 & Hrun).
    apply bind_returns in Hrun as (u9 & s9 & H9 & Hrun).
    exists s9. split.
    - rewrite (bind_after _ _ _ _ _ H0), (bind_after _ _ _ _ _ H1),
        (bind_after _ _ _ _ _ H2), (bind_after _ _ _ _ _ H3),
        (bind_after _ _ _ _ _ H4), (bind_after _ _ _ _ _ H5),
        (bind_after _ _ _ _ _ H6), (bind_after _ _ _ _ _ H7),
        (bind_after _ _ _ _ _ H8), (bind_after _ _ _ _ _ H9).
      reflexivity.
    - assert (Hfeat : FeatureSet.features features' = FeatureSet.features features)
        by (apply (set_filter_engine_keeps_features cls);
            unfold lift in H2; congruence).
      unfold str_truthy in Hrun.
      destruct (String.eqb_spec loc ""); [contradiction|].
      cbn [negb] in Hrun.
      unfold bind at 1 in Hrun. unfold ComputeFrameWork.get_self at 1 in Hrun.
      unfold Return in *. cbv beta iota in Hrun. rewrite Hfeat in Hrun.
      destruct (_ <? _); exact Hrun. }
  destruct Hlocal as (s1 & Hnone & Hend).
  exists s1. split; [exact Hnone|]. split; [|exact Hend].
  pose proof (run_calculation_without_location_keeps_bookkeeping
                cls fg features None data_arg eq_refl s) as Hkeep.
  now rewrite Hnone in Hkeep.
Qed.

(** C5, amended.  For a [run_calculation] call with a non-empty location
    string that runs through, let the computed data be the data the instance
    holds when the pipeline is through, which is the data the same call
    leaves in the instance when it is given no location.  If the declared
    children outnumber the tracked children plus the features just computed,
    the value returned is that computed data, held in memory, and nothing is
    uploaded: the call ends in the state of the call without a location.
    Otherwise the computed data, put through the backend's conversion to a
    table if it has one, is stored on the flight server at that location
    under the instance's own uuid, no other key there changes, and the
    returned value, which is also the instance's new data, is that object id
    as a string.  (A location of [None] or of the empty string returns
    [None].) *)
Theorem run_calculation_hands_over_or_uploads
    (cls : ComputeFrameWork.Class) (fg : ComputeFrameWork.FeatureGroup)
    (features : ComputeFrameWork.Features) (loc : string) (data_arg v : PyVal)
    (s s' : ComputeFrameWork.State) :
  loc <> "" ->
  ComputeFrameWork.run_calculation cls fg features (Some loc) data_arg s = (Return v, s') ->
  let c := ComputeFrameWork.self s in
  let handle := str_of_uuid (ComputeFrameWork.uuid c) in
  let local := (ComputeFrameWork.run_calculation cls fg features None data_arg s).2 in
  let computed := ComputeFrameWork.data (ComputeFrameWork.self local) in
  (size (ComputeFrameWork.already_calculated_children_tracker c)
     + length (FeatureSet.features features)
     < size (ComputeFrameWork.children_if_root c) ->
   v = computed
   /\ s' = local
   /\ v = ComputeFrameWork.data (ComputeFrameWork.self s')
   /\ flight (ComputeFrameWork.world s') = flight (ComputeFrameWork.world s)
   /\ ComputeFrameWork.object_ids (ComputeFrameWork.self s') = ComputeFrameWork.object_ids c)
  /\ (size (ComputeFrameWork.children_if_root c)
        <= size (ComputeFrameWork.already_calculated_children_tracker c)
           + length (FeatureSet.features features) ->
      v = PyStr handle
      /\ ComputeFrameWork.data (ComputeFrameWork.self s') = PyStr handle
      /\ (exists table,
            match ComputeFrameWork.get_framework_transform_functions cls false
                    ComputeFrameWork.pa_Table with
            | Some to_table => to_table computed = Return table
            | None => table = computed
            end
            /\ FlightServer.tables_at loc (ComputeFrameWork.world s') !! handle
               = Some table)
      /\ (forall key, key <> handle ->
            FlightServer.tables_at loc (ComputeFrameWork.world s') !! key
            = FlightServer.tables_at loc (ComputeFrameWork.world s) !! key)
      /\ ComputeFrameWork.object_ids (ComputeFrameWork.self s')
         = ComputeFrameWork.object_ids c ++ [handle]).
Proof.
  intros Hloc Hrun. cbv zeta.
  destruct (run_calculation_local_then_exit _ _ _ _ _ _ _ _ Hloc Hrun)
    as (s1 & Hnone & (Hch & Htr & Hid & Hobj & Hfl & _) & Hend).
  rewrite Hnone. cbn [snd].
  rewrite Hch, Htr in Hend.
  split; intros Hcmp.
  - apply Nat.ltb_lt in Hcmp. rewrite Hcmp in Hend.
    injection Hend as <- <-. auto.
  - apply Nat.ltb_ge in Hcmp. rewrite Hcmp in Hend.
    unfold bind in Hend. rewrite upload_finished_data_spec in Hend. cbv zeta in Hend.
    assert (Hdone : forall d,
      (Return (PyStr (str_of_uuid (ComputeFrameWork.uuid (ComputeFrameWork.self s1)))),
       {| ComputeFrameWork.self :=
            ComputeFrameWork.set_data_attr
              (PyStr (str_of_uuid (ComputeFrameWork.uuid (ComputeFrameWork.self s1))))
              (ComputeFrameWork.set_object_ids_attr
                 (ComputeFrameWork.object_ids (ComputeFrameWork.self s1)
                  ++ [str_of_uuid (ComputeFrameWork.uuid (ComputeFrameWork.self s1))])
                 (ComputeFrameWork.set_data_attr d (ComputeFrameWork.self s1)));
          ComputeFrameWork.world :=
            (FlightServer.upload_table loc d
               (str_of_uuid (ComputeFrameWork.uuid (ComputeFrameWork.self s1)))
               (ComputeFrameWork.world s1)).2 |}) = (Return v, s') ->
      v = PyStr (str_of_uuid (ComputeFrameWork.uuid (ComputeFrameWork.self s)))
      /\ ComputeFrameWork.data (ComputeFrameWork.self s')
         = PyStr (str_of_uuid (ComputeFrameWork.uuid (ComputeFrameWork.self s)))
      /\ FlightServer.tables_at loc (ComputeFrameWork.world s')
           !! str_of_uuid (ComputeFrameWork.uuid (ComputeFrameWork.self s)) = Some d
      /\ (forall key,
            key <> str_of_uuid (ComputeFrameWork.uuid (ComputeFrameWork.self s)) ->
            FlightServer.tables_at loc (ComputeFrameWork.world s') !! key
            = FlightServer.tables_at loc (ComputeFrameWork.world s) !! key)
      /\ ComputeFrameWork.object_ids (ComputeFrameWork.self s')
         = ComputeFrameWork.object_ids (ComputeFrameWork.self s)
           ++ [str_of_uuid (ComputeFrameWork.uuid (ComputeFrameWork.self s))]).
    { intros d Heq. injection Heq as <- <-. simpl. rewrite Hid, Hobj.
      split; [reflexivity|]. split; [reflexivity|]. split; [|split; [|reflexivity]].
      - unfold FlightServer.tables_at at 1. simpl.
        rewrite lookup_insert_eq. simpl. apply lookup_insert_eq.
      - intros key Hne. unfold FlightServer.tables_at at 1. simpl.
        rewrite lookup_insert_eq. simpl. rewrite lookup_insert_ne by congruence.
        unfold FlightServer.tables_at. now rewrite Hfl. }
    destruct (ComputeFrameWork.get_framework_transform_functions cls false
                ComputeFrameWork.pa_Table) as [func|].
    + destruct (func (ComputeFrameWork.data (ComputeFrameWork.self s1))) as [e|d] eqn:Hconv;
        [discriminate Hend|].
      destruct (Hdone d Hend) as (Hv & Hdata & Htable & Hothers & Hids).
      split; [exact Hv|]. split; [exact Hdata|]. split; [|split; assumption].
      exists d. split; [reflexivity|exact Htable].
    + destruct (Hdone _ Hend) as (Hv & Hdata & Htable & Hothers & Hids).
      split; [exact Hv|]. split; [exact Hdata|]. split; [|split; assumption].
      eexists. split; [reflexivity|exact Htable].
Qed.

Lemma run_calculation_hands_over_or_uploads_witness :
  let waiting := ComputeFrameWork.run_calculation table_cls (fg_answering PyNone)
                   one_feature (Some flight_location) PyNone (idle {[ 1%N; 2%N ]} 7%N) in
  let finished := ComputeFrameWork.run_calculation table_cls (fg_answering PyNone)
                    one_feature (Some flight_location) PyNone (idle {[ 1%N ]} 7%N) in
  (waiting.1 = Return table_2
   /\ flight (ComputeFrameWork.world waiting.2) = flight empty_world)
  /\ (finished.1 = Return (PyStr "7")
      /\ ComputeFrameWork.data (ComputeFrameWork.self finished.2)
         = PyStr (str_of_uuid 7%N)
      /\ FlightServer.tables_at flight_location (ComputeFrameWork.world finished.2)
           !! str_of_uuid 7%N
         = Some table_2
      /\ ComputeFrameWork.object_ids (ComputeFrameWork.self finished.2)
         = [] ++ [str_of_uuid 7%N]).
Proof.
  intros waiting finished.
  assert (Hw : waiting = (Return table_2, waiting.2)) by (vm_compute; reflexivity).
  assert (Hf : finished = (Return (PyStr "7"), finished.2)) by (vm_compute; reflexivity).
  assert (Hloc : flight_location <> "") by discriminate.
  split.
  - split; [now rewrite Hw|].
    refine (proj1 (proj2 (proj2 (proj2 (proj1
      (run_calculation_hands_over_or_uploads table_cls (fg_answering PyNone)
         one_feature flight_location PyNone table_2 (idle {[ 1%N; 2%N ]} 7%N)
         waiting.2 Hloc Hw) _))))).
    vm_compute. lia.
  - split; [now rewrite Hf|].
    assert (Hle : size (ComputeFrameWork.children_if_root
                          (ComputeFrameWork.self (idle {[ 1%N ]} 7%N)))
                  <= size (ComputeFrameWork.already_calculated_children_tracker
                             (ComputeFrameWork.self (idle {[ 1%N ]} 7%N)))
                     + length (FeatureSet.features one_feature))
      by (vm_compute; lia).
    destruct (proj2 (run_calculation_hands_over_or_uploads table_cls
                (fg_answering PyNone) one_feature flight_location PyNone (PyStr "7")
                (idle {[ 1%N ]} 7%N) finished.2 Hloc Hf) Hle)
      as (_ & Hdata & (table & Htable & Hstored) & _ & Hids).
    split; [exact Hdata|]. split; [|exact Hids].
    etransitivity; [exact Hstored|].
    simpl in Htable. rewrite Htable. vm_compute. reflexivity.
Defined.

(** ** The join step re-uploads under the destination's own uuid *)

Section JoinExecute.
Import JoinStep.
Variable cls : ComputeFrameWork.Class.

(** Fetching the data of the "from" side changes nothing. *)
Lemma get_data_reads_only from_cfw s : (get_data cls from_cfw s).2 = s.
Proof.
  unfold get_data, bind, get_step, on_cfw, ComputeFrameWork.in_world,
    FlightServer.download_table, lift, raise, ret. simpl.
  destruct (location (step s)) as [loc|], from_cfw as [u|c]; simpl;
    try (now destruct s).
  destruct (negb (String.eqb loc "")); simpl; [|now destruct s].
  destruct (FlightServer.tables_at loc (world s) !! str_of_uuid u); simpl;
    now destruct s.
Qed.

Lemma get_data_returns from_cfw s d :
  (get_data cls from_cfw s).1 = Return d -> get_data cls from_cfw s = (Return d, s).
Proof.
  intros H. pose proof (get_data_reads_only from_cfw s) as Hs.
  destruct (get_data cls from_cfw s) as [r s1]. simpl in *. now subst.
Qed.
End JoinExecute.

(** C4. When the register gives a (non-empty) location and knows the uuid
    of the destination instance, a join step that gets its "from" data and
    merges it uploads the merged result (after the backend's conversion for
    the flight server, if it has one) under the destination's own uuid: the
    flight server holds it under that key, replacing whatever was there,
    every other key is untouched, the instance's object ids gain that same
    id, and no new uuid is drawn. *)
Theorem join_step_uploads_under_own_uuid
    (cls : ComputeFrameWork.Class) (cfw_register : CfwManager.t)
    (from_cfw : UUID + ComputeFrameWork.t) (data : PyVal)
    (s : JoinStep.State) (loc : string)
    (from_cfw_data merged uploaded : PyVal) (engine : Merge.MergeEngine PyVal) :
  let own := str_of_uuid (ComputeFrameWork.uuid (JoinStep.cfw s)) in
  let s1 := {| JoinStep.step := JoinStep.set_location_attr (Some loc) (JoinStep.step s);
               JoinStep.cfw := JoinStep.cfw s;
               JoinStep.world := JoinStep.world s |} in
  CfwManager.get_location cfw_register = Some loc ->
  loc <> "" ->
  ComputeFrameWork.uuid (JoinStep.cfw s) ∈ CfwManager.uuid_flyway_datasets cfw_register ->
  (JoinStep.get_data cls from_cfw s1).1 = Return from_cfw_data ->
  ComputeFrameWork.merge_engine cls = Return engine ->
  Merge.merge engine (ComputeFrameWork.data (JoinStep.cfw s)) from_cfw_data
    (jointype (JoinStep.link (JoinStep.step s)))
    (left_index (JoinStep.link (JoinStep.step s)))
    (right_index (JoinStep.link (JoinStep.step s))) = Return merged ->
  match ComputeFrameWork.get_framework_transform_functions cls false
          ComputeFrameWork.pa_Table with
  | Some func => func merged
  | None => Return merged
  end = Return uploaded ->
  let res := JoinStep.execute cls cfw_register (Some from_cfw) data s in
  let s' := res.2 in
  res.1 = Return PyNone
  /\ FlightServer.tables_at loc (JoinStep.world s') !! own = Some uploaded
  /\ (forall key, key <> own ->
        FlightServer.tables_at loc (JoinStep.world s') !! key
        = FlightServer.tables_at loc (JoinStep.world s) !! key)
  /\ ComputeFrameWork.object_ids (JoinStep.cfw s')
     = ComputeFrameWork.object_ids (JoinStep.cfw s) ++ [own]
  /\ ComputeFrameWork.uuid (JoinStep.cfw s') = ComputeFrameWork.uuid (JoinStep.cfw s)
  /\ ComputeFrameWork.data (JoinStep.cfw s') = uploaded
  /\ next_uuid (JoinStep.world s') = next_uuid (JoinStep.world s).
Proof.
  intros own s1 Hloc Hne Hreg Hget Heng Hmerge Hconv.
  apply get_data_returns in Hget.
  assert (Htruthy : negb (String.eqb loc "") = true)
    by (destruct (String.eqb_spec loc ""); [contradiction|reflexivity]).
  cbv zeta. unfold JoinStep.execute. rewrite Hloc.
  rewrite (bind_after _ _ s s1 tt) by reflexivity.
  rewrite (bind_after _ _ s1 s1 from_cfw_data) by exact Hget.
  rewrite (bind_after _ _ s1 s1 engine) by (unfold lift; now rewrite Heng).
  rewrite (bind_after _ _ s1 s1 (JoinStep.step s1)) by reflexivity.
  rewrite (bind_after _ _ s1 s1 (JoinStep.cfw s1)) by reflexivity.
  rewrite (bind_after _ _ s1 s1 merged) by (unfold lift; simpl; now rewrite Hmerge).
  rewrite (bind_after _ _ s1
             {| JoinStep.step := JoinStep.step s1;
                JoinStep.cfw := ComputeFrameWork.set_data_attr merged (JoinStep.cfw s1);
                JoinStep.world := JoinStep.world s1 |} tt) by reflexivity.
  unfold s1.
  cbn [JoinStep.step JoinStep.cfw JoinStep.world JoinStep.location
       JoinStep.set_location_attr].
  unfold str_truthy. rewrite Htruthy.
  unfold CfwManager.get_uuid_flyway_datasets.
  rewrite bool_decide_true by exact Hreg.
  unfold bind, JoinStep.on_cfw. rewrite upload_finished_data_spec. cbv zeta.
  simpl ComputeFrameWork.data. simpl ComputeFrameWork.self. rewrite Hconv.
  simpl. repeat split.
  - unfold FlightServer.tables_at at 1. simpl. rewrite lookup_insert_eq. simpl.
    apply lookup_insert_eq.
  - intros key Hkey. unfold FlightServer.tables_at at 1. simpl.
    rewrite lookup_insert_eq. simpl. now apply lookup_insert_ne.
Qed.

Lemma join_step_uploads_under_own_uuid_witness :
  let res := JoinStep.execute frame_cls register_with_7 (Some (inr from_instance))
               PyNone join_state in
  res.1 = Return PyNone
  /\ FlightServer.tables_at flight_location (JoinStep.world res.2) !! str_of_uuid 7%N
     = Some frame_3
  /\ ComputeFrameWork.object_ids (JoinStep.cfw res.2) = [] ++ [str_of_uuid 7%N]
  /\ next_uuid (JoinStep.world res.2) = 100%N.
Proof.
  assert (Hloc : flight_location <> "") by discriminate.
  assert (Hreg : 7%N ∈ CfwManager.uuid_flyway_datasets register_with_7)
    by (simpl; apply elem_of_singleton_2; reflexivity).
  destruct (join_step_uploads_under_own_uuid frame_cls register_with_7
              (inr from_instance) PyNone join_state flight_location
              table_2 frame_3 frame_3
              (Merge.PandasMergeEngine (Some (fun _ _ _ _ _ => Return frame_3)))
              eq_refl Hloc Hreg eq_refl eq_refl eq_refl eq_refl)
    as (Hres & Hup & _ & Hids & _ & _ & Hnext).
  cbv zeta. repeat split; assumption.
Defined.

(** ** The pandas merge engine *)









(** ** Identifiers at construction *)

(** A join step draws its uuid in the body of [__init__]: two steps built
    one after the other get different uuids. *)
Lemma join_steps_get_distinct_uuids
    (w : World) (l1 l2 : Link) (lf1 rf1 lf2 rf2 : JoinStep.FrameworkType)
    (q1 a1 b1 q2 a2 b2 : gset UUID) :
  match JoinStep.init l1 lf1 rf1 q1 a1 b1 w with
  | (inr step1, w1) =>
    match JoinStep.init l2 lf2 rf2 q2 a2 b2 w1 with
    | (inr step2, _) => JoinStep.uuid step1 <> JoinStep.uuid step2
    | (inl _, _) => False
    end
  | (inl _, _) => False
  end.
Proof. simpl. lia. Qed.

(** C9 does not hold of the code.  The default of the [uuid] parameter is
    computed once, when the [def] statement runs; every instance built
    without a [uuid] argument gets that one value, so any two such instances
    carry the same uuid, whatever was drawn from [uuid4()] in between. *)
Theorem instances_without_uuid_argument_share_the_default
    (w : World) (m1 m2 : ComputeFrameWork.ParallelizationModes)
    (c1 c2 : gset UUID)
    (e1 e2 : option (list ComputeFrameWork.WrapperFunctionExtender)) :
  match ComputeFrameWork.def_init w with
  | (inr defaults, _) =>
    ComputeFrameWork.uuid (ComputeFrameWork.init defaults m1 c1 None e1)
    = ComputeFrameWork.uuid (ComputeFrameWork.init defaults m2 c2 None e2)
    /\ ComputeFrameWork.uuid (ComputeFrameWork.init defaults m1 c1 None e1) = next_uuid w
  | (inl _, _) => False
  end.
Proof. simpl. split; reflexivity. Qed.


(** * Further properties of the same code *)

(** ** Function extenders *)

Section Extenders.
Import ComputeFrameWork.

(** The loop of [get_function_extender], for any extender found so far. *)
Lemma find_extender_by_wrapping (e : WrapperFunctionEnum)
    (extenders : list WrapperFunctionExtender) :
  forall found,
    find_extender e extenders found
    = match found, extenders_wrapping e extenders with
      | _, [] => Return found
      | None, [x] => Return (Some x)
      | None, x :: y :: _ =>
        multiple_function_extender (extender_name x) (extender_name y)
      | Some f, x :: _ =>
        multiple_function_extender (extender_name f) (extender_name x)
      end.
Proof.
  induction extenders as [|x rest IH]; intros found; simpl.
  - now destruct found.
  - case_bool_decide as Hw; simpl.
    + destruct found as [f|]; [reflexivity|].
      rewrite IH. fold (extenders_wrapping e rest).
      destruct (extenders_wrapping e rest); reflexivity.
    + apply IH.
Qed.
End Extenders.

(** X1. [get_function_extender] depends only on the extenders that wrap the
    requested call: with none it returns [None], with exactly one it returns
    that extender wherever it stands, and with two or more it never returns.
    What it raises then is decided by the first two of them: the
    [ValueError] naming both if both have a [__name__], and an
    [AttributeError] if one of them has none, because the message of the
    [ValueError] reads that attribute. *)
Theorem get_function_extender_none_one_or_error
    (self : ComputeFrameWork.t) (e : WrapperFunctionEnum) :
  let wrapping := extenders_wrapping e (ComputeFrameWork.function_extender self) in
  (wrapping = [] -> ComputeFrameWork.get_function_extender self e = Return None)
  /\ (forall x, wrapping = [x] ->
        ComputeFrameWork.get_function_extender self e = Return (Some x))
  /\ (forall x y rest, wrapping = x :: y :: rest ->
        match ComputeFrameWork.extender_name x, ComputeFrameWork.extender_name y with
        | Some a, Some b =>
          ComputeFrameWork.get_function_extender self e
          = Raise (ValueError (PyStr
                     ("Multiple function_extender found, " +:+ a +:+ ", " +:+ b)))
        | _, _ =>
          exists msg,
            ComputeFrameWork.get_function_extender self e = Raise (AttributeError msg)
        end).
Proof.
  cbv zeta. unfold ComputeFrameWork.get_function_extender.
  rewrite find_extender_by_wrapping.
  destruct (extenders_wrapping e (ComputeFrameWork.function_extender self))
    as [|x [|y rest]]; simpl; repeat split; try discriminate; try reflexivity.
  - intros z [= ->]. reflexivity.
  - intros x' y' rest' [= -> -> ->].
    unfold ComputeFrameWork.multiple_function_extender.
    destruct (ComputeFrameWork.extender_name x'), (ComputeFrameWork.extender_name y');
      first [reflexivity | eexists; reflexivity].
Qed.

(** ** The filter stage of the pipeline *)

(** X2. A backend whose [filter_engine] raises [NotImplementedError], or whose
    engine is a filter engine that answers [False] (or raises
    [NotImplementedError]) for [final_filters], passes [set_filter_engine]
    without error, keeps the features of the set, and then leaves every data
    it is given unfiltered in [run_final_filter]. *)
Theorem filter_stage_off_is_identity
    (cls : ComputeFrameWork.Class) (features : ComputeFrameWork.Features) :
  match ComputeFrameWork.filter_engine cls with
  | inl (NotImplementedError _) => True
  | inl _ => False
  | inr engine =>
    ComputeFrameWork.is_filter_engine engine = true
    /\ (ComputeFrameWork.final_filters engine = Return (PyBool false)
        \/ exists m, ComputeFrameWork.final_filters engine = Raise (NotImplementedError m))
  end ->
  exists features',
    ComputeFrameWork.set_filter_engine cls features = Return features'
    /\ FeatureSet.features features' = FeatureSet.features features
    /\ FeatureSet.filters features' = FeatureSet.filters features
    /\ FeatureSet.filter_engine features' = Some (ComputeFrameWork.filter_engine cls)
    /\ forall data, ComputeFrameWork.run_final_filter data features' = Return data.
Proof.
  intros Hoff. unfold ComputeFrameWork.set_filter_engine.
  destruct (ComputeFrameWork.filter_engine cls) as [[]|engine] eqn:Hengine;
    try contradiction.
  - eexists. split; [reflexivity|]. do 3 (split; [reflexivity|]). intros data.
    unfold ComputeFrameWork.run_final_filter. simpl. reflexivity.
  - destruct Hoff as [Hsub Hfinal]. rewrite Hsub. simpl.
    eexists. split; [reflexivity|]. do 3 (split; [reflexivity|]). intros data.
    unfold ComputeFrameWork.run_final_filter. simpl.
    destruct Hfinal as [-> | [m ->]]; reflexivity.
Qed.

Lemma filter_stage_off_is_identity_witness :
  exists features',
    ComputeFrameWork.set_filter_engine table_cls one_feature = Return features'
    /\ FeatureSet.features features' = FeatureSet.features one_feature
    /\ FeatureSet.filters features' = FeatureSet.filters one_feature
    /\ FeatureSet.filter_engine features'
       = Some (ComputeFrameWork.filter_engine table_cls)
    /\ forall data, ComputeFrameWork.run_final_filter data features' = Return data.
Proof. apply (filter_stage_off_is_identity table_cls one_feature). exact I. Defined.

(** When the engine does filter at this stage, the data goes through
    [apply_filters] of that engine. *)
Lemma filter_stage_on_applies_filters
    (cls : ComputeFrameWork.Class) (features features' : ComputeFrameWork.Features)
    (engine : ComputeFrameWork.FilterEngine) (answer data : PyVal) :
  ComputeFrameWork.filter_engine cls = Return engine ->
  ComputeFrameWork.final_filters engine = Return answer ->
  answer <> PyBool false ->
  ComputeFrameWork.set_filter_engine cls features = Return features' ->
  ComputeFrameWork.run_final_filter data features'
  = ComputeFrameWork.apply_filters engine data (ComputeFrameWork.forget features').
Proof.
  intros Hengine Hfinal Hanswer. unfold ComputeFrameWork.set_filter_engine.
  rewrite Hengine. unfold Return.
  destruct (negb (ComputeFrameWork.is_filter_engine engine)); [discriminate|].
  intros [= <-]. unfold ComputeFrameWork.run_final_filter. simpl.
  rewrite Hfinal. unfold Return.
  destruct answer as [|[|]| | |]; try reflexivity. now contradiction Hanswer.
Qed.

(** ** Handing data over through the flight server *)

Lemma uploaded_table_is_there loc d key w :
  FlightServer.tables_at loc (FlightServer.upload_table loc d key w).2 !! key = Some d.
Proof.
  unfold FlightServer.upload_table, FlightServer.tables_at at 1. simpl.
  rewrite lookup_insert_eq. simpl. apply lookup_insert_eq.
Qed.

Lemma uploaded_table_keeps_others loc d key key' w :
  key' <> key ->
  FlightServer.tables_at loc (FlightServer.upload_table loc d key w).2 !! key'
  = FlightServer.tables_at loc w !! key'.
Proof.
  intros Hne. unfold FlightServer.upload_table, FlightServer.tables_at at 1. simpl.
  rewrite lookup_insert_eq. simpl. now apply lookup_insert_ne.
Qed.

Lemma get_data_after_upload
    (cls cls' : ComputeFrameWork.Class) (loc handle : string)
    (s s' : ComputeFrameWork.State) (js : JoinStep.State) :
  loc <> "" ->
  ComputeFrameWork.upload_finished_data cls loc s = (Return handle, s') ->
  JoinStep.location (JoinStep.step js) = Some loc ->
  JoinStep.world js = ComputeFrameWork.world s' ->
  handle = str_of_uuid (ComputeFrameWork.uuid (ComputeFrameWork.self s))
  /\ JoinStep.get_data cls' (inl (ComputeFrameWork.uuid (ComputeFrameWork.self s))) js
     = (ComputeFrameWork.convert_flyserver_data_back cls'
          (ComputeFrameWork.data (ComputeFrameWork.self s')), js).
Proof.
  intros Hloc Hup Hjs Hworld.
  rewrite upload_finished_data_spec in Hup. cbv zeta in Hup.
  assert (Hhere : handle = str_of_uuid (ComputeFrameWork.uuid (ComputeFrameWork.self s))
                  /\ FlightServer.tables_at loc (ComputeFrameWork.world s') !! handle
                     = Some (ComputeFrameWork.data (ComputeFrameWork.self s'))).
  { destruct (ComputeFrameWork.get_framework_transform_functions cls false
                ComputeFrameWork.pa_Table) as [func|].
    - destruct (func (ComputeFrameWork.data (ComputeFrameWork.self s))) as [e|d];
        [discriminate Hup|].
      injection Hup as <- <-. split; [reflexivity|]. apply uploaded_table_is_there.
    - injection Hup as <- <-. split; [reflexivity|]. apply uploaded_table_is_there. }
  destruct Hhere as [Hhandle Htable]. split; [exact Hhandle|].
  unfold JoinStep.get_data, bind, JoinStep.get_step. simpl. rewrite Hjs.
  unfold str_truthy. destruct (String.eqb_spec loc ""); [contradiction|]. simpl.
  unfold JoinStep.on_cfw, ComputeFrameWork.in_world, FlightServer.download_table. simpl.
  rewrite Hworld, <- Hhandle, Htable. simpl. unfold lift.
  rewrite <- Hworld. now destruct js.
Qed.

(** X3. What one instance uploads with [upload_finished_data], a join step
    working at the same location gets back with [get_data] when it is given
    the uploader's uuid: the table the uploader holds after the upload, put
    through [convert_flyserver_data_back] of the destination's class. *)
Theorem upload_then_get_data_round_trip
    (cls cls' : ComputeFrameWork.Class) (loc handle : string)
    (s s' : ComputeFrameWork.State) (js : JoinStep.State) :
  loc <> "" ->
  ComputeFrameWork.upload_finished_data cls loc s = (Return handle, s') ->
  JoinStep.location (JoinStep.step js) = Some loc ->
  JoinStep.world js = ComputeFrameWork.world s' ->
  handle = str_of_uuid (ComputeFrameWork.uuid (ComputeFrameWork.self s))
  /\ JoinStep.get_data cls' (inl (ComputeFrameWork.uuid (ComputeFrameWork.self s))) js
     = (ComputeFrameWork.convert_flyserver_data_back cls'
          (ComputeFrameWork.data (ComputeFrameWork.self s')), js).
Proof. apply get_data_after_upload. Qed.

Lemma upload_then_get_data_round_trip_witness :
  let uploaded := ComputeFrameWork.upload_finished_data table_cls flight_location
                    (holding table_1 ∅ 7%N) in
  let js := {| JoinStep.step := JoinStep.set_location_attr (Some flight_location) join_step;
               JoinStep.cfw := new_cfw ∅ 8%N;
               JoinStep.world := ComputeFrameWork.world uploaded.2 |} in
  JoinStep.get_data table_cls (inl 7%N) js = (Return table_1, js).
Proof.
  intros uploaded js.
  assert (Hloc : flight_location <> "") by discriminate.
  assert (Hup : uploaded = (Return "7", uploaded.2)) by (vm_compute; reflexivity).
  exact (proj2 (upload_then_get_data_round_trip table_cls table_cls flight_location "7"
                  (holding table_1 ∅ 7%N) uploaded.2 js Hloc Hup eq_refl eq_refl)).
Defined.

Lemma str_of_uuid_inj (u v : UUID) : str_of_uuid u = str_of_uuid v -> u = v.
Proof. unfold str_of_uuid. apply pretty_N_inj. Qed.

Lemma upload_table_fresh_spec cls loc s :
  ComputeFrameWork.get_framework_transform_functions cls false ComputeFrameWork.pa_Table
  = None ->
  let h := str_of_uuid (next_uuid (ComputeFrameWork.world s)) in
  ComputeFrameWork.upload_table cls loc None s
  = (Return h,
     {| ComputeFrameWork.self :=
          ComputeFrameWork.set_object_ids_attr
            (ComputeFrameWork.object_ids (ComputeFrameWork.self s) ++ [h])
            (ComputeFrameWork.self s);
        ComputeFrameWork.world :=
          (FlightServer.upload_table loc (ComputeFrameWork.data (ComputeFrameWork.self s)) h
             (uuid4 (ComputeFrameWork.world s)).2).2 |}).
Proof.
  intros Hnone. cbv zeta.
  unfold ComputeFrameWork.upload_table, bind, ComputeFrameWork.in_world,
    ComputeFrameWork.get_self, ComputeFrameWork.modify_self, ret.
  simpl. rewrite Hnone. reflexivity.
Qed.

(** X4. Two [upload_table] calls without an object id, one after the other,
    store the data under two different keys: the first table is still there
    after the second upload, and [object_ids] gains the two ids in order.
    (Stated for a backend without a conversion function for the flight
    server, so that no conversion can fail.) *)
Theorem uploads_without_object_id_use_distinct_keys
    (cls : ComputeFrameWork.Class) (loc : string) (s : ComputeFrameWork.State) :
  ComputeFrameWork.get_framework_transform_functions cls false ComputeFrameWork.pa_Table
  = None ->
  let twice :=
    bind (ComputeFrameWork.upload_table cls loc None) (fun h1 =>
      bind (ComputeFrameWork.upload_table cls loc None) (fun h2 => ret (h1, h2))) in
  exists h1 h2,
    (twice s).1 = Return (h1, h2)
    /\ h1 <> h2
    /\ FlightServer.tables_at loc (ComputeFrameWork.world (twice s).2) !! h1
       = Some (ComputeFrameWork.data (ComputeFrameWork.self s))
    /\ FlightServer.tables_at loc (ComputeFrameWork.world (twice s).2) !! h2
       = Some (ComputeFrameWork.data (ComputeFrameWork.self s))
    /\ ComputeFrameWork.object_ids (ComputeFrameWork.self (twice s).2)
       = ComputeFrameWork.object_ids (ComputeFrameWork.self s) ++ [h1; h2]
    /\ ComputeFrameWork.data (ComputeFrameWork.self (twice s).2)
       = ComputeFrameWork.data (ComputeFrameWork.self s).
Proof.
  intros Hnone. cbv zeta.
  pose proof (upload_table_fresh_spec cls loc s Hnone) as H1. cbv zeta in H1.
  rewrite (bind_after _ _ _ _ _ H1).
  match type of H1 with _ = (_, ?s1) => set (s1' := s1) in * end.
  pose proof (upload_table_fresh_spec cls loc s1' Hnone) as H2. cbv zeta in H2.
  rewrite (bind_after _ _ _ _ _ H2).
  exists (str_of_uuid (next_uuid (ComputeFrameWork.world s))),
         (str_of_uuid (next_uuid (ComputeFrameWork.world s1'))).
  assert (Hne : str_of_uuid (next_uuid (ComputeFrameWork.world s))
                <> str_of_uuid (next_uuid (ComputeFrameWork.world s1'))).
  { intros Heq. apply str_of_uuid_inj in Heq. simpl in Heq. lia. }
  split; [reflexivity|]. split; [exact Hne|].
  unfold ret. cbn [fst snd ComputeFrameWork.world ComputeFrameWork.self].
  split; [|split; [|split]].
  - rewrite uploaded_table_keeps_others by exact Hne.
    unfold s1'. cbn [fst snd ComputeFrameWork.world ComputeFrameWork.self].
    assert (Hflight : forall w, flight (uuid4 w).2 = flight w) by reflexivity.
    unfold FlightServer.tables_at at 1.
    rewrite Hflight. apply uploaded_table_is_there.
  - apply uploaded_table_is_there.
  - unfold s1'. simpl. now rewrite <- app_assoc.
  - reflexivity.
Qed.

Lemma uploads_without_object_id_use_distinct_keys_witness :
  let twice :=
    bind (ComputeFrameWork.upload_table table_cls flight_location None) (fun h1 =>
      bind (ComputeFrameWork.upload_table table_cls flight_location None)
        (fun h2 => ret (h1, h2))) in
  exists h1 h2,
    (twice (holding table_1 ∅ 7%N)).1 = Return (h1, h2) /\ h1 <> h2.
Proof.
  destruct (uploads_without_object_id_use_distinct_keys table_cls flight_location
              (holding table_1 ∅ 7%N) eq_refl) as (h1 & h2 & Hres & Hne & _).
  exists h1, h2. split; assumption.
Defined.

(** ** What the scheduler keys on stays fixed *)

Lemma same_identity_refl s : same_identity s s.
Proof. split; reflexivity. Qed.

Lemma same_identity_trans s1 s2 s3 :
  same_identity s1 s2 -> same_identity s2 s3 -> same_identity s1 s3.
Proof. unfold same_identity. intuition congruence. Qed.

#[local] Hint Resolve same_identity_refl same_identity_trans : pipeline.

Section Identity.
Import ComputeFrameWork.

Lemma in_world_keeps_identity {A} (m : M World A) :
  preserves same_identity (in_world m).
Proof. intros s. unfold in_world. destruct (m (world s)). split; reflexivity. Qed.

Lemma set_data_keeps_identity d : preserves same_identity (modify_self (set_data_attr d)).
Proof. intros s. split; reflexivity. Qed.

Lemma set_column_names_keeps_identity (f : t -> gset string) :
  preserves same_identity (modify_self (fun c => set_column_names_attr (f c) c)).
Proof. intros s. split; reflexivity. Qed.

Lemma set_object_ids_keeps_identity (f : t -> list string) :
  preserves same_identity (modify_self (fun c => set_object_ids_attr (f c) c)).
Proof. intros s. split; reflexivity. Qed.

Lemma set_tracker_keeps_identity (f : t -> gset UUID) :
  preserves same_identity (modify_self (fun c => set_tracker_attr (f c) c)).
Proof. intros s. split; reflexivity. Qed.

Lemma record_call_keeps_identity e : preserves same_identity (record_call e).
Proof. apply in_world_keeps_identity. Qed.

#[local] Hint Resolve in_world_keeps_identity set_data_keeps_identity
  set_column_names_keeps_identity set_object_ids_keeps_identity
  set_tracker_keeps_identity record_call_keeps_identity : pipeline.

Lemma call_feature_group_keeps_identity which ext f features :
  preserves same_identity (call_feature_group which ext f features).
Proof. unfold call_feature_group. pipeline_steps. Qed.

#[local] Hint Resolve call_feature_group_keeps_identity : pipeline.

Lemma upload_finished_data_keeps_identity cls loc :
  preserves same_identity (upload_finished_data cls loc).
Proof. unfold upload_finished_data, upload_table. pipeline_steps. Qed.

Lemma drop_last_data_keeps_identity location :
  preserves same_identity (drop_last_data location).
Proof. unfold drop_last_data, drop_data. pipeline_steps. Qed.

#[local] Hint Resolve upload_finished_data_keeps_identity drop_last_data_keeps_identity
  : pipeline.

Lemma run_calculation_keeps_identity cls fg features location data_arg :
  preserves same_identity (run_calculation cls fg features location data_arg).
Proof.
  unfold run_calculation, run_validate_input_features, run_validate_output_features,
    run_calculate_feature.
  pipeline_steps.
Qed.

Lemma add_children_keeps_identity children location :
  preserves same_identity
    (add_already_calculated_children_and_drop_if_possible children location).
Proof. unfold add_already_calculated_children_and_drop_if_possible. pipeline_steps. Qed.

Lemma same_identity_same_eq_hash (hash : string * gset UUID -> Z)
    (cls : Class) (s s' : State) :
  same_identity s s' ->
  uuid (self s') = uuid (self s)
  /\ (forall other, __eq__ cls (self s') other = __eq__ cls (self s) other)
  /\ (forall cls' o, __eq__ cls' o (inr (cls, self s')) = __eq__ cls' o (inr (cls, self s)))
  /\ __hash__ hash cls (self s') = __hash__ hash cls (self s).
Proof.
  intros [Hch Hid]. unfold __eq__, __hash__. rewrite Hch.
  repeat split; assumption.
Qed.
End Identity.

(** X5. Neither [run_calculation] nor the children bookkeeping changes what
    an instance is to the scheduler, whether they return or raise: the uuid,
    the result of [__eq__] against any object (on either side), and the
    hash all stay as they were, for any data, location and feature group. *)
Theorem identity_survives_calculation_and_bookkeeping
    (hash : string * gset UUID -> Z) (cls : ComputeFrameWork.Class)
    (fg : ComputeFrameWork.FeatureGroup) (features : ComputeFrameWork.Features)
    (location : option string) (data_arg : PyVal) (children : gset UUID)
    (s : ComputeFrameWork.State) :
  let stable s' :=
    ComputeFrameWork.uuid (ComputeFrameWork.self s')
    = ComputeFrameWork.uuid (ComputeFrameWork.self s)
    /\ (forall other,
          ComputeFrameWork.__eq__ cls (ComputeFrameWork.self s') other
          = ComputeFrameWork.__eq__ cls (ComputeFrameWork.self s) other)
    /\ (forall cls' o,
          ComputeFrameWork.__eq__ cls' o (inr (cls, ComputeFrameWork.self s'))
          = ComputeFrameWork.__eq__ cls' o (inr (cls, ComputeFrameWork.self s)))
    /\ ComputeFrameWork.__hash__ hash cls (ComputeFrameWork.self s')
       = ComputeFrameWork.__hash__ hash cls (ComputeFrameWork.self s) in
  stable (ComputeFrameWork.run_calculation cls fg features location data_arg s).2
  /\ stable (ComputeFrameWork.add_already_calculated_children_and_drop_if_possible
               children location s).2.
Proof.
  cbv zeta. split; apply same_identity_same_eq_hash.
  - apply run_calculation_keeps_identity.
  - apply add_children_keeps_identity.
Qed.

(** X6. [__eq__] and [__hash__] keep the contract a dictionary key needs:
    on framework instances [__eq__] is reflexive, symmetric and transitive,
    instances that are equal have the same hash, and no instance equals an
    object that is not a framework instance.  Data, tracker, object ids and
    uuid play no part: equality holds exactly when the class names and the
    declared children agree. *)
Theorem eq_hash_contract
    (hash : string * gset UUID -> Z)
    (cls1 cls2 cls3 : ComputeFrameWork.Class) (c1 c2 c3 : ComputeFrameWork.t) :
  ComputeFrameWork.__eq__ cls1 c1 (inr (cls1, c1)) = true
  /\ ComputeFrameWork.__eq__ cls1 c1 (inr (cls2, c2))
     = ComputeFrameWork.__eq__ cls2 c2 (inr (cls1, c1))
  /\ (ComputeFrameWork.__eq__ cls1 c1 (inr (cls2, c2)) = true ->
      ComputeFrameWork.__eq__ cls2 c2 (inr (cls3, c3)) = true ->
      ComputeFrameWork.__eq__ cls1 c1 (inr (cls3, c3)) = true)
  /\ (ComputeFrameWork.__eq__ cls1 c1 (inr (cls2, c2)) = true ->
      ComputeFrameWork.__hash__ hash cls1 c1 = ComputeFrameWork.__hash__ hash cls2 c2)
  /\ (forall v : PyVal, ComputeFrameWork.__eq__ cls1 c1 (inl v) = false)
  /\ (ComputeFrameWork.__eq__ cls1 c1 (inr (cls2, c2)) = true <->
      ComputeFrameWork.class_name cls1 = ComputeFrameWork.class_name cls2
      /\ ComputeFrameWork.children_if_root c1 = ComputeFrameWork.children_if_root c2).
Proof.
  assert (Hiff : forall k1 k2 d1 d2,
            ComputeFrameWork.__eq__ k1 d1 (inr (k2, d2)) = true <->
            ComputeFrameWork.class_name k1 = ComputeFrameWork.class_name k2
            /\ ComputeFrameWork.children_if_root d1 = ComputeFrameWork.children_if_root d2).
  { intros. unfold ComputeFrameWork.__eq__, ComputeFrameWork.get_class_name.
    rewrite andb_true_iff, String.eqb_eq, bool_decide_eq_true. reflexivity. }
  split; [now apply Hiff|]. split.
  { destruct (ComputeFrameWork.__eq__ cls1 c1 (inr (cls2, c2))) eqn:H12;
      destruct (ComputeFrameWork.__eq__ cls2 c2 (inr (cls1, c1))) eqn:H21;
      try reflexivity.
    - apply Hiff in H12 as [? ?].
      assert (ComputeFrameWork.__eq__ cls2 c2 (inr (cls1, c1)) = true)
        by (apply Hiff; split; congruence).
      congruence.
    - apply Hiff in H21 as [? ?].
      assert (ComputeFrameWork.__eq__ cls1 c1 (inr (cls2, c2)) = true)
        by (apply Hiff; split; congruence).
      congruence. }
  split.
  { intros H12 H23. apply Hiff in H12 as [? ?]. apply Hiff in H23 as [? ?].
    apply Hiff. split; congruence. }
  split.
  { intros H12. apply Hiff in H12 as [Hn Hc].
    unfold ComputeFrameWork.__hash__, ComputeFrameWork.get_class_name.
    now rewrite Hn, Hc. }
  split; [reflexivity|apply Hiff].
Qed.

(** ** The children bookkeeping over several calls *)

(** X7. The tracker only grows and the object ids are never touched by the
    bookkeeping; and once a call has answered [True], every later call
    answers [True] as well, whatever children and location it is given, and
    the data stays [None]. *)
Theorem children_bookkeeping_is_monotone
    (children : gset UUID) (location : option string) (s : ComputeFrameWork.State) :
  let res :=
    ComputeFrameWork.add_already_calculated_children_and_drop_if_possible
      children location s in
  ComputeFrameWork.already_calculated_children_tracker (ComputeFrameWork.self s)
    ⊆ ComputeFrameWork.already_calculated_children_tracker (ComputeFrameWork.self res.2)
  /\ children
     ⊆ ComputeFrameWork.already_calculated_children_tracker (ComputeFrameWork.self res.2)
  /\ ComputeFrameWork.object_ids (ComputeFrameWork.self res.2)
     = ComputeFrameWork.object_ids (ComputeFrameWork.self s)
  /\ (res.1 = Return (ComputeFrameWork.IsBool true) ->
      forall children' location',
        let res' :=
          ComputeFrameWork.add_already_calculated_children_and_drop_if_possible
            children' location' res.2 in
        res'.1 = Return (ComputeFrameWork.IsBool true)
        /\ ComputeFrameWork.data (ComputeFrameWork.self res'.2) = PyNone
        /\ ComputeFrameWork.world res'.2 = ComputeFrameWork.world res.2).
Proof.
  cbv zeta. rewrite add_children_spec. cbv zeta.
  set (c := ComputeFrameWork.self s).
  set (tracked := ComputeFrameWork.already_calculated_children_tracker c ∪ children).
  assert (Hgrow : ComputeFrameWork.already_calculated_children_tracker c ⊆ tracked)
    by apply union_subseteq_l.
  assert (Hin : children ⊆ tracked) by apply union_subseteq_r.
  case_bool_decide as Hdone.
  - rewrite drop_last_data_spec. simpl.
    split; [exact Hgrow|]. split; [exact Hin|]. split; [reflexivity|].
    intros _ children' location'. rewrite add_children_spec. cbv zeta. simpl.
    fold c tracked.
    assert (Hstill : ComputeFrameWork.children_if_root c ⊆ tracked ∪ children')
      by (etransitivity; [exact Hdone|apply union_subseteq_l]).
    rewrite bool_decide_true by exact Hstill.
    simpl. repeat split.
  - destruct (0 <? length (ComputeFrameWork.object_ids c)); simpl;
      repeat split; try assumption; discriminate.
Qed.

(** ** The join step when nothing is uploaded, and when it fails *)

Section JoinOutcomes.
Import JoinStep.
Variables (cls : ComputeFrameWork.Class) (cfw_register : CfwManager.t).

(** The state in which the merge is attempted. *)
Lemma execute_up_to_merge from_cfw data s from_cfw_data engine :
  let s1 := {| step := set_location_attr (CfwManager.get_location cfw_register) (step s);
               cfw := cfw s; world := world s |} in
  (get_data cls from_cfw s1).1 = Return from_cfw_data ->
  ComputeFrameWork.merge_engine cls = Return engine ->
  execute cls cfw_register (Some from_cfw) data s
  = match Merge.merge engine (ComputeFrameWork.data (cfw s)) from_cfw_data
            (jointype (link (step s))) (left_index (link (step s)))
            (right_index (link (step s))) with
    | inl e => (Raise e, s1)
    | inr merged =>
      let s2 := {| step := step s1;
                   cfw := ComputeFrameWork.set_data_attr merged (cfw s);
                   world := world s |} in
      match CfwManager.get_location cfw_register with
      | Some loc =>
        if str_truthy (Some loc) then
          if CfwManager.get_uuid_flyway_datasets cfw_register
               (ComputeFrameWork.uuid (cfw s))
          then bind (on_cfw (ComputeFrameWork.upload_finished_data cls loc))
                 (fun _ => ret PyNone) s2
          else (Return PyNone, s2)
        else (Return PyNone, s2)
      | None => (Return PyNone, s2)
      end
    end.
Proof.
  intros s1 Hget Heng. apply get_data_returns in Hget.
  unfold execute.
  rewrite (bind_after _ _ s s1 tt) by reflexivity.
  rewrite (bind_after _ _ s1 s1 from_cfw_data) by exact Hget.
  rewrite (bind_after _ _ s1 s1 engine) by (unfold lift; now rewrite Heng).
  rewrite (bind_after _ _ s1 s1 (step s1)) by reflexivity.
  rewrite (bind_after _ _ s1 s1 (cfw s1)) by reflexivity.
  unfold s1 at 1 2 3 4 5.
  cbn [step cfw world link set_location_attr].
  destruct (Merge.merge engine _ _ _ _ _) as [e|merged] eqn:Hmerge.
  - unfold bind, lift. reflexivity.
  - unfold bind at 1. unfold lift at 1. unfold bind at 1. unfold modify_cfw at 1.
    cbn [step cfw world location set_location_attr].
    destruct (CfwManager.get_location cfw_register) as [loc|]; [|reflexivity].
    destruct (str_truthy (Some loc)); [|reflexivity].
    destruct (CfwManager.get_uuid_flyway_datasets _ _); reflexivity.
Qed.
End JoinOutcomes.

(** X8. In a run without exchange service (the register has no location, or
    an empty one), and also when the register does not know the destination's
    uuid, a join step that gets its data and merges it only replaces the
    destination's data by the merged result: it returns [None], the flight
    server and the uuid source are left as they were, and the object ids do
    not change. *)
Theorem join_step_without_upload
    (cls : ComputeFrameWork.Class) (cfw_register : CfwManager.t)
    (from_cfw : UUID + ComputeFrameWork.t) (data : PyVal) (s : JoinStep.State)
    (from_cfw_data merged : PyVal) (engine : Merge.MergeEngine PyVal) :
  let s1 := {| JoinStep.step :=
                 JoinStep.set_location_attr (CfwManager.get_location cfw_register)
                   (JoinStep.step s);
               JoinStep.cfw := JoinStep.cfw s;
               JoinStep.world := JoinStep.world s |} in
  str_truthy (CfwManager.get_location cfw_register) = false
  \/ ComputeFrameWork.uuid (JoinStep.cfw s) ∉ CfwManager.uuid_flyway_datasets cfw_register ->
  (JoinStep.get_data cls from_cfw s1).1 = Return from_cfw_data ->
  ComputeFrameWork.merge_engine cls = Return engine ->
  Merge.merge engine (ComputeFrameWork.data (JoinStep.cfw s)) from_cfw_data
    (jointype (JoinStep.link (JoinStep.step s)))
    (left_index (JoinStep.link (JoinStep.step s)))
    (right_index (JoinStep.link (JoinStep.step s))) = Return merged ->
  JoinStep.execute cls cfw_register (Some from_cfw) data s
  = (Return PyNone,
     {| JoinStep.step := JoinStep.step s1;
        JoinStep.cfw := ComputeFrameWork.set_data_attr merged (JoinStep.cfw s);
        JoinStep.world := JoinStep.world s |}).
Proof.
  intros s1 Hoff Hget Heng Hmerge.
  rewrite (execute_up_to_merge cls cfw_register from_cfw data s from_cfw_data engine Hget Heng).
  rewrite Hmerge. cbv zeta.
  destruct (CfwManager.get_location cfw_register) as [loc|] eqn:Hloc; [|reflexivity].
  destruct (str_truthy (Some loc)) eqn:Htruthy; [|reflexivity].
  destruct Hoff as [Hfalse|Hunknown]; [discriminate Hfalse|].
  unfold CfwManager.get_uuid_flyway_datasets.
  now rewrite bool_decide_false by exact Hunknown.
Qed.

Lemma join_step_without_upload_witness :
  let sync_register := {| CfwManager.location := None;
                          CfwManager.uuid_flyway_datasets := ∅ |} in
  JoinStep.execute frame_cls sync_register (Some (inr from_instance)) PyNone join_state
  = (Return PyNone,
     {| JoinStep.step := join_step;
        JoinStep.cfw := ComputeFrameWork.set_data_attr frame_3 (JoinStep.cfw join_state);
        JoinStep.world := externalized_world |}).
Proof.
  intros sync_register.
  apply (join_step_without_upload frame_cls sync_register (inr from_instance) PyNone
           join_state table_2 frame_3
           (Merge.PandasMergeEngine (Some (fun _ _ _ _ _ => Return frame_3))));
    [left; reflexivity|reflexivity|reflexivity|reflexivity].
Defined.

(** X9. A join step that fails before it has a merged result leaves the
    destination instance and the flight server untouched (only the step's
    own [location] is set): this holds when no "from" side is given (a
    [ValueError]), when fetching the "from" data raises, when the backend has
    no merge engine, and when the merge itself raises, for instance on a
    composite index. *)
Theorem join_step_failure_leaves_destination
    (cls : ComputeFrameWork.Class) (cfw_register : CfwManager.t)
    (data : PyVal) (s : JoinStep.State) :
  let s1 := {| JoinStep.step :=
                 JoinStep.set_location_attr (CfwManager.get_location cfw_register)
                   (JoinStep.step s);
               JoinStep.cfw := JoinStep.cfw s;
               JoinStep.world := JoinStep.world s |} in
  JoinStep.execute cls cfw_register None data s
    = (Raise (ValueError (PyStr "From_cfw should not be none for join step.")), s1)
  /\ (forall from_cfw e,
        (JoinStep.get_data cls from_cfw s1).1 = Raise e ->
        JoinStep.execute cls cfw_register (Some from_cfw) data s = (Raise e, s1))
  /\ (forall from_cfw from_cfw_data e,
        (JoinStep.get_data cls from_cfw s1).1 = Return from_cfw_data ->
        ComputeFrameWork.merge_engine cls = Raise e ->
        JoinStep.execute cls cfw_register (Some from_cfw) data s = (Raise e, s1))
  /\ (forall from_cfw from_cfw_data engine e,
        (JoinStep.get_data cls from_cfw s1).1 = Return from_cfw_data ->
        ComputeFrameWork.merge_engine cls = Return engine ->
        Merge.merge engine (ComputeFrameWork.data (JoinStep.cfw s)) from_cfw_data
          (jointype (JoinStep.link (JoinStep.step s)))
          (left_index (JoinStep.link (JoinStep.step s)))
          (right_index (JoinStep.link (JoinStep.step s))) = Raise e ->
        JoinStep.execute cls cfw_register (Some from_cfw) data s = (Raise e, s1)).
Proof.
  intros s1. split; [reflexivity|]. split; [|split].
  - intros from_cfw e Hget.
    pose proof (get_data_reads_only cls from_cfw s1) as Hsame.
    unfold JoinStep.execute.
    rewrite (bind_after _ _ s s1 tt) by reflexivity.
    unfold bind at 1.
    destruct (JoinStep.get_data cls from_cfw s1) as [[e'|d] s2];
      simpl in Hget, Hsame; [|discriminate Hget].
    injection Hget as ->. now subst s2.
  - intros from_cfw from_cfw_data e Hget Heng. apply get_data_returns in Hget.
    unfold JoinStep.execute.
    rewrite (bind_after _ _ s s1 tt) by reflexivity.
    rewrite (bind_after _ _ s1 s1 from_cfw_data) by exact Hget.
    unfold bind at 1, lift. now rewrite Heng.
  - intros from_cfw from_cfw_data engine e Hget Heng Hmerge.
    rewrite (execute_up_to_merge cls cfw_register from_cfw data s from_cfw_data engine
               Hget Heng).
    now rewrite Hmerge.
Qed.

(** ** Merge engines: what fails, and with which error *)

(** X10. A merge engine that overrides no verb raises a [ValueError] for
    every join type and never returns; every engine raises a [ValueError]
    for a join type outside the four.  In the pandas engine the index checks
    come before pandas is looked up: for the four join types an empty index
    tuple on a side (the other side not composite) raises [IndexError] even
    if pandas is missing, and two single-column indices without pandas raise
    [ImportError]. *)
Theorem merge_engine_error_behaviour :
  (forall (D : Type) (cls : string) (l r : D) (jt : JoinType) (li ri : Index),
     exists detail,
       Merge.merge (Merge.BaseMergeEngine D cls) l r jt li ri = Raise (ValueError detail))
  /\ (forall (D : Type) (engine : Merge.MergeEngine D) (l r : D) (name : string)
             (li ri : Index),
        exists detail,
          Merge.merge engine l r (JoinOther name) li ri = Raise (ValueError detail))
  /\ (forall (D : Type) (pd : option (Merge.PdMerge D)) (l r : D)
             (jt : JoinType) (how : string) (li ri : Index),
        how_name jt = Some how ->
        (index li = [] -> is_multi_index ri = false ->
         exists msg,
           Merge.merge (Merge.PandasMergeEngine pd) l r jt li ri = Raise (IndexError msg))
        /\ (length (index li) = 1 -> index ri = [] ->
            exists msg,
              Merge.merge (Merge.PandasMergeEngine pd) l r jt li ri
              = Raise (IndexError msg))
        /\ (length (index li) = 1 -> length (index ri) = 1 -> pd = None ->
            exists msg,
              Merge.merge (Merge.PandasMergeEngine pd) l r jt li ri
              = Raise (ImportError msg))).
Proof.
  split; [|split].
  - intros D cls l r jt li ri. destruct jt; eexists; reflexivity.
  - intros D engine l r name li ri. eexists. reflexivity.
  - intros D pd l r jt how li ri Hhow.
    assert (Hdispatch : Merge.merge (Merge.PandasMergeEngine pd) l r jt li ri
                        = Merge.merge_logic pd how l r li ri jt)
      by (destruct jt; inversion Hhow; reflexivity).
    rewrite Hdispatch. unfold Merge.merge_logic, is_multi_index, index_0.
    split; [|split].
    + intros Hli Hri. unfold is_multi_index in Hri. rewrite Hli, Hri. simpl.
      eexists. reflexivity.
    + intros Hli Hri. rewrite Hri.
      destruct (index li) as [|a [|b rest]]; try discriminate Hli. simpl.
      eexists. reflexivity.
    + intros Hli Hri ->.
      destruct (index li) as [|a [|b rest]]; try discriminate Hli.
      destruct (index ri) as [|a' [|b' rest']]; try discriminate Hri. simpl.
      eexists. reflexivity.
Qed.

(** ** FeatureSet under adds and removes *)

Section FeatureSetOps.
Import FeatureSet.
Context {E : Type}.

Lemma ops_keep_set_attributes (ops : list FeatureSetOp) : forall (s : t E) o n u,
  fs_options s = Some o -> name_of_one_feature s = Some n -> any_uuid s = Some u ->
  exists n',
    fs_options (fold_left apply_op ops s) = Some o
    /\ name_of_one_feature (fold_left apply_op ops s) = Some n'
    /\ any_uuid (fold_left apply_op ops s) = Some u.
Proof.
  induction ops as [|op ops IH]; intros s o n u Ho Hn Hu; [now exists n|].
  destruct op as [f|f]; simpl.
  - apply (IH (add s f) o (name f) u); simpl; [now rewrite Ho|reflexivity|now rewrite Hu].
  - apply (IH (remove s f) o n u); assumption.
Qed.

Lemma ops_on_blank_set (ops : list FeatureSetOp) : forall (s : t E),
  fs_options s = None -> name_of_one_feature s = None -> any_uuid s = None ->
  features s = [] ->
  if existsb is_add ops then
    exists o n u,
      fs_options (fold_left apply_op ops s) = Some o
      /\ name_of_one_feature (fold_left apply_op ops s) = Some n
      /\ any_uuid (fold_left apply_op ops s) = Some u
  else
    fs_options (fold_left apply_op ops s) = None
    /\ name_of_one_feature (fold_left apply_op ops s) = None
    /\ any_uuid (fold_left apply_op ops s) = None
    /\ features (fold_left apply_op ops s) = [].
Proof.
  induction ops as [|op ops IH]; intros s Ho Hn Hu Hf; [easy|].
  destruct op as [f|f]; simpl.
  - destruct (ops_keep_set_attributes ops (add s f) (options f) (name f) (uuid f))
      as (n' & H1 & H2 & H3); simpl; [now rewrite Ho|reflexivity|now rewrite Hu|].
    now exists (options f), n', (uuid f).
  - apply IH; simpl; try assumption. now rewrite Hf.
Qed.

Lemma feature_eqb_key f g : feature_eqb f g = true <-> feature_key f = feature_key g.
Proof.
  unfold feature_eqb, feature_key.
  rewrite andb_true_iff, !bool_decide_eq_true. split.
  - intros [-> ->]. reflexivity.
  - intros [= -> ->]. split; reflexivity.
Qed.

Lemma existsb_feature_eqb f l :
  existsb (feature_eqb f) l = true <-> In (feature_key f) (map feature_key l).
Proof.
  rewrite existsb_exists, in_map_iff. split.
  - intros (g & Hg & Heq). exists g. split; [|exact Hg].
    symmetry. now apply feature_eqb_key.
  - intros (g & Heq & Hg). exists g. split; [exact Hg|].
    apply feature_eqb_key. now symmetry.
Qed.

Lemma set_add_keeps_nodup f l :
  List.NoDup (map feature_key l) -> List.NoDup (map feature_key (set_add f l)).
Proof.
  intros Hnd. unfold set_add.
  destruct (existsb (feature_eqb f) l) eqn:Hex; [exact Hnd|].
  rewrite map_app. simpl.
  assert (Hnot : ~ In (feature_key f) (map feature_key l)).
  { intros Hin. apply existsb_feature_eqb in Hin. congruence. }
  clear Hex. induction l as [|g l IH]; simpl in *.
  - constructor; [easy|constructor].
  - inversion Hnd as [|? ? Hg Hl]; subst. constructor.
    + rewrite in_app_iff. intros [Hin|[Heq|[]]]; [contradiction|].
      apply Hnot. now left.
    + apply IH; [exact Hl|]. intros Hin. apply Hnot. now right.
Qed.

Lemma set_discard_keeps_nodup f l :
  List.NoDup (map feature_key l) -> List.NoDup (map feature_key (set_discard f l)).
Proof.
  unfold set_discard. induction l as [|g l IH]; simpl; intros Hnd; [exact Hnd|].
  inversion Hnd as [|? ? Hg Hl]; subst.
  destruct (negb (feature_eqb f g)); simpl; [|now apply IH].
  constructor; [|now apply IH].
  intros Hin. apply Hg. apply in_map_iff in Hin as (h & Hkey & Hh).
  apply filter_In in Hh as [Hh _]. apply in_map_iff. now exists h.
Qed.

Lemma set_add_length f l : length (set_add f l) <= S (length l).
Proof.
  unfold set_add. destruct (existsb (feature_eqb f) l); [lia|].
  rewrite length_app. simpl. lia.
Qed.

Lemma set_discard_length f l : length (set_discard f l) <= length l.
Proof.
  unfold set_discard. induction l as [|g l IH]; simpl; [lia|].
  destruct (negb (feature_eqb f g)); simpl; lia.
Qed.

Lemma ops_keep_nodup_and_count (ops : list FeatureSetOp) : forall (s : t E),
  List.NoDup (map feature_key (features s)) ->
  List.NoDup (map feature_key (features (fold_left apply_op ops s)))
  /\ length (features (fold_left apply_op ops s))
     <= length (features s) + length (List.filter is_add ops).
Proof.
  induction ops as [|op ops IH]; intros s Hnd; [simpl; split; [exact Hnd|lia]|].
  destruct op as [f|f]; simpl.
  - destruct (IH (add s f)) as [H1 H2]; [simpl; now apply set_add_keeps_nodup|].
    split; [exact H1|]. simpl in H2. pose proof (set_add_length f (features s)). lia.
  - destruct (IH (remove s f)) as [H1 H2]; [simpl; now apply set_discard_keeps_nodup|].
    split; [exact H1|]. simpl in H2. pose proof (set_discard_length f (features s)). lia.
Qed.
End FeatureSetOps.

(** X11. Whatever sequence of [add] and [remove] calls a new feature set
    goes through: as soon as the sequence contains one [add], the options,
    the representative name and [any_uuid] are set, and [get_options] and
    [get_name_of_one_feature] return them, also when every feature has been
    removed again; without any [add] the set has no feature and
    [get_options], [get_name_of_one_feature] and [add_artifact_name] all
    raise. *)
Theorem feature_set_accessors_need_one_add
    {E : Type} (base : E) (ops : list FeatureSetOp) :
  let s := fold_left apply_op ops (FeatureSet.init base) in
  if existsb is_add ops then
    exists o n u,
      FeatureSet.fs_options s = Some o
      /\ FeatureSet.name_of_one_feature s = Some n
      /\ FeatureSet.any_uuid s = Some u
      /\ FeatureSet.get_options s = Return o
      /\ FeatureSet.get_name_of_one_feature s = Return n
  else
    FeatureSet.features s = []
    /\ is_raise (FeatureSet.get_options s) = true
    /\ is_raise (FeatureSet.get_name_of_one_feature s) = true
    /\ is_raise (FeatureSet.add_artifact_name s) = true.
Proof.
  cbv zeta.
  pose proof (ops_on_blank_set ops (FeatureSet.init base) eq_refl eq_refl eq_refl eq_refl)
    as H.
  destruct (existsb is_add ops).
  - destruct H as (o & n & u & Ho & Hn & Hu). exists o, n, u.
    unfold FeatureSet.get_options, FeatureSet.get_name_of_one_feature.
    now rewrite Ho, Hn, Hu.
  - destruct H as (Ho & Hn & Hu & Hf).
    unfold FeatureSet.get_options, FeatureSet.get_name_of_one_feature,
      FeatureSet.add_artifact_name.
    now rewrite Ho, Hn, Hf.
Qed.

(** X12. The features of a set never contain two features with the same
    name and options, whatever adds and removes it went through, and there
    are at most as many as there were [add] calls; so adding a feature that
    equals a member does not count twice.  After [remove(f)] no member
    equals [f]. *)
Theorem feature_set_holds_each_feature_once
    {E : Type} (base : E) (ops : list FeatureSetOp) (f : FeatureSet.Feature) :
  let s := fold_left apply_op ops (FeatureSet.init base) in
  List.NoDup (map feature_key (FeatureSet.features s))
  /\ length (FeatureSet.features s) <= length (List.filter is_add ops)
  /\ FeatureSet.features (FeatureSet.add (FeatureSet.add s f) f)
     = FeatureSet.features (FeatureSet.add s f)
  /\ ~ In (feature_key f) (map feature_key (FeatureSet.features (FeatureSet.remove s f))).
Proof.
  cbv zeta.
  destruct (ops_keep_nodup_and_count (E := E) ops (FeatureSet.init base)) as [Hnd Hlen];
    [constructor|].
  split; [exact Hnd|]. split; [exact Hlen|]. split.
  - simpl. set (l := FeatureSet.features (fold_left apply_op ops (FeatureSet.init base))).
    assert (Hin : existsb (FeatureSet.feature_eqb f) (FeatureSet.set_add f l) = true).
    { apply existsb_feature_eqb. unfold FeatureSet.set_add.
      destruct (existsb (FeatureSet.feature_eqb f) l) eqn:Hex.
      - now apply existsb_feature_eqb.
      - rewrite map_app, in_app_iff. right. now left. }
    unfold FeatureSet.set_add at 1. now rewrite Hin.
  - simpl. intros Hin. apply in_map_iff in Hin as (g & Hkey & Hg).
    unfold FeatureSet.set_discard in Hg. apply filter_In in Hg as [_ Hneq].
    assert (Heq : FeatureSet.feature_eqb f g = true)
      by (apply feature_eqb_key; now symmetry).
    rewrite Heq in Hneq. discriminate Hneq.
Qed.

(** ** Artifact names and filters of a feature set *)

Section ArtifactName.
Import FeatureSet.
Context {E : Type}.

Lemma in_elements_names (self : t E) n :
  In n (elements (get_all_names self)) <-> n ∈ get_all_names self.
Proof. rewrite <- list_elem_of_In. apply elem_of_elements. Qed.
End ArtifactName.

Lemma add_artifact_name_marks_load_or_save_cases
    {E : Type} (self : FeatureSet.t E)
    (o : FeatureSet.Options) (nm : FeatureSet.FeatureName) :
  FeatureSet.fs_options self = Some o ->
  FeatureSet.name_of_one_feature self = Some nm ->
  (exists n,
     n ∈ FeatureSet.get_all_names self
     /\ FeatureSet.options_has_key o n = true
     /\ FeatureSet.add_artifact_name self
        = Return (FeatureSet.set_artifact_to_load_attr (Some n) self))
  \/ ((forall n, n ∈ FeatureSet.get_all_names self -> FeatureSet.options_has_key o n = false)
      /\ FeatureSet.add_artifact_name self
         = Return (FeatureSet.set_artifact_to_save_attr
                     (Some (FeatureSet.name_str nm)) self)).
Proof.
  intros Ho Hn. unfold FeatureSet.add_artifact_name, FeatureSet.get_name_of_one_feature.
  rewrite Ho, Hn.
  destruct (List.find (FeatureSet.options_has_key o)
              (elements (FeatureSet.get_all_names self))) as [n|] eqn:Hfind.
  - apply find_some in Hfind as [Hin Hkey]. apply in_elements_names in Hin.
    left. exists n. auto.
  - right. split; [|reflexivity]. intros n Hin.
    apply (find_none _ _ Hfind). now apply in_elements_names.
Qed.

(** X13. On a feature set that has options and a representative name,
    [add_artifact_name] never raises and marks the artifact in exactly one
    way: if some feature name of the set is a key of the options, one such
    name becomes [artifact_to_load] and [artifact_to_save] is left alone;
    if none is, the representative name becomes [artifact_to_save] and
    [artifact_to_load] is left alone.  Nothing else in the set changes. *)
Theorem add_artifact_name_marks_load_or_save
    {E : Type} (self : FeatureSet.t E)
    (o : FeatureSet.Options) (nm : FeatureSet.FeatureName) :
  FeatureSet.fs_options self = Some o ->
  FeatureSet.name_of_one_feature self = Some nm ->
  ((exists n, n ∈ FeatureSet.get_all_names self /\ FeatureSet.options_has_key o n = true)
   /\ exists n,
        n ∈ FeatureSet.get_all_names self
        /\ FeatureSet.options_has_key o n = true
        /\ FeatureSet.add_artifact_name self
           = Return (FeatureSet.set_artifact_to_load_attr (Some n) self))
  \/ ((forall n, n ∈ FeatureSet.get_all_names self -> FeatureSet.options_has_key o n = false)
      /\ FeatureSet.add_artifact_name self
         = Return (FeatureSet.set_artifact_to_save_attr
                     (Some (FeatureSet.name_str nm)) self)).
Proof.
  intros Ho Hn.
  destruct (add_artifact_name_marks_load_or_save_cases self o nm Ho Hn)
    as [(n & Hin & Hkey & Hres)|Hsave].
  - left. split; exists n; auto.
  - right. exact Hsave.
Qed.

Lemma add_artifact_name_marks_load_or_save_witness :
  FeatureSet.add_artifact_name one_feature
  = Return (FeatureSet.set_artifact_to_save_attr (Some "sum_aggr_sales") one_feature).
Proof.
  destruct (add_artifact_name_marks_load_or_save one_feature
              (FeatureSet.options feature_a) (FeatureSet.name feature_a)
              eq_refl eq_refl) as [[(n & Hn & Hkey) _]|[_ Hsave]].
  - unfold FeatureSet.options_has_key in Hkey. simpl in Hkey.
    rewrite lookup_empty in Hkey. apply bool_decide_eq_true in Hkey.
    destruct Hkey as [x Hx]. discriminate Hx.
  - exact Hsave.
Defined.

(** X14. Filters can be set once.  On a set without filters [add_filters]
    with a set of filters stores exactly these and changes nothing else;
    after that every further [add_filters] raises a [ValueError], whatever
    its argument; and an argument that is not a set is refused with a
    [ValueError] as well. *)
Theorem add_filters_only_once
    {E : Type} (self : FeatureSet.t E) (single_filters : list PyVal) :
  FeatureSet.filters self = None ->
  FeatureSet.add_filters self (inr single_filters)
    = Return (FeatureSet.set_filters_attr (Some single_filters) self)
  /\ (forall again,
        exists detail,
          FeatureSet.add_filters
            (FeatureSet.set_filters_attr (Some single_filters) self) again
          = Raise (ValueError detail))
  /\ (forall v, exists detail,
        FeatureSet.add_filters self (inl v) = Raise (ValueError detail)).
Proof.
  intros Hnone. unfold FeatureSet.add_filters. rewrite Hnone. simpl.
  split; [reflexivity|]. split; intros; eexists; reflexivity.
Qed.

Lemma add_filters_only_once_witness :
  FeatureSet.add_filters one_feature (inr [PyStr "x > 1"])
  = Return (FeatureSet.set_filters_attr (Some [PyStr "x > 1"]) one_feature).
Proof.
  apply (add_filters_only_once one_feature [PyStr "x > 1"]). reflexivity.
Defined.

(** ** Artifacts *)

(** X15. [load] does nothing at all when no artifact is to be loaded: it
    returns [None] without validating and without calling the loader.  When
    one is requested, the feature set is validated first (without options,
    or without a representative name, [load] raises a [ValueError] and the
    loader is not consulted), and then [load] never returns [None]: it either
    raises or returns what the loader returned, which is not [None]. *)
Theorem load_returns_an_artifact_or_raises
    {E : Type} (get : FeatureSet.Options -> string -> BaseArtifact.Raised + PyVal)
    (cls : @BaseArtifact.Class E) (features : FeatureSet.t E) :
  (FeatureSet.artifact_to_load features = None ->
   BaseArtifact.load get cls features = inr PyNone)
  /\ (FeatureSet.artifact_to_load features <> None ->
      (FeatureSet.fs_options features = None
       \/ FeatureSet.name_of_one_feature features = None ->
       exists detail,
         BaseArtifact.load get cls features
         = inl (BaseArtifact.Core (ValueError detail)))
      /\ (forall v, BaseArtifact.load get cls features = inr v ->
            v <> PyNone /\ BaseArtifact.custom_loader get cls features = inr v)).
Proof.
  unfold BaseArtifact.load, BaseArtifact._validate. split.
  - intros ->. reflexivity.
  - intros Hreq. destruct (FeatureSet.artifact_to_load features); [|contradiction].
    split.
    + intros [-> | Hname]; [eexists; reflexivity|].
      destruct (FeatureSet.fs_options features); rewrite ?Hname; eexists; reflexivity.
    + intros v.
      destruct (FeatureSet.fs_options features); [|discriminate].
      destruct (FeatureSet.name_of_one_feature features); [|discriminate].
      destruct (BaseArtifact.custom_loader get cls features) as [e|loaded];
        [discriminate|].
      destruct loaded; simpl; try discriminate; intros [= <-]; split;
        (discriminate || reflexivity).
Qed.

(** X16. [save] returns [None] when no artifact is to be saved.  When one is,
    and the class keeps the inherited saver: on a feature set with options
    and a representative name [save] gives back the very artifact it was
    handed, unless that is [None], which raises a [ValueError]; on a set
    that lacks either it raises a [ValueError] whatever the artifact. *)
Theorem save_returns_the_artifact_or_raises
    {E : Type} (features : FeatureSet.t E) (artifact : PyVal) :
  (FeatureSet.artifact_to_save features = None ->
   forall cls, BaseArtifact.save cls features artifact = inr PyNone)
  /\ (FeatureSet.artifact_to_save features <> None ->
      (FeatureSet.fs_options features <> None ->
       FeatureSet.name_of_one_feature features <> None ->
       (artifact <> PyNone ->
        BaseArtifact.save BaseArtifact.Base features artifact = inr artifact)
       /\ (artifact = PyNone ->
           exists detail,
             BaseArtifact.save BaseArtifact.Base features artifact
             = inl (BaseArtifact.Core (ValueError detail))))
      /\ (FeatureSet.fs_options features = None
          \/ FeatureSet.name_of_one_feature features = None ->
          forall cls, exists detail,
            BaseArtifact.save cls features artifact
            = inl (BaseArtifact.Core (ValueError detail)))).
Proof.
  unfold BaseArtifact.save, BaseArtifact._validate. split.
  - intros -> cls. reflexivity.
  - intros Hreq. destruct (FeatureSet.artifact_to_save features); [|contradiction].
    split.
    + intros Ho Hn.
      destruct (FeatureSet.fs_options features); [|contradiction].
      destruct (FeatureSet.name_of_one_feature features); [|contradiction].
      unfold BaseArtifact.custom_saver, BaseArtifact.custom_saver_base. simpl.
      split.
      * intros Hart. destruct artifact; try reflexivity. contradiction.
      * intros ->. eexists. reflexivity.
    + intros [-> | Hname] cls; [eexists; reflexivity|].
      destruct (FeatureSet.fs_options features); rewrite ?Hname; eexists; reflexivity.
Qed.

Section ArtifactOfOneFeature.
Import FeatureSet.
Context {E : Type}.

Lemma names_of_single_feature (base : E) (f : Feature) :
  elements (get_all_names (add (init base) f)) = [name_str (name f)].
Proof.
  unfold get_all_names. simpl.
  rewrite union_empty_r_L. apply elements_singleton.
Qed.
End ArtifactOfOneFeature.

(** X17. A feature set with a single feature, marked by [add_artifact_name]
    and handled by an artifact class that overrides nothing, with
    [Options.get] the lookup in [options.data].  If the
    feature's name is a key of its options, the artifact is one to load:
    [load] returns the value stored under that key, raises a [ValueError] if
    that value is [None], and [save] returns [None].  If it is not a key, the
    artifact is one to save under the feature's name: [load] returns [None]
    and [save] gives back every artifact other than [None]. *)
Theorem single_feature_artifact_is_loaded_or_saved
    {E : Type} (get : FeatureSet.Options -> string -> BaseArtifact.Raised + PyVal)
    (base : E) (f : FeatureSet.Feature) :
  BaseArtifact.get_is_lookup get ->
  let key := FeatureSet.name_str (FeatureSet.name f) in
  exists marked,
    FeatureSet.add_artifact_name (FeatureSet.add (FeatureSet.init base) f) = Return marked
    /\ match FeatureSet.options_data (FeatureSet.options f) !! key with
       | Some v =>
         FeatureSet.artifact_to_load marked = Some key
         /\ FeatureSet.artifact_to_save marked = None
         /\ (v <> PyNone -> BaseArtifact.load get BaseArtifact.Base marked = inr v)
         /\ (v = PyNone ->
             exists detail,
               BaseArtifact.load get BaseArtifact.Base marked
               = inl (BaseArtifact.Core (ValueError detail)))
         /\ (forall artifact,
               BaseArtifact.save BaseArtifact.Base marked artifact = inr PyNone)
       | None =>
         FeatureSet.artifact_to_save marked = Some key
         /\ FeatureSet.artifact_to_load marked = None
         /\ BaseArtifact.load get BaseArtifact.Base marked = inr PyNone
         /\ (forall artifact, artifact <> PyNone ->
               BaseArtifact.save BaseArtifact.Base marked artifact = inr artifact)
       end.
Proof.
  intros Hget. cbv zeta. unfold FeatureSet.add_artifact_name.
  rewrite names_of_single_feature. simpl.
  unfold FeatureSet.options_has_key.
  destruct (FeatureSet.options_data (FeatureSet.options f)
              !! FeatureSet.name_str (FeatureSet.name f)) as [v|] eqn:Hkey.
  - rewrite bool_decide_true by (now exists v).
    eexists. split; [reflexivity|]. simpl. repeat split.
    + intros Hv. unfold BaseArtifact.load, BaseArtifact.custom_loader,
        BaseArtifact.custom_loader_base. simpl.
      rewrite Hget. unfold FeatureSet.options_get. rewrite Hkey. simpl.
      destruct v; try reflexivity. contradiction.
    + intros ->. unfold BaseArtifact.load, BaseArtifact.custom_loader,
        BaseArtifact.custom_loader_base. simpl.
      rewrite Hget. unfold FeatureSet.options_get. rewrite Hkey. simpl.
      eexists. reflexivity.
  - rewrite bool_decide_false by (intros [x Hx]; discriminate Hx).
    eexists. split; [reflexivity|]. simpl. repeat split.
    intros artifact Hart. unfold BaseArtifact.save. simpl.
    destruct artifact; try reflexivity. contradiction.
Qed.

Lemma single_feature_artifact_is_loaded_or_saved_witness :
  BaseArtifact.get_is_lookup BaseArtifact.lookup_get
  /\ exists marked,
       FeatureSet.add_artifact_name
         (FeatureSet.add (FeatureSet.init tt) feature_with_artifact) = Return marked
       /\ match FeatureSet.options_data (FeatureSet.options feature_with_artifact)
                  !! FeatureSet.name_str (FeatureSet.name feature_with_artifact) with
          | Some v =>
            FeatureSet.artifact_to_load marked
            = Some (FeatureSet.name_str (FeatureSet.name feature_with_artifact))
            /\ FeatureSet.artifact_to_save marked = None
            /\ (v <> PyNone ->
                BaseArtifact.load BaseArtifact.lookup_get BaseArtifact.Base marked = inr v)
            /\ (v = PyNone ->
                exists detail,
                  BaseArtifact.load BaseArtifact.lookup_get BaseArtifact.Base marked
                  = inl (BaseArtifact.Core (ValueError detail)))
            /\ (forall artifact,
                  BaseArtifact.save BaseArtifact.Base marked artifact = inr PyNone)
          | None =>
            FeatureSet.artifact_to_save marked
            = Some (FeatureSet.name_str (FeatureSet.name feature_with_artifact))
            /\ FeatureSet.artifact_to_load marked = None
            /\ BaseArtifact.load BaseArtifact.lookup_get BaseArtifact.Base marked
               = inr PyNone
            /\ (forall artifact, artifact <> PyNone ->
                  BaseArtifact.save BaseArtifact.Base marked artifact = inr artifact)
          end.
Proof.
  assert (Hget : BaseArtifact.get_is_lookup BaseArtifact.lookup_get)
    by (intros o key; reflexivity).
  split; [exact Hget|].
  exact (single_feature_artifact_is_loaded_or_saved BaseArtifact.lookup_get tt
           feature_with_artifact Hget).
Defined.

(** X18. With several features the two sides of the artifact protocol can
    miss each other.  Let [f] be added first and [g] second, with different
    names, the name of [f] a key of [f]'s options and the name of [g] not:
    [add_artifact_name] marks the name of [f] as the artifact to load, but
    the inherited loader looks up the representative name, which is the name
    of [g]; with [Options.get] the lookup in [options.data] it finds
    nothing, and [load] raises a [ValueError]. *)
Theorem artifact_found_under_another_name_is_not_loaded
    {E : Type} (get : FeatureSet.Options -> string -> BaseArtifact.Raised + PyVal)
    (base : E) (f g : FeatureSet.Feature) :
  BaseArtifact.get_is_lookup get ->
  FeatureSet.name_str (FeatureSet.name f) <> FeatureSet.name_str (FeatureSet.name g) ->
  FeatureSet.options_has_key (FeatureSet.options f)
    (FeatureSet.name_str (FeatureSet.name f)) = true ->
  FeatureSet.options_has_key (FeatureSet.options f)
    (FeatureSet.name_str (FeatureSet.name g)) = false ->
  exists marked detail,
    FeatureSet.add_artifact_name
      (FeatureSet.add (FeatureSet.add (FeatureSet.init base) f) g) = Return marked
    /\ FeatureSet.artifact_to_load marked = Some (FeatureSet.name_str (FeatureSet.name f))
    /\ BaseArtifact.load get BaseArtifact.Base marked
       = inl (BaseArtifact.Core (ValueError detail)).
Proof.
  intros Hget Hne Hf Hg.
  set (s := FeatureSet.add (FeatureSet.add (FeatureSet.init base) f) g).
  assert (Ho : FeatureSet.fs_options s = Some (FeatureSet.options f)) by reflexivity.
  assert (Hn : FeatureSet.name_of_one_feature s = Some (FeatureSet.name g)) by reflexivity.
  destruct (add_artifact_name_marks_load_or_save_cases s (FeatureSet.options f)
              (FeatureSet.name g) Ho Hn) as [(n & Hin & Hkey & Hres)|[Hnone _]].
  - assert (Hnf : n = FeatureSet.name_str (FeatureSet.name f)).
    { unfold FeatureSet.get_all_names in Hin. apply elem_of_list_to_set in Hin.
      apply list_elem_of_In, in_map_iff in Hin as (h & <- & Hh).
      assert (Hhs : In h [f; g]).
      { unfold s in Hh. simpl in Hh. unfold FeatureSet.set_add in Hh. simpl in Hh.
        destruct (FeatureSet.feature_eqb g f); simpl in Hh; simpl; tauto. }
      destruct Hhs as [<-|[<-|[]]]; [reflexivity|congruence]. }
    subst n. eexists. eexists. split; [exact Hres|]. split; [reflexivity|].
    unfold BaseArtifact.load, BaseArtifact.custom_loader,
      BaseArtifact.custom_loader_base. simpl.
    rewrite Hget. unfold FeatureSet.options_get.
    unfold FeatureSet.options_has_key in Hg. apply bool_decide_eq_false in Hg.
    destruct (FeatureSet.options_data (FeatureSet.options f)
                !! FeatureSet.name_str (FeatureSet.name g)) as [v|] eqn:Hlook.
    + exfalso. apply Hg. now exists v.
    + simpl. reflexivity.
  - exfalso.
    assert (Hin : FeatureSet.name_str (FeatureSet.name f) ∈ FeatureSet.get_all_names s).
    { unfold FeatureSet.get_all_names. apply elem_of_list_to_set, list_elem_of_In.
      apply in_map_iff. exists f. split; [reflexivity|].
      unfold s. simpl. unfold FeatureSet.set_add. simpl.
      destruct (FeatureSet.feature_eqb g f); simpl; tauto. }
    specialize (Hnone _ Hin). congruence.
Qed.

Lemma artifact_found_under_another_name_is_not_loaded_witness :
  exists marked detail,
    FeatureSet.add_artifact_name
      (FeatureSet.add (FeatureSet.add (FeatureSet.init tt) feature_with_artifact) feature_b)
    = Return marked
    /\ FeatureSet.artifact_to_load marked = Some "embedding"
    /\ BaseArtifact.load BaseArtifact.lookup_get BaseArtifact.Base marked
       = inl (BaseArtifact.Core (ValueError detail)).
Proof.
  apply (artifact_found_under_another_name_is_not_loaded BaseArtifact.lookup_get tt
           feature_with_artifact feature_b).
  - intros o key. reflexivity.
  - discriminate.
  - reflexivity.
  - reflexivity.
Defined.

(** X19. The conversion pair of a backend round-trips through the flight
    server.  If the uploader's class converts its data [d] into a table [t]
    for the upload, and the destination's class, which does not take tables
    as they are, converts [t] into [d'] on the way back, then after
    [upload_finished_data] a join step at that location that is given the
    uploader's uuid gets [d'] from [get_data]; in particular it gets [d]
    itself when the two conversions are inverse on [d]. *)
Theorem converted_upload_round_trips
    (cls cls' : ComputeFrameWork.Class) (loc : string)
    (s : ComputeFrameWork.State) (js : JoinStep.State)
    (to_table from_table : PyVal -> Result PyVal) (t d' : PyVal) (T : string) :
  loc <> "" ->
  ComputeFrameWork.get_framework_transform_functions cls false ComputeFrameWork.pa_Table
    = Some to_table ->
  to_table (ComputeFrameWork.data (ComputeFrameWork.self s)) = Return t ->
  ComputeFrameWork.pa_Table ∈ mro_of t ->
  ComputeFrameWork.expected_data_framework cls' = Some T ->
  T ∉ mro_of t ->
  ComputeFrameWork.get_framework_transform_functions cls' true ComputeFrameWork.pa_Table
    = Some from_table ->
  from_table t = Return d' ->
  JoinStep.location (JoinStep.step js) = Some loc ->
  JoinStep.world js
    = ComputeFrameWork.world (ComputeFrameWork.upload_finished_data cls loc s).2 ->
  JoinStep.get_data cls' (inl (ComputeFrameWork.uuid (ComputeFrameWork.self s))) js
  = (Return d', js).
Proof.
  intros Hloc Hto Ht Htable HT Hnot Hfrom Hd' Hjs Hworld.
  pose proof (upload_finished_data_spec cls loc s) as Hup. cbv zeta in Hup.
  rewrite Hto, Ht in Hup.
  destruct (get_data_after_upload cls cls' loc _ s _ js Hloc Hup Hjs) as [_ Hget].
  { rewrite Hworld, Hup. reflexivity. }
  rewrite Hget. simpl.
  unfold ComputeFrameWork.convert_flyserver_data_back, ComputeFrameWork.isinstance.
  rewrite bool_decide_true by exact Htable. rewrite HT. simpl.
  rewrite bool_decide_false by exact Hnot. unfold Return. now rewrite Hfrom, Hd'.
Qed.

Lemma converted_upload_round_trips_witness :
  let uploaded := ComputeFrameWork.upload_finished_data converting_cls flight_location
                    (holding frame_3 ∅ 7%N) in
  let js := {| JoinStep.step := JoinStep.set_location_attr (Some flight_location) join_step;
               JoinStep.cfw := new_cfw ∅ 8%N;
               JoinStep.world := ComputeFrameWork.world uploaded.2 |} in
  JoinStep.get_data converting_cls (inl 7%N) js = (Return frame_3, js).
Proof.
  intros uploaded js.
  apply (converted_upload_round_trips converting_cls converting_cls flight_location
           (holding frame_3 ∅ 7%N) js (fun _ => Return table_2) (fun _ => Return frame_3)
           table_2 frame_3 "pandas.DataFrame").
  - discriminate.
  - reflexivity.
  - reflexivity.
  - apply list_elem_of_In. simpl. left. reflexivity.
  - reflexivity.
  - rewrite list_elem_of_In. simpl. intros [H|[H|[]]]; discriminate H.
  - reflexivity.
  - reflexivity.
  - reflexivity.
  - reflexivity.
Defined.

(** ** Join steps are told apart *)

(** X20. Two join steps built one after the other get different uuids, so
    [__eq__] tells them apart (and finds each equal to itself), and where
    both are matched by a feature and framework, [matched] names different
    steps.  [get_uuids] holds the step's uuid and the uuid of its link. *)
Theorem join_steps_are_told_apart
    (w : World) (l1 l2 : Link) (lf1 rf1 lf2 rf2 : JoinStep.FrameworkType)
    (q1 a1 b1 q2 a2 b2 : gset UUID) :
  match JoinStep.init l1 lf1 rf1 q1 a1 b1 w with
  | (inr step1, w1) =>
    match JoinStep.init l2 lf2 rf2 q2 a2 b2 w1 with
    | (inr step2, _) =>
      JoinStep.eqb step1 step2 = false
      /\ JoinStep.eqb step1 step1 = true
      /\ JoinStep.eqb step2 step2 = true
      /\ (forall fw u id1 id2,
            JoinStep.matched step1 fw u = Some id1 ->
            JoinStep.matched step2 fw u = Some id2 -> id1 <> id2)
      /\ JoinStep.uuid step1 ∈ JoinStep.get_uuids step1
      /\ link_uuid l1 ∈ JoinStep.get_uuids step1
    | (inl _, _) => False
    end
  | (inl _, _) => False
  end.
Proof.
  simpl. unfold JoinStep.eqb. simpl.
  assert (Hne : next_uuid w <> N.succ (next_uuid w)) by lia.
  rewrite bool_decide_false by exact Hne.
  rewrite !bool_decide_true by reflexivity.
  repeat split.
  - intros fw u id1 id2 H1 H2. unfold JoinStep.matched in H1, H2. simpl in H1, H2.
    repeat match goal with
           | H : (if ?b then _ else _) = Some _ |- _ => destruct b; try discriminate H
           end;
      injection H1 as <-; injection H2 as <-; exact Hne.
  - unfold JoinStep.get_uuids. simpl. set_solver.
  - unfold JoinStep.get_uuids. simpl. set_solver.
Qed.

(** ** The naming convention of aggregated features *)

Section Split.
Import AggregatedFeatureGroup.

Lemma app_string_nil (s : string) : "" +:+ s = s.
Proof. reflexivity. Qed.

Lemma app_string_cons (c : Ascii.ascii) (a b : string) : String c a +:+ b = String c (a +:+ b).
Proof. reflexivity. Qed.

Lemma length_app_string (a b : string) :
  String.length (a +:+ b) = String.length a + String.length b.
Proof.
  induction a as [|c a IH]; [reflexivity|].
  rewrite app_string_cons. simpl. now rewrite IH.
Qed.

Lemma app_string_inj (a a' x y : string) :
  a +:+ x = a' +:+ y -> String.length a = String.length a' -> a = a' /\ x = y.
Proof.
  revert a'. induction a as [|c a IH]; intros [|c' a'] Heq Hlen;
    try discriminate Hlen.
  - now split.
  - rewrite !app_string_cons in Heq. injection Heq as -> Heq. injection Hlen as Hlen.
    destruct (IH a' Heq Hlen) as [-> ->]. now split.
Qed.

Lemma strip_prefix_spec (p s r : string) : strip_prefix p s = Some r <-> s = p +:+ r.
Proof.
  revert s. induction p as [|a p IH]; intros s.
  - rewrite app_string_nil. simpl. split; [now intros [= ->]|now intros ->].
  - rewrite app_string_cons. destruct s as [|b s]; simpl; [split; discriminate|].
    destruct (Ascii.eqb_spec a b) as [->|Hne].
    + rewrite IH. split; [now intros ->|now intros [= ->]].
    + split; [discriminate|]. intros [= <- _]. now contradiction Hne.
Qed.

Lemma cut_some (sep s a b : string) : cut sep s = Some (a, b) -> s = a +:+ sep +:+ b.
Proof.
  revert a b. induction s as [|c s IH]; intros a b; simpl.
  - destruct (strip_prefix sep "") as [r|] eqn:Hp; [|discriminate].
    intros [= <- <-]. rewrite app_string_nil. now apply strip_prefix_spec.
  - destruct (strip_prefix sep (String c s)) as [r|] eqn:Hp.
    + intros [= <- <-]. rewrite app_string_nil. now apply strip_prefix_spec.
    + destruct (cut sep s) as [[a0 b0]|]; [|discriminate].
      intros [= <- <-]. rewrite app_string_cons. now rewrite (IH a0 b0 eq_refl) at 1.
Qed.

Lemma cut_none (sep s : string) : cut sep s = None -> occurs_nowhere sep s.
Proof.
  induction s as [|c s IH]; simpl.
  - destruct (strip_prefix sep "") as [r|] eqn:Hp; [discriminate|].
    intros _ [|x a] b Heq; [|rewrite app_string_cons in Heq; discriminate Heq].
    rewrite app_string_nil in Heq. apply strip_prefix_spec in Heq. congruence.
  - destruct (strip_prefix sep (String c s)) as [r|] eqn:Hp; [discriminate|].
    destruct (cut sep s) as [[a0 b0]|] eqn:Hcut; [discriminate|].
    intros _ [|x a] b Heq.
    + rewrite app_string_nil in Heq. apply strip_prefix_spec in Heq. congruence.
    + rewrite app_string_cons in Heq. injection Heq as _ Heq. exact (IH eq_refl a b Heq).
Qed.

Lemma cut_leftmost (sep s a b : string) :
  cut sep s = Some (a, b) -> leftmost_after sep a s.
Proof.
  revert a b. induction s as [|c s IH]; intros a b; simpl.
  - destruct (strip_prefix sep "") as [r|]; [|discriminate].
    intros [= <- _] a' b' _. simpl. lia.
  - destruct (strip_prefix sep (String c s)) as [r|] eqn:Hp.
    + intros [= <- _] a' b' _. simpl. lia.
    + destruct (cut sep s) as [[a0 b0]|] eqn:Hcut; [|discriminate].
      intros [= <- <-] [|x a'] b' Heq.
      * rewrite app_string_nil in Heq. apply strip_prefix_spec in Heq. congruence.
      * rewrite app_string_cons in Heq. injection Heq as _ Heq. simpl.
        pose proof (IH a0 b0 eq_refl a' b' Heq). lia.
Qed.

Lemma cut_complete (sep s a b : string) :
  s = a +:+ sep +:+ b -> leftmost_after sep a s -> cut sep s = Some (a, b).
Proof.
  intros Heq Hleft.
  destruct (cut sep s) as [[a0 b0]|] eqn:Hcut.
  - pose proof (cut_some _ _ _ _ Hcut) as Heq0.
    pose proof (cut_leftmost _ _ _ _ Hcut a b Heq) as H1.
    pose proof (Hleft a0 b0 Heq0) as H2.
    assert (Hlen : String.length a0 = String.length a) by lia.
    rewrite Heq in Heq0.
    destruct (app_string_inj a a0 _ _ Heq0 (eq_sym Hlen)) as [<- Hrest].
    destruct (app_string_inj sep sep _ _ Hrest eq_refl) as [_ <-]. reflexivity.
  - exfalso. exact (cut_none _ _ Hcut a b Heq).
Qed.

Lemma cut_none_iff (sep s : string) : cut sep s = None <-> occurs_nowhere sep s.
Proof.
  split; [apply cut_none|]. intros Hno.
  destruct (cut sep s) as [[a b]|] eqn:Hcut; [|reflexivity].
  exfalso. exact (Hno a b (cut_some _ _ _ _ Hcut)).
Qed.

Lemma split_fuel_nonempty fuel sep s : split_fuel fuel sep s <> [].
Proof. destruct fuel; simpl; [discriminate|]. destruct (cut sep s) as [[? ?]|]; discriminate. Qed.

(** The fuel of [split] is never used up: more fuel gives the same parts. *)
Lemma split_fuel_enough (c : Ascii.ascii) (sep' : string) (fuel : nat) :
  forall s fuel',
    String.length s < fuel -> String.length s < fuel' ->
    split_fuel fuel (String c sep') s = split_fuel fuel' (String c sep') s.
Proof.
  induction fuel as [|fuel IH]; intros s fuel' H1 H2; [lia|].
  destruct fuel' as [|fuel']; [lia|]. simpl.
  destruct (cut (String c sep') s) as [[a b]|] eqn:Hcut; [|reflexivity].
  f_equal. apply cut_some in Hcut. subst s.
  rewrite !length_app_string in H1, H2. simpl in H1, H2.
  apply IH; lia.
Qed.

Lemma split_two_parts (c : Ascii.ascii) (sep' s p0 p1 : string) :
  split (String c sep') s = [p0; p1]
  <-> cut (String c sep') s = Some (p0, p1) /\ cut (String c sep') p1 = None.
Proof.
  unfold split. simpl.
  destruct (cut (String c sep') s) as [[a b]|] eqn:Hcut.
  - pose proof (cut_some _ _ _ _ Hcut) as Heq.
    assert (Hlen : 0 < String.length s)
      by (subst s; rewrite !length_app_string; simpl; lia).
    destruct (String.length s) as [|n]; [lia|]. simpl.
    destruct (cut (String c sep') b) as [[a2 b2]|] eqn:Hcut2.
    + split.
      * intros [= _ _ Hnil]. now apply split_fuel_nonempty in Hnil.
      * intros [[= -> ->] Hnone]. congruence.
    + split; [now intros [= -> ->]|now intros [[= -> ->] _]].
  - split; [discriminate|]. intros [Hsome _]. discriminate Hsome.
Qed.
End Split.

Section AggregatedNames.
Import AggregatedFeatureGroup.

Lemma is_empty_false (s : string) : is_empty s = false <-> s <> "".
Proof. unfold is_empty. apply String.eqb_neq. Qed.

(** Both parsers return exactly on the names that split into two non-empty
    parts. *)
Lemma parsers_on_two_parts (feature_name ty src : string) :
  (get_aggregation_type feature_name = Return ty
   /\ mloda_source_feature feature_name = Return src)
  <-> split "_aggr_" feature_name = [ty; src] /\ ty <> "" /\ src <> "".
Proof.
  unfold get_aggregation_type, mloda_source_feature, invalid_name.
  destruct (split "_aggr_" feature_name) as [|p0 [|p1 [|p2 rest]]];
    try (split; [intros [H _]; discriminate H|intros [H _]; discriminate H]).
  destruct (is_empty p0) eqn:H0, (is_empty p1) eqn:H1;
    try (split; [intros [Ha Hb]; discriminate Ha || discriminate Hb|];
         intros ([= -> ->] & Hty & Hsrc);
         apply is_empty_false in Hty; apply is_empty_false in Hsrc; congruence).
  apply is_empty_false in H0. apply is_empty_false in H1. split.
  - intros [[= <-] [= <-]]. auto.
  - intros ([= -> ->] & _ & _). auto.
Qed.

Lemma parsers_raise_together (feature_name : string) :
  is_raise (get_aggregation_type feature_name)
  = is_raise (mloda_source_feature feature_name).
Proof.
  unfold get_aggregation_type, mloda_source_feature, invalid_name.
  destruct (split "_aggr_" feature_name) as [|p0 [|p1 [|p2 rest]]]; try reflexivity.
  destruct (is_empty p0), (is_empty p1); reflexivity.
Qed.

Lemma cut_after_aggregation_type (ty src : string) :
  ty ∈ AGGREGATION_TYPES -> cut "_aggr_" (ty +:+ "_aggr_" +:+ src) = Some (ty, src).
Proof.
  intros Hin. apply list_elem_of_In in Hin. simpl in Hin.
  repeat (destruct Hin as [<-|Hin]; [reflexivity|]). destruct Hin.
Qed.
End AggregatedNames.

Lemma aggregated_name_parsers_invert_the_convention_core
    (feature_name ty src : string) :
  is_raise (AggregatedFeatureGroup.get_aggregation_type feature_name)
  = is_raise (AggregatedFeatureGroup.mloda_source_feature feature_name)
  /\ ((AggregatedFeatureGroup.get_aggregation_type feature_name = Return ty
       /\ AggregatedFeatureGroup.mloda_source_feature feature_name = Return src)
      <-> (feature_name = ty +:+ "_aggr_" +:+ src
           /\ ty <> "" /\ src <> ""
           /\ leftmost_after "_aggr_" ty feature_name
           /\ occurs_nowhere "_aggr_" src)).
Proof.
  split; [apply parsers_raise_together|].
  rewrite parsers_on_two_parts, split_two_parts. split.
  - intros ((Hcut & Hnone) & Hty & Hsrc).
    repeat split; try assumption.
    + now apply cut_some.
    + now apply cut_leftmost in Hcut.
    + now apply cut_none.
  - intros (Heq & Hty & Hsrc & Hleft & Hno).
    repeat split; try assumption.
    + now apply cut_complete.
    + now apply cut_none_iff.
Qed.

(** X21. The two name parsers of the aggregated feature group accept
    exactly the same names.  They return a type [ty] and a source [src] for a
    name if and only if the name is [ty], then [_aggr_], then [src], with
    both parts non-empty, this [_aggr_] being the leftmost one in the name
    and [src] containing no [_aggr_]; so a name they accept is rebuilt from
    what they return. *)
Theorem aggregated_name_parsers_invert_the_convention
    (feature_name ty src : string) :
  is_raise (AggregatedFeatureGroup.get_aggregation_type feature_name)
  = is_raise (AggregatedFeatureGroup.mloda_source_feature feature_name)
  /\ ((AggregatedFeatureGroup.get_aggregation_type feature_name = Return ty
       /\ AggregatedFeatureGroup.mloda_source_feature feature_name = Return src)
      <-> (feature_name = ty +:+ "_aggr_" +:+ src
           /\ ty <> "" /\ src <> ""
           /\ leftmost_after "_aggr_" ty feature_name
           /\ occurs_nowhere "_aggr_" src)).
Proof. apply aggregated_name_parsers_invert_the_convention_core. Qed.

(** X22. [match_feature_group_criteria] never raises, and it answers [True]
    exactly for the names made of a supported aggregation type, [_aggr_],
    and a non-empty source name without [_aggr_] in it. *)
Theorem match_feature_group_criteria_is_the_convention
    (feature_name : FeatureSet.FeatureName + string) :
  let text := match feature_name with
              | inl n => FeatureSet.name_str n
              | inr s => s
              end in
  exists answer,
    AggregatedFeatureGroup.match_feature_group_criteria feature_name = Return answer
    /\ (answer = true <->
        exists ty src,
          ty ∈ AggregatedFeatureGroup.AGGREGATION_TYPES
          /\ src <> ""
          /\ occurs_nowhere "_aggr_" src
          /\ text = ty +:+ "_aggr_" +:+ src).
Proof.
  cbv zeta. unfold AggregatedFeatureGroup.match_feature_group_criteria.
  set (text := match feature_name with
               | inl n => FeatureSet.name_str n
               | inr s => s
               end).
  assert (Hgood : forall ty src,
            ty ∈ AggregatedFeatureGroup.AGGREGATION_TYPES -> src <> "" ->
            occurs_nowhere "_aggr_" src -> text = ty +:+ "_aggr_" +:+ src ->
            AggregatedFeatureGroup.get_aggregation_type text = Return ty).
  { intros ty src Hin Hsrc Hno Heq.
    assert (Hty : ty <> "").
    { intros ->. apply list_elem_of_In in Hin. simpl in Hin.
      repeat (destruct Hin as [Hin|Hin]; [discriminate Hin|]). destruct Hin. }
    apply (proj2 (parsers_on_two_parts text ty src)).
    split; [|auto]. apply split_two_parts. split.
    - rewrite Heq. now apply cut_after_aggregation_type.
    - now apply cut_none_iff. }
  destruct (AggregatedFeatureGroup.get_aggregation_type text) as [e|ty] eqn:Hty.
  - assert (He : exists d, e = ValueError d).
    { unfold AggregatedFeatureGroup.get_aggregation_type,
        AggregatedFeatureGroup.invalid_name in Hty.
      destruct (AggregatedFeatureGroup.split "_aggr_" text) as [|p0 [|p1 [|p2 rest]]];
        try (injection Hty as <-; eexists; reflexivity).
      destruct (AggregatedFeatureGroup.is_empty p0),
               (AggregatedFeatureGroup.is_empty p1);
        try discriminate Hty; injection Hty as <-; eexists; reflexivity. }
    destruct He as [d ->]. exists false. split; [reflexivity|].
    split; [discriminate|]. intros (ty & src & Hin & Hsrc & Hno & Heq).
    discriminate (Hgood ty src Hin Hsrc Hno Heq).
  - exists (AggregatedFeatureGroup._supports_aggregation_type ty).
    split; [reflexivity|]. unfold AggregatedFeatureGroup._supports_aggregation_type.
    rewrite bool_decide_eq_true. split.
    + intros Hin.
      assert (Hsrc : exists src,
                AggregatedFeatureGroup.mloda_source_feature text = Return src).
      { pose proof (parsers_raise_together text) as Hr. rewrite Hty in Hr. simpl in Hr.
        destruct (AggregatedFeatureGroup.mloda_source_feature text) as [e|src];
          [discriminate Hr|now exists src]. }
      destruct Hsrc as [src Hsrc].
      destruct (proj1 (proj2 (aggregated_name_parsers_invert_the_convention_core
                                text ty src)) (conj Hty Hsrc))
        as (Heq & _ & Hne & _ & Hno).
      now exists ty, src.
    + intros (ty' & src & Hin & Hsrc & Hno & Heq).
      pose proof (Hgood ty' src Hin Hsrc Hno Heq) as Hsame.
      injection Hsame as ->. exact Hin.
Qed.

(** ** transform on data that is not of the expected type *)

(** X23. The inherited [transform] never loses data.  With an expected type
    declared: when no converter applies (the transform map is empty and the
    backend names no function for the type of the data), the data is
    returned as it is, without error, also when it is not of the expected
    type; and whatever the converters do, [None] comes out only if [None]
    went in, because a converter's [None] is replaced by the data.  A backend
    that keeps the default [expected_data_framework()], which returns
    [None], cannot use the inherited [transform] at all: it raises a
    [TypeError] for every data. *)
Theorem transform_falls_back_to_the_data
    (cls : ComputeFrameWork.Class) (data : PyVal) (feature_names : gset string)
    (transform_map : ComputeFrameWork.ComputeFrameworkTransformMap) :
  (ComputeFrameWork.expected_data_framework cls <> None ->
   ComputeFrameWork.transform_map_nonempty transform_map = false ->
   ComputeFrameWork.get_framework_transform_functions cls true (type_of data) = None ->
   ComputeFrameWork.transform_base cls data feature_names transform_map = Return data)
  /\ (ComputeFrameWork.transform_base cls data feature_names transform_map = Return PyNone ->
      data = PyNone)
  /\ (ComputeFrameWork.expected_data_framework cls = None ->
      exists msg,
        ComputeFrameWork.transform_base cls data feature_names transform_map
        = Raise (TypeError msg)).
Proof.
  split; [|split].
  - unfold ComputeFrameWork.transform_base, ComputeFrameWork.transform_refactored,
      ComputeFrameWork.isinstance.
    intros Hexp Hmap Hfunc.
    destruct (ComputeFrameWork.expected_data_framework cls) as [T|]; [|contradiction].
    simpl. rewrite Hmap, Hfunc.
    destruct (bool_decide (T ∈ mro_of data)); simpl; [|reflexivity].
    destruct (is_None data); reflexivity.
  - unfold ComputeFrameWork.transform_base.
    destruct (ComputeFrameWork.transform_refactored cls data transform_map) as [e|v];
      [discriminate|].
    destruct v; simpl; try discriminate. now intros [= <-].
  - unfold ComputeFrameWork.transform_base, ComputeFrameWork.transform_refactored,
      ComputeFrameWork.isinstance.
    intros ->. simpl. eexists. reflexivity.
Qed.

(** ** run_calculation without an exchange service, and the order of calls *)

(** X24. Without a location ([None] or the empty string) [run_calculation]
    stays inside the process: whether it returns or raises, the flight
    server, the uuid source, the object ids, the tracker, the declared
    children and the uuid of the instance are as before; and when it
    returns, it returns [None]. *)
Theorem run_calculation_without_location_stays_local
    (cls : ComputeFrameWork.Class) (fg : ComputeFrameWork.FeatureGroup)
    (features : ComputeFrameWork.Features) (location : option string)
    (data_arg : PyVal) (s : ComputeFrameWork.State) :
  str_truthy location = false ->
  let res := ComputeFrameWork.run_calculation cls fg features location data_arg s in
  same_bookkeeping s res.2
  /\ (forall v, res.1 = Return v -> v = PyNone).
Proof.
  intros Hoff. cbv zeta. split.
  - now apply run_calculation_without_location_keeps_bookkeeping.
  - intros v Hv.
    destruct (ComputeFrameWork.run_calculation cls fg features location data_arg s)
      as [r s'] eqn:Hrun.
    simpl in Hv. subst r. unfold ComputeFrameWork.run_calculation in Hrun.
    pose proof (same_bookkeeping_refl s) as Hrel.
    do 10 advance.
    destruct location as [loc|].
    + rewrite Hoff in Hrun. simpl in Hrun. now injection Hrun as <- _.
    + now injection Hrun as <- _.
Qed.

Lemma run_calculation_without_location_stays_local_witness :
  let res := ComputeFrameWork.run_calculation table_cls (fg_answering PyNone) one_feature
               (Some "") PyNone (idle {[ 1%N ]} 7%N) in
  same_bookkeeping (idle {[ 1%N ]} 7%N) res.2
  /\ (forall v, res.1 = Return v -> v = PyNone).
Proof.
  apply (run_calculation_without_location_stays_local table_cls (fg_answering PyNone)
           one_feature (Some "") PyNone (idle {[ 1%N ]} 7%N)).
  reflexivity.
Defined.

Section CallOrder.
Import ComputeFrameWork.

Lemma call_feature_group_logs which ext f features s r s' :
  call_feature_group which ext f features s = (Return r, s') ->
  self s' = self s
  /\ log (world s') = log (world s) ++ [Called which (bool_decide (is_Some ext))].
Proof.
  unfold call_feature_group, bind, get_self, record_call, in_world, modify, lift.
  simpl. destruct ext as [e|]; simpl.
  - destruct (call e f (data (self s)) features); intros [= _ <-];
      simpl; split; repeat f_equal.
  - destruct (f (data (self s)) features); intros [= _ <-];
      simpl; split; repeat f_equal.
Qed.

Lemma run_validate_input_features_logs fg features s s' :
  run_validate_input_features fg features s = (Return tt, s') ->
  self s' = self s
  /\ exists w,
       log (world s')
       = log (world s)
         ++ (if is_None (data (self s)) then [] else [Called VALIDATE_INPUT_FEATURE w]).
Proof.
  unfold run_validate_input_features. intros H.
  apply bind_returns in H as (c & s0 & Hself & H). injection Hself as <- <-.
  destruct (is_None (data (self s))).
  - injection H as <-. split; [reflexivity|]. exists false. now rewrite app_nil_r.
  - apply bind_returns in H as (ext & s1 & Hext & H).
    unfold lift in Hext. injection Hext as _ <-.
    apply bind_returns in H as (r & s2 & Hcall & H).
    apply call_feature_group_logs in Hcall as [Hsame Hcall].
    assert (Hs2 : s2 = s').
    { destruct (is_None r || is_True r); [now injection H|discriminate H]. }
    subst s2. split; [exact Hsame|]. eexists. exact Hcall.
Qed.

Lemma run_validate_output_features_logs fg features s s' :
  run_validate_output_features fg features s = (Return tt, s') ->
  self s' = self s
  /\ exists w,
       log (world s')
       = log (world s)
         ++ (if is_None (data (self s)) then [] else [Called VALIDATE_OUTPUT_FEATURE w]).
Proof.
  unfold run_validate_output_features. intros H.
  apply bind_returns in H as (c & s0 & Hself & H). injection Hself as <- <-.
  destruct (is_None (data (self s))).
  - injection H as <-. split; [reflexivity|]. exists false. now rewrite app_nil_r.
  - apply bind_returns in H as (ext & s1 & Hext & H).
    unfold lift in Hext. injection Hext as _ <-.
    apply bind_returns in H as (r & s2 & Hcall & H).
    apply call_feature_group_logs in Hcall as [Hsame Hcall].
    assert (Hs2 : s2 = s').
    { destruct (is_None r || is_True r); [now injection H|discriminate H]. }
    subst s2. split; [exact Hsame|]. eexists. exact Hcall.
Qed.

Lemma run_calculate_feature_logs fg features s r s' :
  run_calculate_feature fg features s = (Return r, s') ->
  exists w, log (world s') = log (world s) ++ [Called FEATURE_GROUP_CALCULATE_FEATURE w].
Proof.
  unfold run_calculate_feature. intros H.
  apply bind_returns in H as (c & s0 & Hself & H). injection Hself as <- <-.
  apply bind_returns in H as (ext & s1 & Hext & H).
  unfold lift in Hext. injection Hext as _ <-.
  apply call_feature_group_logs in H as [_ H]. eexists. exact H.
Qed.

Lemma upload_finished_data_keeps_log cls loc s h s' :
  upload_finished_data cls loc s = (Return h, s') -> log (world s') = log (world s).
Proof.
  rewrite upload_finished_data_spec. cbv zeta.
  destruct (get_framework_transform_functions cls false pa_Table) as [func|].
  - destruct (func (data (self s))); [discriminate|]. now intros [= _ <-].
  - now intros [= _ <-].
Qed.
End CallOrder.

(** X25. A [run_calculation] that returns has called the feature group in
    pipeline order and no more than once per stage: input validation first,
    and only if the instance had data to validate (its own or the data
    argument), then [calculate_feature] exactly once, then output validation
    at most once.  Without a location the output was validated exactly when
    the data the instance ends up with is not [None]. *)
Theorem run_calculation_calls_in_pipeline_order
    (cls : ComputeFrameWork.Class) (fg : ComputeFrameWork.FeatureGroup)
    (features : ComputeFrameWork.Features) (location : option string)
    (data_arg v : PyVal) (s s' : ComputeFrameWork.State) :
  ComputeFrameWork.run_calculation cls fg features location data_arg s = (Return v, s') ->
  exists (validated_input validated_output : bool) (w_in w_calc w_out : bool),
    log (ComputeFrameWork.world s')
    = log (ComputeFrameWork.world s)
      ++ (if validated_input then [Called VALIDATE_INPUT_FEATURE w_in] else [])
      ++ [Called FEATURE_GROUP_CALCULATE_FEATURE w_calc]
      ++ (if validated_output then [Called VALIDATE_OUTPUT_FEATURE w_out] else [])
    /\ validated_input
       = negb (is_None (if is_None data_arg
                        then ComputeFrameWork.data (ComputeFrameWork.self s)
                        else data_arg))
    /\ (str_truthy location = false ->
        validated_output
        = negb (is_None (ComputeFrameWork.data (ComputeFrameWork.self s')))).
Proof.
  intros Hrun. unfold ComputeFrameWork.run_calculation in Hrun.
  apply bind_returns in Hrun as (u0 & s0 & H0 & Hrun).
  apply bind_returns in Hrun as ([] & s1 & H1 & Hrun).
  apply bind_returns in Hrun as (features' & s2 & H2 & Hrun).
  apply bind_returns in Hrun as (calculated & s3 & H3 & Hrun).
  apply bind_returns in Hrun as (filtered & s4 & H4 & Hrun).
  apply bind_returns in Hrun as (c & s5 & H5 & Hrun).
  apply bind_returns in Hrun as (transformed & s6 & H6 & Hrun).
  apply bind_returns in Hrun as (u7 & s7 & H7 & Hrun).
  apply bind_returns in Hrun as (u8 & s8 & H8 & Hrun).
  apply bind_returns in Hrun as ([] & s9 & H9 & Hrun).
  apply run_validate_input_features_logs in H1 as [_ [w_in Hlog1]].
  apply run_calculate_feature_logs in H3 as [w_calc Hlog3].
  apply run_validate_output_features_logs in H9 as [Hself9 [w_out Hlog9]].
  unfold lift in H2, H4, H6. injection H2 as _ <-. injection H4 as _ <-.
  injection H6 as _ <-. injection H5 as _ <-.
  unfold ComputeFrameWork.modify_self in H7, H8.
  injection H7 as _ <-. injection H8 as _ <-.
  assert (Hdata0 : ComputeFrameWork.data (ComputeFrameWork.self s0)
                   = (if is_None data_arg
                      then ComputeFrameWork.data (ComputeFrameWork.self s)
                      else data_arg)
                   /\ log (ComputeFrameWork.world s0) = log (ComputeFrameWork.world s)).
  { destruct (is_None data_arg); simpl in H0; injection H0 as _ <-; split; reflexivity. }
  destruct Hdata0 as [Hdata0 Hlog0].
  assert (Hend : log (ComputeFrameWork.world s') = log (ComputeFrameWork.world s9)
                 /\ (str_truthy location = false -> s' = s9)).
  { destruct location as [loc|]; [|now injection Hrun as _ <-].
    destruct (str_truthy (Some loc)); simpl in Hrun; [|now injection Hrun as _ <-].
    split; [|discriminate].
    apply bind_returns in Hrun as (self9 & s10 & H10 & Hrun). injection H10 as _ <-.
    match type of Hrun with
    | (if ?b then _ else _) _ = _ => destruct b
    end; [now injection Hrun as _ <-|].
    apply bind_returns in Hrun as (h & s11 & H11 & Hrun).
    apply upload_finished_data_keeps_log in H11.
    apply bind_returns in Hrun as (u12 & s12 & H12 & Hrun).
    injection H12 as _ <-. injection Hrun as _ <-. exact H11. }
  destruct Hend as [Hlog_end Hstay].
  simpl in Hlog9, Hself9.
  exists (negb (is_None (ComputeFrameWork.data (ComputeFrameWork.self s0)))),
         (negb (is_None transformed)), w_in, w_calc, w_out.
  split; [|split; [now rewrite Hdata0|]].
  - rewrite Hlog_end, Hlog9. simpl. rewrite Hlog3, Hlog1, Hlog0.
    destruct (is_None (ComputeFrameWork.data (ComputeFrameWork.self s0))),
             (is_None transformed); simpl; rewrite <- ?app_assoc; reflexivity.
  - intros Hloc. rewrite (Hstay Hloc), Hself9. reflexivity.
Qed.

Lemma run_calculation_calls_in_pipeline_order_witness :
  let s := idle {[ 1%N; 2%N ]} 7%N in
  let res := ComputeFrameWork.run_calculation table_cls (fg_answering PyNone)
               one_feature (Some flight_location) PyNone s in
  res = (Return table_2, res.2)
  /\ exists (validated_input validated_output : bool) (w_in w_calc w_out : bool),
       log (ComputeFrameWork.world res.2)
       = log (ComputeFrameWork.world s)
         ++ (if validated_input then [Called VALIDATE_INPUT_FEATURE w_in] else [])
         ++ [Called FEATURE_GROUP_CALCULATE_FEATURE w_calc]
         ++ (if validated_output then [Called VALIDATE_OUTPUT_FEATURE w_out] else [])
       /\ validated_input
          = negb (is_None (if is_None PyNone
                           then ComputeFrameWork.data (ComputeFrameWork.self s)
                           else PyNone))
       /\ (str_truthy (Some flight_location) = false ->
           validated_output
           = negb (is_None (ComputeFrameWork.data (ComputeFrameWork.self res.2)))).
Proof.
  intros s res.
  assert (Hres : res = (Return table_2, res.2)) by (vm_compute; reflexivity).
  split; [exact Hres|].
  exact (run_calculation_calls_in_pipeline_order table_cls (fg_answering PyNone)
           one_feature (Some flight_location) PyNone table_2 s res.2 Hres).
Defined.
